(** * Nano: a line-oriented scripting language (nano.py)

    A shallow embedding of the interpreter of [nano.py]: the restricted
    expression evaluator [asteval] (class [SafeEval]), the statement
    dispatcher and block engine [interpret_line], the exception log
    [raiseException] and the driver [run_minipy].

    The interpreter's module-level variables (block state, exception log)
    are gathered in one record that every function receives and returns.
    The host's own services (the Python parser behind [ast.parse], the
    textual form of floats, [%]-formatting of strings, [int()] and
    [float()] on input text) are an interface, [Host]; everything proved
    about the interpreter holds for every host. *)

From Stdlib Require Import ZArith Ascii String SpecFloat.
From stdpp Require Import gmap strings list pretty.

Local Open Scope string_scope.
Local Open Scope list_scope.
Local Open Scope Z_scope.

(** ** Python strings

    Characters are code points below 256; the functions follow the methods
    of [str] that the interpreter calls. *)
Module PyStr.

(** [str.isspace] on one character. *)
Definition isspace (c : ascii) : bool :=
  let n := N_of_ascii c in
  ((9 <=? n) && (n <=? 13) || (28 <=? n) && (n <=? 32) ||
   (n =? 133) || (n =? 160))%N.

Definition is_empty (s : string) : bool :=
  match s with EmptyString => true | String _ _ => false end.

(** [s.lstrip()], [s.rstrip()] and [s.strip()], generalised over the
    set of characters to remove ([s.strip(chars)]). *)
Fixpoint lstrip_by (p : ascii -> bool) (s : string) : string :=
  match s with
  | EmptyString => EmptyString
  | String c s' => if p c then lstrip_by p s' else s
  end.

Fixpoint rstrip_by (p : ascii -> bool) (s : string) : string :=
  match s with
  | EmptyString => EmptyString
  | String c s' =>
      let r := rstrip_by p s' in
      if is_empty r && p c then EmptyString else String c r
  end.

Definition strip_by (p : ascii -> bool) (s : string) : string :=
  lstrip_by p (rstrip_by p s).

Definition lstrip : string -> string := lstrip_by isspace.
Definition strip : string -> string := strip_by isspace.

(** [s.strip(chars)] *)
Definition strip_chars (chars : string) (s : string) : string :=
  strip_by (fun c => existsb (Ascii.eqb c) (list_ascii_of_string chars)) s.

(** [s[n:]] for [0 <= n] *)
Fixpoint slice_from (n : nat) (s : string) : string :=
  match n, s with
  | O, _ => s
  | S n', String _ s' => slice_from n' s'
  | S _, EmptyString => EmptyString
  end.

(** [s[:-1]] *)
Fixpoint drop_last (s : string) : string :=
  match s with
  | EmptyString => EmptyString
  | String c s' => if is_empty s' then EmptyString else String c (drop_last s')
  end.

Definition startswith (s p : string) : bool := String.prefix p s.

Fixpoint endswith (s p : string) : bool :=
  String.eqb s p ||
  match s with
  | EmptyString => false
  | String _ s' => endswith s' p
  end.

(** The first word of [s] (no leading whitespace) and what follows it. *)
Fixpoint span_word (s : string) : string * string :=
  match s with
  | EmptyString => (EmptyString, EmptyString)
  | String c s' =>
      if isspace c then (EmptyString, s)
      else let (w, r) := span_word s' in (String c w, r)
  end.

(** [s.split(None, maxsplit)]: words separated by runs of whitespace;
    after [maxsplit] words the remainder is kept whole, with its leading
    whitespace removed and its trailing whitespace left in place.
    [fuel] bounds the number of words and is at least the length of [s]. *)
Fixpoint split_go (fuel : nat) (maxsplit : option nat) (s : string)
  : list string :=
  match fuel with
  | O => []
  | S fuel' =>
      let s1 := lstrip s in
      if is_empty s1 then []
      else match maxsplit with
           | Some O => [s1]
           | _ =>
               let (w, r) := span_word s1 in
               w :: split_go fuel' (Nat.pred <$> maxsplit) r
           end
  end.

Definition split_max (maxsplit : nat) (s : string) : list string :=
  split_go (S (String.length s)) (Some maxsplit) s.

(** [s.split()] *)
Definition split (s : string) : list string :=
  split_go (S (String.length s)) None s.

(** [s.find(sub)]: [None] stands for [-1]. *)
Definition find (s sub : string) : option nat := String.index 0 sub s.

(** [str.splitlines]: the line boundaries among the code points below
    256 are LF, CR, CR LF, VT, FF, FS, GS, RS and NEL. *)
Definition is_linebreak (c : ascii) : bool :=
  let n := N_of_ascii c in
  ((10 <=? n) && (n <=? 13) || (28 <=? n) && (n <=? 30) || (n =? 133))%N.

Fixpoint splitlines_go (cur : string) (s : string) : list string :=
  match s with
  | EmptyString => if is_empty cur then [] else [String.rev cur]
  | String c s' =>
      if is_linebreak c then
        String.rev cur ::
          match s' with
          | String c' s'' =>
              if ((N_of_ascii c =? 13) && (N_of_ascii c' =? 10))%N
              then splitlines_go EmptyString s''
              else splitlines_go EmptyString s'
          | EmptyString => []
          end
      else splitlines_go (String c cur) s'
  end.

Definition splitlines (s : string) : list string :=
  splitlines_go EmptyString s.

(** [s * n] *)
Fixpoint repeat (s : string) (n : nat) : string :=
  match n with
  | O => EmptyString
  | S n' => s +:+ repeat s n'
  end.

Definition newline : string := String (ascii_of_N 10) EmptyString.

End PyStr.


(** ** Values and the syntax tree *)

(** Python's [float] is IEEE 754 binary64. *)
Definition float : Type := spec_float.
Definition prec : Z := 53.
Definition emax : Z := 1024.

(** What a variable can hold: [int], [float], [bool] and [str]. *)
Inductive value : Type :=
| VInt (n : Z)
| VFloat (f : float)
| VBool (b : bool)
| VStr (s : string).

(** The exceptions that can be raised while an expression is parsed and
    visited; [asteval] turns every one of them into a [ValueError]. *)
Inductive evalexn : Type :=
| SyntaxError
| NameError (id : string)
| UnsupportedOperator
| UnsupportedExpression (kind : string)
| TypeError
| ZeroDivisionError
| OverflowError
| IndexError.

(** The exceptions seen by the statement layer. *)
Inductive pyexn : Type :=
| ValueError (cause : evalexn)
| EOFError.

Inductive result (A : Type) : Type :=
| Ok (a : A)
| Raise (e : evalexn).
Arguments Ok {A} a.
Arguments Raise {A} e.

Definition result_bind {A B : Type} (r : result A) (k : A -> result B)
  : result B :=
  match r with
  | Ok a => k a
  | Raise e => Raise e
  end.

(** The nodes of Python's [ast] that [SafeEval] can meet.  A node class or
    an operator class without a case in the visitor is kept by name only.
    A constant carries one of the four kinds of values above. *)
Module ast.

Inductive operator : Type :=
| Add | Sub | Mult | Div | Mod
| OtherOperator (cls : string).

Inductive cmpop : Type :=
| Gt | Lt | Eq | NotEq | GtE | LtE
| OtherCmpop (cls : string).

Inductive unaryop : Type :=
| UAdd | USub
| OtherUnaryop (cls : string).

#[local] Unset Elimination Schemes.
Inductive expr : Type :=
| BinOp (left : expr) (op : operator) (right : expr)
| Compare (left : expr) (ops : list cmpop) (comparators : list expr)
| Constant (v : value)
| Name (id : string)
| UnaryOp (op : unaryop) (operand : expr)
| OtherNode (cls : string).
#[local] Set Elimination Schemes.

(** The root of a tree parsed in mode [eval] (Python's [ast.mod]). *)
Inductive root : Type :=
| Expression (body : expr).

End ast.

(** What the interpreter takes from Python itself. *)
Class Host : Type := {
  (** [ast.parse(text, mode='eval')]; [None] when it raises. *)
  ast_parse : string -> option ast.root;
  (** [str(f)] for a float *)
  float_repr : float -> string;
  (** [fmt % v] for a string [fmt] *)
  str_format : string -> value -> result string;
  (** [int(text)] and [float(text)]; [None] when they raise [ValueError]. *)
  int_of_str : string -> option Z;
  float_of_str : string -> option float;
}.

(** ** Python's arithmetic on values *)

Definition float_is_inf (f : float) : bool :=
  match f with S754_infinity _ => true | _ => false end.

Definition float_is_zero (f : float) : bool :=
  match f with S754_zero _ => true | _ => false end.

Definition float_sign (f : float) : bool :=
  match f with
  | S754_zero s | S754_infinity s | S754_finite s _ _ => s
  | S754_nan => false
  end.

(** [float(n)] for an int: the nearest float, [OverflowError] beyond the
    range of floats. *)
Definition float_of_int (n : Z) : result float :=
  let f := binary_normalize prec emax n 0 false in
  if float_is_inf f then Raise OverflowError else Ok f.

(** An int as an (unrounded) significand with exponent 0. *)
Definition exact_float (n : Z) : float :=
  match n with
  | Z0 => S754_zero false
  | Zpos p => S754_finite false p 0
  | Zneg p => S754_finite true p 0
  end.

(** [a / b] on ints: the quotient of the two integers rounded once, to the
    nearest float. *)
Definition int_true_divide (a b : Z) : result value :=
  if b =? 0 then Raise ZeroDivisionError
  else
    let q := SFdiv prec emax (exact_float a) (exact_float b) in
    if float_is_inf q then Raise OverflowError else Ok (VFloat q).

Definition float_div (x y : float) : result value :=
  if float_is_zero y then Raise ZeroDivisionError
  else Ok (VFloat (SFdiv prec emax x y)).

(** C's [fmod]: the remainder of the truncated division, exact, with the
    sign of [x]. *)
Definition fmod (x y : float) : float :=
  match x, y with
  | S754_nan, _ | _, S754_nan => S754_nan
  | S754_infinity _, _ => S754_nan
  | _, S754_zero _ => S754_nan
  | _, S754_infinity _ => x
  | S754_zero _, _ => x
  | S754_finite sx mx ex, S754_finite _ my ey =>
      let e := Z.min ex ey in
      let r := Z.rem (Zpos mx * 2 ^ (ex - e)) (Zpos my * 2 ^ (ey - e)) in
      binary_normalize prec emax (cond_Zopp sx r) e sx
  end.

(** [x % y] on floats: the result takes the sign of [y]. *)
Definition float_rem (x y : float) : result value :=
  if float_is_zero y then Raise ZeroDivisionError
  else
    let m := fmod x y in
    if float_is_zero m then Ok (VFloat (S754_zero (float_sign y)))
    else if xorb (SFltb y (S754_zero false)) (SFltb m (S754_zero false))
         then Ok (VFloat (SFadd prec emax m y))
         else Ok (VFloat m).

Definition int_mod (a b : Z) : result value :=
  if b =? 0 then Raise ZeroDivisionError else Ok (VInt (a mod b)).

(** Numbers: [bool] is a subclass of [int]. *)
Inductive num : Type :=
| NInt (n : Z)
| NFloat (f : float).

Definition as_num (v : value) : option num :=
  match v with
  | VInt n => Some (NInt n)
  | VBool b => Some (NInt (Z.b2z b))
  | VFloat f => Some (NFloat f)
  | VStr _ => None
  end.

Definition to_float (x : num) : result float :=
  match x with
  | NInt n => float_of_int n
  | NFloat f => Ok f
  end.

(** An operator on two numbers: on ints when both are ints, else on floats
    after conversion. *)
Definition num_binop (on_int : Z -> Z -> result value)
    (on_float : float -> float -> result value) (x y : num) : result value :=
  match x, y with
  | NInt a, NInt b => on_int a b
  | _, _ =>
      result_bind (to_float x) (fun fx =>
      result_bind (to_float y) (fun fy => on_float fx fy))
  end.

Definition arith (on_int : Z -> Z -> result value)
    (on_float : float -> float -> result value) (l r : value) : result value :=
  match as_num l, as_num r with
  | Some x, Some y => num_binop on_int on_float x y
  | _, _ => Raise TypeError
  end.

(** The largest [Py_ssize_t] of a 64-bit host. *)
Definition ssize_max : Z := 2 ^ 63 - 1.

(** [s * n] for a string and an int *)
Definition str_repeat (s : string) (n : Z) : result value :=
  if (n <? - ssize_max - 1) || (ssize_max <? n) then Raise OverflowError
  else if n <=? 0 then Ok (VStr EmptyString)
  else if ssize_max / n <? Z.of_nat (String.length s) then Raise OverflowError
  else Ok (VStr (PyStr.repeat s (Z.to_nat n))).

Definition py_add (l r : value) : result value :=
  match l, r with
  | VStr a, VStr b => Ok (VStr (a +:+ b))
  | _, _ =>
      arith (fun a b => Ok (VInt (a + b)))
            (fun x y => Ok (VFloat (SFadd prec emax x y))) l r
  end.

Definition py_sub (l r : value) : result value :=
  arith (fun a b => Ok (VInt (a - b)))
        (fun x y => Ok (VFloat (SFsub prec emax x y))) l r.

Definition py_mul (l r : value) : result value :=
  match l, r with
  | VStr s, VInt n | VInt n, VStr s => str_repeat s n
  | VStr s, VBool b | VBool b, VStr s => str_repeat s (Z.b2z b)
  | _, _ =>
      arith (fun a b => Ok (VInt (a * b)))
            (fun x y => Ok (VFloat (SFmul prec emax x y))) l r
  end.

Definition py_truediv (l r : value) : result value :=
  arith int_true_divide float_div l r.

Definition py_mod `{Host} (l r : value) : result value :=
  match l with
  | VStr fmt => result_bind (str_format fmt r) (fun s => Ok (VStr s))
  | _ => arith int_mod float_rem l r
  end.

Definition py_pos (v : value) : result value :=
  match as_num v with
  | Some (NInt n) => Ok (VInt n)
  | Some (NFloat f) => Ok (VFloat f)
  | None => Raise TypeError
  end.

Definition py_neg (v : value) : result value :=
  match as_num v with
  | Some (NInt n) => Ok (VInt (- n))
  | Some (NFloat f) => Ok (VFloat (SFopp f))
  | None => Raise TypeError
  end.

(** Exact comparison of an int with a float; [None] for a NaN. *)
Definition int_float_compare (a : Z) (f : float) : option comparison :=
  match f with
  | S754_nan => None
  | S754_infinity s => Some (if s then Datatypes.Gt else Datatypes.Lt)
  | S754_zero _ => Some (a ?= 0)
  | S754_finite s m e =>
      let m' := cond_Zopp s (Zpos m) in
      Some (if 0 <=? e then a ?= m' * 2 ^ e else a * 2 ^ (- e) ?= m')
  end.

Definition num_compare (x y : num) : option comparison :=
  match x, y with
  | NInt a, NInt b => Some (a ?= b)
  | NFloat f, NFloat g => SFcompare f g
  | NInt a, NFloat g => int_float_compare a g
  | NFloat f, NInt b => CompOpp <$> int_float_compare b f
  end.

(** The three-way comparison behind the six comparison operators:
    [Ok None] is "unordered" (a NaN, or values of unrelated types under
    [==]); ordering a string against a number raises [TypeError]. *)
Definition py_compare (l r : value) : option (option comparison) :=
  match l, r with
  | VStr a, VStr b => Some (Some (String.compare a b))
  | _, _ =>
      match as_num l, as_num r with
      | Some x, Some y => Some (num_compare x y)
      | _, _ => None
      end
  end.

Definition py_eq (l r : value) : bool :=
  match py_compare l r with
  | Some (Some Datatypes.Eq) => true
  | _ => false
  end.

Definition py_order (holds : comparison -> bool) (l r : value)
  : result value :=
  match py_compare l r with
  | Some (Some c) => Ok (VBool (holds c))
  | Some None => Ok (VBool false)
  | None => Raise TypeError
  end.

Definition is_Lt (c : comparison) : bool :=
  match c with Datatypes.Lt => true | _ => false end.
Definition is_Gt (c : comparison) : bool :=
  match c with Datatypes.Gt => true | _ => false end.

(** [bool(v)] *)
Definition truthy (v : value) : bool :=
  match v with
  | VInt n => negb (n =? 0)
  | VFloat f => negb (float_is_zero f)
  | VBool b => b
  | VStr s => negb (PyStr.is_empty s)
  end.

(** [str(v)], as [print] writes it *)
Definition py_str `{Host} (v : value) : string :=
  match v with
  | VInt n => pretty n
  | VFloat f => float_repr f
  | VBool true => "True"
  | VBool false => "False"
  | VStr s => s
  end.

(** ** The expression evaluator: [asteval] and its visitor [SafeEval]

    The visitor receives the dictionary [variables] by reference.  An
    evaluation is therefore a computation over that dictionary: it returns
    a value or raises, together with the dictionary as it leaves it. *)

Definition eval (A : Type) : Type :=
  gmap string value -> result A * gmap string value.

Definition eval_ret {A : Type} (a : A) : eval A :=
  fun variables => (Ok a, variables).

Definition eval_raise {A : Type} (e : evalexn) : eval A :=
  fun variables => (Raise e, variables).

Definition eval_bind {A B : Type} (m : eval A) (k : A -> eval B) : eval B :=
  fun variables =>
    match m variables with
    | (Ok a, variables') => k a variables'
    | (Raise e, variables') => (Raise e, variables')
    end.

Definition eval_lift {A : Type} (r : result A) : eval A :=
  fun variables => (r, variables).

Notation "'let*' x ':=' m 'in' k" := (eval_bind m (fun x => k))
  (at level 10, x name, m at level 100, k at level 200, only parsing).

Section SafeEval.
Context `{Host}.

(** [SafeEval.unsupported] *)
Definition unsupported : eval value := eval_raise UnsupportedOperator.

(** [SafeEval.generic_visit] *)
Definition generic_visit (cls : string) : eval value :=
  eval_raise (UnsupportedExpression cls).

(** [SafeEval.visit_Constant] *)
Definition visit_Constant (v : value) : eval value := eval_ret v.

(** [SafeEval.visit_Name] *)
Definition visit_Name (id : string) : eval value :=
  fun variables =>
    match variables !! id with
    | Some v => (Ok v, variables)
    | None => (Raise (NameError id), variables)
    end.

(** The table [ops] of [visit_BinOp], looked up and called. *)
Definition BinOp_ops (op : ast.operator) (left right : value) : eval value :=
  match op with
  | ast.Add => eval_lift (py_add left right)
  | ast.Sub => eval_lift (py_sub left right)
  | ast.Mult => eval_lift (py_mul left right)
  | ast.Div => eval_lift (py_truediv left right)
  | ast.Mod => eval_lift (py_mod left right)
  | ast.OtherOperator _ => unsupported
  end.

(** The table [ops] of [visit_Compare]. *)
Definition Compare_ops (op : ast.cmpop) (left right : value) : eval value :=
  match op with
  | ast.Gt => eval_lift (py_order is_Gt left right)
  | ast.Lt => eval_lift (py_order is_Lt left right)
  | ast.Eq => eval_ret (VBool (py_eq left right))
  | ast.NotEq => eval_ret (VBool (negb (py_eq left right)))
  | ast.GtE => eval_lift (py_order (fun c => negb (is_Lt c)) left right)
  | ast.LtE => eval_lift (py_order (fun c => negb (is_Gt c)) left right)
  | ast.OtherCmpop _ => unsupported
  end.

(** The table [ops] of [visit_UnaryOp]. *)
Definition UnaryOp_ops (op : ast.unaryop) (operand : value) : eval value :=
  match op with
  | ast.UAdd => eval_lift (py_pos operand)
  | ast.USub => eval_lift (py_neg operand)
  | ast.OtherUnaryop _ => unsupported
  end.

(** [SafeEval.visit]: dispatch on the node class to [visit_BinOp],
    [visit_Compare], [visit_Constant], [visit_Name], [visit_UnaryOp] or
    [generic_visit].  [visit_Compare] reads [comparators[0]] and
    [ops[0]] only. *)
Fixpoint visit (node : ast.expr) : eval value :=
  match node with
  | ast.BinOp l op r =>
      let* left := visit l in
      let* right := visit r in
      BinOp_ops op left right
  | ast.Compare l ops comparators =>
      let* left := visit l in
      match comparators with
      | [] => eval_raise IndexError
      | c :: _ =>
          let* right := visit c in
          match ops with
          | [] => eval_raise IndexError
          | op :: _ => Compare_ops op left right
          end
      end
  | ast.Constant v => visit_Constant v
  | ast.Name id => visit_Name id
  | ast.UnaryOp op e =>
      let* operand := visit e in
      UnaryOp_ops op operand
  | ast.OtherNode cls => generic_visit cls
  end.

(** [SafeEval.visit_Expression] *)
Definition visit_Expression (node : ast.root) : eval value :=
  match node with
  | ast.Expression body => visit body
  end.

(** [asteval(expr, variables)]: whatever is raised inside comes out as a
    [ValueError]. *)
Definition asteval (expr : string) (variables : gmap string value)
  : (value + pyexn) * gmap string value :=
  match ast_parse expr with
  | None => (inr (ValueError SyntaxError), variables)
  | Some tree =>
      match visit_Expression tree variables with
      | (Ok v, variables') => (inl v, variables')
      | (Raise e, variables') => (inr (ValueError e), variables')
      end
  end.

End SafeEval.

(** ** Interpreter state

    The module-level variables of [nano.py], the dictionary [variables]
    that [run_minipy] creates and passes to every call, and the two
    standard streams.  [stdout] holds the texts written so far, oldest
    first; [stdin] the lines still to be read. *)
Record state : Type := mkState {
  variables : gmap string value;
  in_block : bool;
  block_type : option string;
  block_lines : list string;
  current_condition : value;
  executed_a_branch : bool;
  while_condition : string;
  raisedexceptions : list string;
  exceptioncount : Z;
  stdout : list string;
  stdin : list string;
}.

Definition set_variables (x : gmap string value) (st : state) : state :=
  mkState x (in_block st) (block_type st) (block_lines st)
    (current_condition st) (executed_a_branch st) (while_condition st)
    (raisedexceptions st) (exceptioncount st) (stdout st) (stdin st).

Definition set_in_block (x : bool) (st : state) : state :=
  mkState (variables st) x (block_type st) (block_lines st)
    (current_condition st) (executed_a_branch st) (while_condition st)
    (raisedexceptions st) (exceptioncount st) (stdout st) (stdin st).

Definition set_block_type (x : option string) (st : state) : state :=
  mkState (variables st) (in_block st) x (block_lines st)
    (current_condition st) (executed_a_branch st) (while_condition st)
    (raisedexceptions st) (exceptioncount st) (stdout st) (stdin st).

Definition set_block_lines (x : list string) (st : state) : state :=
  mkState (variables st) (in_block st) (block_type st) x
    (current_condition st) (executed_a_branch st) (while_condition st)
    (raisedexceptions st) (exceptioncount st) (stdout st) (stdin st).

Definition set_current_condition (x : value) (st : state) : state :=
  mkState (variables st) (in_block st) (block_type st) (block_lines st)
    x (executed_a_branch st) (while_condition st)
    (raisedexceptions st) (exceptioncount st) (stdout st) (stdin st).

Definition set_executed_a_branch (x : bool) (st : state) : state :=
  mkState (variables st) (in_block st) (block_type st) (block_lines st)
    (current_condition st) x (while_condition st)
    (raisedexceptions st) (exceptioncount st) (stdout st) (stdin st).

Definition set_while_condition (x : string) (st : state) : state :=
  mkState (variables st) (in_block st) (block_type st) (block_lines st)
    (current_condition st) (executed_a_branch st) x
    (raisedexceptions st) (exceptioncount st) (stdout st) (stdin st).

Definition set_stdin (x : list string) (st : state) : state :=
  mkState (variables st) (in_block st) (block_type st) (block_lines st)
    (current_condition st) (executed_a_branch st) (while_condition st)
    (raisedexceptions st) (exceptioncount st) (stdout st) x.

(** One write to standard output. *)
Definition write (text : string) (st : state) : state :=
  mkState (variables st) (in_block st) (block_type st) (block_lines st)
    (current_condition st) (executed_a_branch st) (while_condition st)
    (raisedexceptions st) (exceptioncount st) (stdout st ++ [text]) (stdin st).

Definition commands : list string :=
  ["let"; "print"; "if"; "elif"; "else"; "while"].

Definition exceptionslist : list string :=
  ["Unknown command"; "Invalid syntax"; "Illegal statement";
   "Missing opening brace '{'"].

(** [raiseException(type_, line, linenum)] *)
Definition raiseException (type_ line : string) (linenum : Z) (st : state)
  : state :=
  mkState (variables st) (in_block st) (block_type st) (block_lines st)
    (current_condition st) (executed_a_branch st) (while_condition st)
    (raisedexceptions st ++
       [type_ +:+ ": Line " +:+ pretty (linenum + 1) +:+ ": " +:+ line])
    (exceptioncount st + 1) (stdout st) (stdin st).

(** How a call ends: it returns, or an exception leaves it, or the model
    ran out of fuel before it ended. *)
Inductive outcome : Type :=
| Done (st : state)
| Raised (e : pyexn) (st : state)
| OutOfFuel.

(** How the replay of a block body ends: the loop ran to its end, or a
    [return] in it left [interpret_line] (the [break] line), or an
    exception did, or the fuel ran out. *)
Inductive flow : Type :=
| Next (st : state)
| Return (st : state)
| Throw (e : pyexn) (st : state)
| Timeout.

(** ** Statements: [interpret_line] outside a block (lines 134-227) *)
Section Statements.
Context `{Host}.

Definition InvalidSyntax : string := exceptionslist !!! 1%nat.
Definition MissingOpeningBrace : string := exceptionslist !!! 3%nat.
Definition UnknownCommand : string := exceptionslist !!! 0%nat.

(** [keyword == "let"] *)
Definition do_let (line : string) (linenum : Z) (st : state) : state :=
  let parts := PyStr.split_max 2 line in
  if (length parts <? 3)%nat
     || negb (PyStr.startswith (parts !!! 2%nat) "=")
  then raiseException InvalidSyntax line linenum st
  else
    let name := parts !!! 1%nat in
    let value_expr := PyStr.strip (PyStr.slice_from 1 (parts !!! 2%nat)) in
    match asteval value_expr (variables st) with
    | (inl v, variables') => set_variables (<[name := v]> variables') st
    | (inr _, variables') =>
        raiseException InvalidSyntax line linenum
          (set_variables variables' st)
    end.

(** [keyword == "print"] *)
Definition do_print (line : string) (linenum : Z) (st : state) : state :=
  let expr := PyStr.strip (PyStr.slice_from 6 line) in
  match asteval expr (variables st) with
  | (inl v, variables') =>
      write (py_str v +:+ PyStr.newline) (set_variables variables' st)
  | (inr _, variables') =>
      raiseException InvalidSyntax line linenum (set_variables variables' st)
  end.

(** [keyword in ("if", "elif")] *)
Definition do_if (keyword line : string) (linenum : Z) (st : state)
  : state :=
  let condition_part :=
    PyStr.strip (PyStr.slice_from (String.length keyword) line) in
  if negb (PyStr.endswith condition_part "{")
  then raiseException MissingOpeningBrace line linenum st
  else
    let condition := PyStr.strip (PyStr.drop_last condition_part) in
    let st := set_in_block true st in
    let st := set_block_type (Some keyword) st in
    match asteval condition (variables st) with
    | (inl v, variables') =>
        set_current_condition v (set_variables variables' st)
    | (inr _, variables') =>
        raiseException InvalidSyntax line linenum
          (set_variables variables' st)
    end.

(** [keyword == "else"] *)
Definition do_else (line : string) (linenum : Z) (st : state) : state :=
  let rest := PyStr.strip (PyStr.slice_from (String.length "else") line) in
  if negb (String.eqb rest "{")
  then raiseException MissingOpeningBrace line linenum st
  else set_block_type (Some "else") (set_in_block true st).

(** [keyword == "while"] *)
Definition do_while (line : string) (linenum : Z) (st : state) : state :=
  let condition_part :=
    PyStr.strip (PyStr.slice_from (String.length "while") line) in
  if negb (PyStr.endswith condition_part "{")
  then raiseException MissingOpeningBrace line linenum st
  else
    let condition := PyStr.strip (PyStr.drop_last condition_part) in
    set_while_condition condition
      (set_block_type (Some "while") (set_in_block true st)).

Definition quote : string := String (ascii_of_N 34) EmptyString.

(** [keyword == "input"]: the prompt is written, then one line is read;
    at the end of the input [input()] raises [EOFError], which the
    handler catches like any other exception. *)
Definition do_input (line : string) (linenum : Z) (st : state) : state :=
  let parts := PyStr.split line in
  if (length parts <? 2)%nat
  then raiseException InvalidSyntax line linenum st
  else
    let varname := parts !!! 1%nat in
    let custom_prompt :=
      match PyStr.find line "prompt" with
      | Some prompt_index =>
          PyStr.strip
            (PyStr.slice_from (prompt_index + String.length "prompt") line)
      | None => EmptyString
      end in
    let st := write (PyStr.strip_chars quote custom_prompt) st in
    match stdin st with
    | [] => raiseException InvalidSyntax line linenum st
    | user_input :: rest =>
        let value :=
          match int_of_str user_input with
          | Some n => VInt n
          | None =>
              match float_of_str user_input with
              | Some f => VFloat f
              | None => VStr user_input
              end
          end in
        set_variables (<[varname := value]> (variables st))
          (set_stdin rest st)
    end.

(** The dispatch on the first word of the line. *)
Definition statement (line : string) (linenum : Z) (st : state) : state :=
  let tokens := PyStr.split (PyStr.strip line) in
  match tokens with
  | [] => st
  | keyword :: _ =>
      if String.eqb keyword "let" then do_let line linenum st
      else if String.eqb keyword "print" then do_print line linenum st
      else if String.eqb keyword "if" || String.eqb keyword "elif"
      then do_if keyword line linenum st
      else if String.eqb keyword "else" then do_else line linenum st
      else if String.eqb keyword "while" then do_while line linenum st
      else if String.eqb keyword "input" then do_input line linenum st
      else raiseException UnknownCommand line linenum st
  end.

End Statements.

(** ** The block engine: [interpret_line] inside a block (lines 101-132) *)
Section Replay.
Context `{Host}.

(** The recursive call [interpret_line(bline, variables, linenum)]. *)
Variable interpret : string -> state -> outcome.

(** [for bline in block_lines: ...].  The iterator reads the one global
    list by index on every step, so lines appended while the body runs
    are reached too.  With [breaks], the body is that of the [while]
    branch, whose first statement returns on the line [break]. *)
Fixpoint for_lines (breaks : bool) (fuel : nat) (i : nat) (st : state)
  : flow :=
  match block_lines st !! i with
  | None => Next st
  | Some bline =>
      if breaks && String.eqb bline "break" then Return st
      else
        match fuel with
        | O => Timeout
        | S fuel' =>
            match interpret bline st with
            | Done st' => for_lines breaks fuel' (S i) st'
            | Raised e st' => Throw e st'
            | OutOfFuel => Timeout
            end
        end
  end.

(** [while asteval(while_condition, variables): for ...] (lines 108-112);
    the condition is evaluated outside any [try]. *)
Fixpoint while_loop (fuel : nat) (st : state) : flow :=
  match asteval (while_condition st) (variables st) with
  | (inr e, variables') => Throw e (set_variables variables' st)
  | (inl c, variables') =>
      let st := set_variables variables' st in
      if truthy c then
        match fuel with
        | O => Timeout
        | S fuel' =>
            match for_lines true fuel' 0 st with
            | Next st' => while_loop fuel' st'
            | other => other
            end
        end
      else Next st
  end.

(** Lines 126-128, reached when the branch taken ran to its end. *)
Definition clear_block (st : state) : outcome :=
  Done (set_block_type None (set_block_lines [] st)).

Definition finish (after : state -> state) (f : flow) : outcome :=
  match f with
  | Next st => clear_block (after st)
  | Return st => Done st
  | Throw e st => Raised e st
  | Timeout => OutOfFuel
  end.

(** Lines 105-128: the line is the closing brace. *)
Definition close_block (fuel : nat) (st : state) : outcome :=
  let st := set_in_block false st in
  if decide (block_type st = Some "while") then
    finish id (while_loop fuel st)
  else if decide (block_type st = Some "else") then
    if negb (executed_a_branch st)
    then finish (set_executed_a_branch false) (for_lines false fuel 0 st)
    else clear_block (set_executed_a_branch false st)
  else if decide (block_type st = Some "if" \/ block_type st = Some "elif")
  then
    if truthy (current_condition st) && negb (executed_a_branch st)
    then finish (set_executed_a_branch true) (for_lines false fuel 0 st)
    else clear_block st
  else clear_block st.

End Replay.

Section Interpreter.
Context `{Host}.

(** [interpret_line(line, variables, linenum)].  Closing a block costs
    one unit of fuel, and so does every line replayed and every pass of a
    [while]; nothing else does. *)
Fixpoint interpret_line (fuel : nat) (line : string) (linenum : Z)
    (st : state) : outcome :=
  if in_block st then
    if String.eqb line "}" then
      match fuel with
      | O => OutOfFuel
      | S fuel' =>
          close_block (fun bline => interpret_line fuel' bline linenum)
            fuel' st
      end
    else Done (set_block_lines (block_lines st ++ [line]) st)
  else Done (statement line linenum st).

(** The loop of [run_minipy] over the numbered lines (lines 251-252). *)
Fixpoint run_lines (fuel : nat) (lines : list string) (linenum : Z)
    (st : state) : outcome :=
  match lines with
  | [] => Done st
  | line :: rest =>
      match interpret_line fuel (PyStr.strip line) linenum st with
      | Done st' => run_lines fuel rest (linenum + 1) st'
      | other => other
      end
  end.

End Interpreter.

(** colorama's [Fore], imported as [sty] *)
Module sty.
Definition ESC : string := String (ascii_of_N 27) EmptyString.
Definition RED : string := ESC +:+ "[31m".
Definition GREEN : string := ESC +:+ "[32m".
Definition RESET : string := ESC +:+ "[39m".
End sty.

Section Run.
Context `{Host}.

(** The state after the reset at the head of [run_minipy]. *)
Definition initial_state (input : list string) : state :=
  mkState ∅ false None [] (VBool false) false EmptyString [] 0 [] input.

(** Lines 254-256: the log, then the return code. *)
Definition report (st : state) : state :=
  let st :=
    foldl (fun s exception =>
             write (PyStr.newline +:+ sty.RED +:+ exception +:+ sty.RESET
                    +:+ PyStr.newline) s)
          st (raisedexceptions st) in
  write (PyStr.newline
         +:+ (if exceptioncount st =? 0 then sty.GREEN else sty.RED)
         +:+ "Exited with return code: " +:+ pretty (exceptioncount st)
         +:+ sty.RESET +:+ PyStr.newline) st.

(** [run_minipy(code)], reading its input from [input]. *)
Definition run_minipy (fuel : nat) (code : string) (input : list string)
  : outcome :=
  match run_lines fuel (PyStr.splitlines code) 0 (initial_state input) with
  | Done st => Done (report st)
  | other => other
  end.

End Run.

(** ** A small host

    A parser for a fragment of Python's expressions, enough to run whole
    programs in closed examples: decimal integer literals, names, [True]
    and [False], parentheses, unary [+ -], binary [* / %] and [+ -], and
    chains of comparisons, with Python's precedences.  A text outside
    the fragment is not parsed ([None]).  The theorems below are about
    every host; this one serves concrete runs only. *)
Module Mini.

Inductive token : Type :=
| TNum (n : Z)
| TName (id : string)
| TOp (op : string)
| TLParen
| TRParen.

Definition is_digit (c : ascii) : bool :=
  let n := N_of_ascii c in ((48 <=? n) && (n <=? 57))%N.

Definition is_name_start (c : ascii) : bool :=
  let n := N_of_ascii c in
  ((65 <=? n) && (n <=? 90) || (97 <=? n) && (n <=? 122) || (n =? 95))%N.

Definition is_name_char (c : ascii) : bool :=
  is_name_start c || is_digit c.

Fixpoint span_by (p : ascii -> bool) (s : string) : string * string :=
  match s with
  | EmptyString => (EmptyString, EmptyString)
  | String c s' =>
      if p c then let (w, r) := span_by p s' in (String c w, r)
      else (EmptyString, s)
  end.

Definition digit_value (c : ascii) : Z := Z.of_N (N_of_ascii c) - 48.

Definition decimal (digits : string) : Z :=
  foldl (fun acc c => 10 * acc + digit_value c) 0
        (list_ascii_of_string digits).

Definition reserved : list string :=
  ["None"; "and"; "as"; "assert"; "async"; "await"; "break"; "class";
   "continue"; "def"; "del"; "elif"; "else"; "except"; "finally"; "for";
   "from"; "global"; "if"; "import"; "in"; "is"; "lambda"; "nonlocal";
   "not"; "or"; "pass"; "raise"; "return"; "try"; "while"; "with"; "yield"].

Definition two_char_ops : list string := ["<="; ">="; "=="; "!="].
Definition one_char_ops : list string := ["+"; "-"; "*"; "/"; "%"; "<"; ">"].

Fixpoint lex (fuel : nat) (s : string) : option (list token) :=
  match fuel with
  | O => None
  | S fuel' =>
      match s with
      | EmptyString => Some []
      | String c s' =>
          if (N_of_ascii c =? 32)%N || (N_of_ascii c =? 9)%N then lex fuel' s'
          else if is_digit c then
            let (digits, rest) := span_by is_digit s in
            if (N_of_ascii c =? 48)%N && negb (String.eqb digits "0")
            then None
            else cons (TNum (decimal digits)) <$> lex fuel' rest
          else if is_name_start c then
            let (id, rest) := span_by is_name_char s in
            if bool_decide (id ∈ reserved) then None
            else cons (TName id) <$> lex fuel' rest
          else if (N_of_ascii c =? 40)%N then cons TLParen <$> lex fuel' s'
          else if (N_of_ascii c =? 41)%N then cons TRParen <$> lex fuel' s'
          else
            let two := String.substring 0 2 s in
            let one := String.substring 0 1 s in
            if bool_decide (two ∈ two_char_ops)
            then cons (TOp two) <$> lex fuel' (PyStr.slice_from 2 s)
            else if bool_decide (one ∈ one_char_ops)
            then cons (TOp one) <$> lex fuel' s'
            else None
      end
  end.

Definition parsed : Type := option (ast.expr * list token).

Definition binary_of (op : string) : option ast.operator :=
  if String.eqb op "+" then Some ast.Add
  else if String.eqb op "-" then Some ast.Sub
  else if String.eqb op "*" then Some ast.Mult
  else if String.eqb op "/" then Some ast.Div
  else if String.eqb op "%" then Some ast.Mod
  else None.

Definition compare_of (op : string) : option ast.cmpop :=
  if String.eqb op ">" then Some ast.Gt
  else if String.eqb op "<" then Some ast.Lt
  else if String.eqb op "==" then Some ast.Eq
  else if String.eqb op "!=" then Some ast.NotEq
  else if String.eqb op ">=" then Some ast.GtE
  else if String.eqb op "<=" then Some ast.LtE
  else None.

Definition is_additive (op : string) : bool :=
  String.eqb op "+" || String.eqb op "-".

Definition is_multiplicative (op : string) : bool :=
  String.eqb op "*" || String.eqb op "/" || String.eqb op "%".

Section Levels.
(** A whole expression between parentheses. *)
Variable parse_inner : list token -> parsed.

Definition parse_atom (ts : list token) : parsed :=
  match ts with
  | TNum n :: rest => Some (ast.Constant (VInt n), rest)
  | TName id :: rest =>
      if String.eqb id "True" then Some (ast.Constant (VBool true), rest)
      else if String.eqb id "False"
      then Some (ast.Constant (VBool false), rest)
      else Some (ast.Name id, rest)
  | TLParen :: rest =>
      match parse_inner rest with
      | Some (e, TRParen :: rest') => Some (e, rest')
      | _ => None
      end
  | _ => None
  end.

Fixpoint parse_factor (ts : list token) : parsed :=
  match ts with
  | TOp op :: rest =>
      if String.eqb op "+" then
        '(e, rest') ← parse_factor rest; Some (ast.UnaryOp ast.UAdd e, rest')
      else if String.eqb op "-" then
        '(e, rest') ← parse_factor rest; Some (ast.UnaryOp ast.USub e, rest')
      else None
  | _ => parse_atom ts
  end.

(** [left (op operand)*] for the operators that [level] admits, left
    associative. *)
Fixpoint parse_chain (level : string -> bool)
    (operand : list token -> parsed) (fuel : nat) (left : ast.expr)
    (ts : list token) : parsed :=
  match fuel, ts with
  | S fuel', TOp op :: rest =>
      if level op then
        match binary_of op, operand rest with
        | Some o, Some (e, rest') =>
            parse_chain level operand fuel' (ast.BinOp left o e) rest'
        | _, _ => None
        end
      else Some (left, ts)
  | _, _ => Some (left, ts)
  end.

Definition parse_term (ts : list token) : parsed :=
  '(e, rest) ← parse_factor ts;
  parse_chain is_multiplicative parse_factor (length rest) e rest.

Definition parse_arith (ts : list token) : parsed :=
  '(e, rest) ← parse_term ts;
  parse_chain is_additive parse_term (length rest) e rest.

(** [(cmpop arith)*] *)
Fixpoint parse_comparators (fuel : nat) (ts : list token)
  : option (list ast.cmpop * list ast.expr * list token) :=
  match fuel, ts with
  | S fuel', TOp op :: rest =>
      match compare_of op with
      | Some o =>
          '(e, rest') ← parse_arith rest;
          '(ops, es, rest'') ← parse_comparators fuel' rest';
          Some (o :: ops, e :: es, rest'')
      | None => Some ([], [], ts)
      end
  | _, _ => Some ([], [], ts)
  end.

Definition parse_comparison (ts : list token) : parsed :=
  '(e, rest) ← parse_arith ts;
  '(ops, comparators, rest') ← parse_comparators (length rest) rest;
  match ops with
  | [] => Some (e, rest')
  | _ => Some (ast.Compare e ops comparators, rest')
  end.
End Levels.

Fixpoint parse_expr (fuel : nat) (ts : list token) : parsed :=
  match fuel with
  | O => None
  | S fuel' => parse_comparison (parse_expr fuel') ts
  end.

Definition parse (text : string) : option ast.root :=
  ts ← lex (S (String.length text)) text;
  match parse_expr (S (length ts)) ts with
  | Some (e, []) => Some (ast.Expression e)
  | _ => None
  end.

(** [int(text)] for an optional sign and decimal digits between optional
    whitespace. *)
Definition int_of (text : string) : option Z :=
  let s := PyStr.strip text in
  let (negative, body) :=
    match s with
    | String c s' =>
        if (N_of_ascii c =? 45)%N then (true, s')
        else if (N_of_ascii c =? 43)%N then (false, s')
        else (false, s)
    | EmptyString => (false, s)
    end in
  let (digits, rest) := span_by is_digit body in
  if PyStr.is_empty digits || negb (PyStr.is_empty rest) then None
  else Some (cond_Zopp negative (decimal digits)).

(** The float is written as its significand and binary exponent, not in
    Python's decimal form; no string is formatted and no input text is
    read as a float. *)
Definition float_text (f : float) : string :=
  match f with
  | S754_zero s => if s then "-0.0" else "0.0"
  | S754_infinity s => if s then "-inf" else "inf"
  | S754_nan => "nan"
  | S754_finite s m e =>
      (if s then "-" else "") +:+ pretty (Zpos m) +:+ "*2**" +:+ pretty e
  end.

#[export] Instance host : Host := {|
  ast_parse := parse;
  float_repr := float_text;
  str_format := fun _ _ => Raise TypeError;
  int_of_str := int_of;
  float_of_str := fun _ => None;
|}.

End Mini.

(** ** Vocabulary of the statements below *)

(** The first word of a line, as [interpret_line] takes it. *)
Definition keyword_of (line : string) : option string :=
  head (PyStr.split (PyStr.strip line)).

(** What follows the keyword, as the block-opening handlers take it. *)
Definition remainder (keyword line : string) : string :=
  PyStr.strip (PyStr.slice_from (String.length keyword) line).

(** The condition text of a block-opening line. *)
Definition condition_of (keyword line : string) : string :=
  PyStr.strip (PyStr.drop_last (remainder keyword line)).

(** The record that [raiseException] appends. *)
Definition record (type_ line : string) (linenum : Z) : string :=
  type_ +:+ ": Line " +:+ pretty (linenum + 1) +:+ ": " +:+ line.

(** A line that opens no block: its first word is none of the four block
    keywords. *)
Definition simple (line : string) : bool :=
  match keyword_of line with
  | Some keyword =>
      negb (String.eqb keyword "if" || String.eqb keyword "elif"
            || String.eqb keyword "else" || String.eqb keyword "while")
  | None => true
  end.

(** A line that opens a block of kind [keyword] on the condition text
    [condition]. *)
Definition opens (keyword line condition : string) : Prop :=
  keyword_of line = Some keyword /\
  PyStr.endswith (remainder keyword line) "{" = true /\
  condition_of keyword line = condition.

(** The statements of a body, run one after the other as line [linenum]. *)
Section Bodies.
Context `{Host}.

Definition exec_body (body : list string) (linenum : Z) (st : state)
  : state :=
  foldl (fun s line => statement line linenum s) st body.

(** What [interpret_line] does with a body line other than the closing
    brace: buffer it while a block is open, run it otherwise. *)
Definition body_step (linenum : Z) (st : state) (line : string) : state :=
  if in_block st then set_block_lines (block_lines st ++ [line]) st
  else statement line linenum st.

Definition replay (body : list string) (linenum : Z) (st : state) : state :=
  foldl (body_step linenum) st body.
End Bodies.

(** What a program can observe of a state, and the block engine's part. *)
Definition observable (st : state)
  : gmap string value * list string * list string * list string * Z :=
  (variables st, stdout st, stdin st, raisedexceptions st, exceptioncount st).

Definition block_part (st : state)
  : bool * option string * list string * value * bool * string :=
  (in_block st, block_type st, block_lines st, current_condition st,
   executed_a_branch st, while_condition st).

(** The count of exceptions agrees with the log. *)
Definition log_ok (st : state) : Prop :=
  exceptioncount st = Z.of_nat (length (raisedexceptions st)).

(** From [st] to [st'] the log only grew, and the count grew with it. *)
Definition log_grows (st st' : state) : Prop :=
  exists added,
    raisedexceptions st' = raisedexceptions st ++ added /\
    exceptioncount st' = exceptioncount st + Z.of_nat (length added).

Definition outcome_state (o : outcome) : option state :=
  match o with
  | Done st | Raised _ st => Some st
  | OutOfFuel => None
  end.

Definition flow_state (f : flow) : option state :=
  match f with
  | Next st | Return st | Throw _ st => Some st
  | Timeout => None
  end.

(** A state with its block part replaced. *)
Definition with_block
    (b : bool * option string * list string * value * bool * string)
    (st : state) : state :=
  let '(active, kind, body, condition, taken, loop_condition) := b in
  mkState (variables st) active kind body condition taken loop_condition
    (raisedexceptions st) (exceptioncount st) (stdout st) (stdin st).

(** A program line that can stand in the body of a block without opening
    a block of its own: once trimmed, it is simple and is not the closing
    brace. *)
Definition body_line (line : string) : Prop :=
  simple (PyStr.strip line) = true /\ PyStr.strip line <> "}".

(** An [else] line with its brace. *)
Definition opens_else (line : string) : Prop :=
  keyword_of line = Some "else" /\ remainder "else" line = "{".

(** The number of the closing line of a block opened on line [linenum]. *)
Definition closing (linenum : Z) (body : list string) : Z :=
  linenum + 1 + Z.of_nat (length body).

(** The lines of a block: its opening line, its body, the closing brace. *)
Definition block (header : string) (body : list string) : list string :=
  header :: body ++ ["}"].

(** ** States and programs of the closed examples *)

(** A [while] block about to be closed, with a [break] in its body. *)
Definition loop_with_break : state :=
  mkState {["n" := VInt 1]} true (Some "while")
    ["print n"; "break"; "print 2"] (VBool false) false "n < 5" [] 0 [] [].

(** The state of the counting loop: [x] is 0. *)
Definition x_is_zero : state :=
  set_variables {["x" := VInt 0]} (initial_state []).

(** A chain whose three conditions all hold, and the same chain after an
    [if] block without [else] whose condition holds too. *)
Definition chain_example : list string :=
  block "if 1 {" ["print 1"] ++ block "elif 1 {" ["print 2"]
  ++ block "else {" ["print 3"].

Definition chain_after_if : list string :=
  block "if 1 {" [] ++ chain_example.

(** A loop whose condition names a variable that was never assigned,
    followed by one more line. *)
Definition undefined_loop : string :=
  "while y < 3 {" +:+ PyStr.newline +:+ "}" +:+ PyStr.newline +:+ "print 1".

(** A loop left by [break], and an [if] block after it. *)
Definition loop_left_by_break : list string :=
  block "while 1 {" ["print 1"; "break"].

Definition if_after_break : list string :=
  loop_left_by_break ++ block "if 1 {" ["print 2"].

(** ** Vocabulary of the further properties *)

(** A line made of whitespace only. *)
Definition blank (line : string) : bool :=
  forallb PyStr.isspace (list_ascii_of_string line).

(** The first words that [interpret_line] has a handler for. *)
Definition handled_keywords : list string :=
  ["let"; "print"; "if"; "elif"; "else"; "while"; "input"].

(** The messages that the handlers pass to [raiseException]. *)
Definition raised_messages : list string :=
  [UnknownCommand; InvalidSyntax; MissingOpeningBrace].

(** From [st] to [st'] the log grew by records that all carry the line
    number [linenum] and one of the three messages. *)
Definition log_grows_at (linenum : Z) (st st' : state) : Prop :=
  exists added,
    raisedexceptions st' = raisedexceptions st ++ added /\
    Forall (fun r => exists type_ line,
                type_ ∈ raised_messages /\ r = record type_ line linenum)
           added.

(** No buffered line is the closing brace. *)
Definition buffer_clean (st : state) : Prop :=
  Forall (fun line => line <> "}") (block_lines st).

(** The names that the visitor looks up when every operation succeeds:
    those of both operands of a binary operation, of the operand of a
    unary one, and of the left operand and the first comparator of a
    comparison. *)
Fixpoint reads (node : ast.expr) : list string :=
  match node with
  | ast.BinOp l _ r => reads l ++ reads r
  | ast.Compare l _ comparators =>
      reads l ++ match comparators with
                 | [] => []
                 | c :: _ => reads c
                 end
  | ast.Constant _ => []
  | ast.Name id => [id]
  | ast.UnaryOp _ e => reads e
  | ast.OtherNode _ => []
  end.


(** The expressions that the visitor has a case for in every position it
    evaluates: no node class, binary, unary or (first) comparison operator
    outside its tables. *)
Fixpoint whitelisted (node : ast.expr) : bool :=
  match node with
  | ast.BinOp l op r =>
      whitelisted l && whitelisted r
      && match op with ast.OtherOperator _ => false | _ => true end
  | ast.Compare l ops comparators =>
      whitelisted l
      && match comparators with
         | [] => false
         | c :: _ => whitelisted c
         end
      && match ops with
         | [] | ast.OtherCmpop _ :: _ => false
         | _ => true
         end
  | ast.Constant _ | ast.Name _ => true
  | ast.UnaryOp op e =>
      whitelisted e
      && match op with ast.OtherUnaryop _ => false | _ => true end
  | ast.OtherNode _ => false
  end.

(** The expression text of a [print] line and of a [let] line. *)
Definition print_text (line : string) : string :=
  PyStr.strip (PyStr.slice_from 6 line).

Definition let_text (line : string) : string :=
  PyStr.strip (PyStr.slice_from 1 (PyStr.split_max 2 line !!! 2%nat)).

(** A line that opens a block when it is run as a statement. *)
Definition block_opener (line : string) : Prop :=
  (exists keyword condition,
      (keyword = "if" \/ keyword = "elif" \/ keyword = "while") /\
      opens keyword line condition)
  \/ opens_else line.

(** The value that [input] stores for the text read. *)
Definition input_value `{Host} (user_input : string) : value :=
  match int_of_str user_input with
  | Some n => VInt n
  | None =>
      match float_of_str user_input with
      | Some f => VFloat f
      | None => VStr user_input
      end
  end.

(** The prompt that [input] writes for a line. *)
Definition input_prompt (line : string) : string :=
  PyStr.strip_chars quote
    match PyStr.find line "prompt" with
    | Some prompt_index =>
        PyStr.strip
          (PyStr.slice_from (prompt_index + String.length "prompt") line)
    | None => EmptyString
    end.

(** The text that [run_minipy] writes for one record of the log. *)
Definition exception_text (exception : string) : string :=
  PyStr.newline +:+ sty.RED +:+ exception +:+ sty.RESET +:+ PyStr.newline.

(** The last text that [run_minipy] writes. *)
Definition return_code_text (code : Z) : string :=
  PyStr.newline +:+ (if code =? 0 then sty.GREEN else sty.RED)
  +:+ "Exited with return code: " +:+ pretty code +:+ sty.RESET
  +:+ PyStr.newline.

(** The counting loop of C3 with its body buffered, about to be closed. *)
Definition counting_loop : state :=
  mkState {["x" := VInt 0]} true (Some "while")
    ["print x"; "let x = x + 1"] (VBool false) false "x < 3" [] 0 [] [].

(** A loop on an undefined variable, about to be closed. *)
Definition undefined_loop_state : state :=
  mkState ∅ true (Some "while") ["print 1"] (VBool false) false "y < 3"
    [] 0 [] [].

(** An [if] block whose body opens a block of its own, about to be
    closed. *)
Definition nested_if : state :=
  mkState ∅ true (Some "if") ["print 0"; "if 1 {"; "print 1"] (VInt 1)
    false EmptyString [] 0 [] [].


(** An [if] block whose body holds two failing lines, about to be
    closed. *)
Definition failing_body : state :=
  mkState ∅ true (Some "if") ["oops"; "print 1"; "let"] (VInt 1) false
    EmptyString [] 0 [] [].

(** ** The evaluator leaves the dictionary alone *)

Lemma expr_ind (P : ast.expr -> Prop) :
  (forall l op r, P l -> P r -> P (ast.BinOp l op r)) ->
  (forall l ops comparators,
      P l -> Forall P comparators -> P (ast.Compare l ops comparators)) ->
  (forall v, P (ast.Constant v)) ->
  (forall id, P (ast.Name id)) ->
  (forall op e, P e -> P (ast.UnaryOp op e)) ->
  (forall cls, P (ast.OtherNode cls)) ->
  forall e, P e.
Proof.
  intros HB HC HK HN HU HO.
  fix IH 1. intros [l op r | l ops cs | v | id | op e | cls].
  - apply HB; apply IH.
  - apply HC; [apply IH|].
    induction cs as [|c cs IHcs]; constructor; [apply IH | exact IHcs].
  - apply HK.
  - apply HN.
  - apply HU, IH.
  - apply HO.
Qed.

Section EvalFrame.
Context `{Host}.

Lemma eval_lift_frame {A : Type} (r : result A) variables :
  snd (eval_lift r variables) = variables.
Proof. reflexivity. Qed.

Lemma eval_bind_frame {A B : Type} (m : eval A) (k : A -> eval B) variables :
  snd (m variables) = variables ->
  (forall a, snd (k a variables) = variables) ->
  snd (eval_bind m k variables) = variables.
Proof.
  unfold eval_bind. intros Hm Hk.
  destruct (m variables) as [[a|e] variables'] eqn:E; simpl in Hm; subst.
  - apply Hk.
  - reflexivity.
Qed.

Lemma BinOp_ops_frame op l r variables :
  snd (BinOp_ops op l r variables) = variables.
Proof. destruct op; reflexivity. Qed.

Lemma Compare_ops_frame op l r variables :
  snd (Compare_ops op l r variables) = variables.
Proof. destruct op; reflexivity. Qed.

Lemma UnaryOp_ops_frame op v variables :
  snd (UnaryOp_ops op v variables) = variables.
Proof. destruct op; reflexivity. Qed.

Lemma visit_Name_frame id variables :
  snd (visit_Name id variables) = variables.
Proof. unfold visit_Name. destruct (variables !! id); reflexivity. Qed.

Lemma visit_frame node :
  forall variables, snd (visit node variables) = variables.
Proof.
  induction node as [l op r IHl IHr | l ops cs IHl IHcs | v | id | op e IHe | cls]
    using expr_ind; intros variables; simpl.
  - apply eval_bind_frame; [apply IHl|]. intros a.
    apply eval_bind_frame; [apply IHr|]. intros b.
    apply BinOp_ops_frame.
  - apply eval_bind_frame; [apply IHl|]. intros a.
    destruct cs as [|c cs]; [reflexivity|].
    apply eval_bind_frame; [apply (Forall_inv IHcs)|]. intros b.
    destruct ops; [reflexivity | apply Compare_ops_frame].
  - reflexivity.
  - apply visit_Name_frame.
  - apply eval_bind_frame; [apply IHe|]. intros a. apply UnaryOp_ops_frame.
  - reflexivity.
Qed.

Lemma asteval_frame expr variables :
  snd (asteval expr variables) = variables.
Proof.
  unfold asteval. destruct (ast_parse expr) as [[tree]|]; [|reflexivity].
  simpl. pose proof (visit_frame tree variables) as Hv.
  destruct (visit tree variables) as [[v|e] variables']; exact Hv.
Qed.

(** An evaluation is its result paired with the dictionary it was
    given. *)
Lemma asteval_eta expr variables :
  asteval expr variables = (fst (asteval expr variables), variables).
Proof.
  rewrite <- (asteval_frame expr variables) at 3.
  destruct (asteval expr variables); reflexivity.
Qed.
End EvalFrame.

(** ** One call of [interpret_line] *)

Section Steps.
Context `{Host}.

Lemma interpret_line_idle fuel line linenum st :
  in_block st = false ->
  interpret_line fuel line linenum st = Done (statement line linenum st).
Proof. intros Hidle. destruct fuel; simpl; rewrite Hidle; reflexivity. Qed.

Lemma interpret_line_buffer fuel line linenum st :
  in_block st = true -> line <> "}" ->
  interpret_line fuel line linenum st
  = Done (set_block_lines (block_lines st ++ [line]) st).
Proof.
  intros Hin Hline. apply String.eqb_neq in Hline.
  destruct fuel; simpl; rewrite Hin, Hline; reflexivity.
Qed.

Lemma interpret_line_body_step fuel line linenum st :
  line <> "}" ->
  interpret_line fuel line linenum st = Done (body_step linenum st line).
Proof.
  intros Hline. unfold body_step. destruct (in_block st) eqn:Hin.
  - apply interpret_line_buffer; assumption.
  - apply interpret_line_idle; assumption.
Qed.

Lemma interpret_line_close fuel linenum st :
  in_block st = true ->
  interpret_line (S fuel) "}" linenum st
  = close_block (fun bline => interpret_line fuel bline linenum) fuel st.
Proof. intros Hin. simpl. rewrite Hin. reflexivity. Qed.

(** The statement is chosen by the first word. *)
Lemma statement_keyword line linenum st keyword :
  keyword_of line = Some keyword ->
  statement line linenum st =
    if String.eqb keyword "let" then do_let line linenum st
    else if String.eqb keyword "print" then do_print line linenum st
    else if String.eqb keyword "if" || String.eqb keyword "elif"
    then do_if keyword line linenum st
    else if String.eqb keyword "else" then do_else line linenum st
    else if String.eqb keyword "while" then do_while line linenum st
    else if String.eqb keyword "input" then do_input line linenum st
    else raiseException UnknownCommand line linenum st.
Proof.
  unfold keyword_of, statement. intros Hk.
  destruct (PyStr.split (PyStr.strip line)) as [|k tokens]; simplify_eq/=.
  reflexivity.
Qed.

Lemma statement_blank line linenum st :
  keyword_of line = None -> statement line linenum st = st.
Proof.
  unfold keyword_of, statement. intros Hk.
  destruct (PyStr.split (PyStr.strip line)); simplify_eq/=. reflexivity.
Qed.
End Steps.

(** ** The exception log *)

Section Log.
Context `{Host}.

Lemma log_grows_refl st : log_grows st st.
Proof. exists []. rewrite app_nil_r. simpl. split; [reflexivity | lia]. Qed.

Lemma log_grows_same st st' :
  raisedexceptions st' = raisedexceptions st ->
  exceptioncount st' = exceptioncount st ->
  log_grows st st'.
Proof.
  intros Hlog Hcount. exists []. rewrite app_nil_r, Hlog, Hcount. simpl.
  split; [reflexivity | lia].
Qed.

Lemma log_grows_trans st1 st2 st3 :
  log_grows st1 st2 -> log_grows st2 st3 -> log_grows st1 st3.
Proof.
  intros (a & Ha & Ca) (b & Hb & Cb). exists (a ++ b).
  rewrite Hb, Ha, Cb, Ca, length_app, <- app_assoc.
  split; [reflexivity | lia].
Qed.

Lemma log_grows_raise st st' type_ line linenum :
  log_grows st st' -> log_grows st (raiseException type_ line linenum st').
Proof.
  intros Hg. eapply log_grows_trans; [exact Hg|].
  exists [record type_ line linenum]. split; reflexivity.
Qed.

Lemma log_grows_ok st st' : log_ok st -> log_grows st st' -> log_ok st'.
Proof.
  unfold log_ok. intros Hok (a & Ha & Ca). rewrite Ca, Ha, Hok, length_app. lia.
Qed.

Lemma statement_log_grows line linenum st :
  log_grows st (statement line linenum st).
Proof.
  unfold statement, do_let, do_print, do_if, do_else, do_while, do_input.
  repeat case_match;
    first [ apply log_grows_raise; apply log_grows_same; reflexivity
          | apply log_grows_same; reflexivity ].
Qed.

Section Loops.
Variable interpret : string -> state -> outcome.
Hypothesis interpret_log :
  forall line st st',
    outcome_state (interpret line st) = Some st' -> log_grows st st'.

Lemma for_lines_log breaks fuel :
  forall i st st',
    flow_state (for_lines interpret breaks fuel i st) = Some st' ->
    log_grows st st'.
Proof.
  induction fuel as [|fuel IH]; intros i st st'; simpl;
    destruct (block_lines st !! i) as [bline|];
    try destruct (breaks && String.eqb bline "break");
    simpl; intros Hst'; simplify_eq; try apply log_grows_refl.
  destruct (interpret bline st) as [s|e s|] eqn:E; simpl in Hst';
    simplify_eq.
  - eapply log_grows_trans; [|eapply IH; eassumption].
    apply (interpret_log bline). rewrite E. reflexivity.
  - apply (interpret_log bline). rewrite E. reflexivity.
Qed.

Lemma while_loop_log fuel :
  forall st st',
    flow_state (while_loop interpret fuel st) = Some st' ->
    log_grows st st'.
Proof.
  induction fuel as [|fuel IH]; intros st st'; simpl;
    destruct (asteval (while_condition st) (variables st))
      as [[c|e] variables'];
    try destruct (truthy c); simpl; intros Hst'; simplify_eq;
    try (apply log_grows_same; reflexivity).
  destruct (for_lines interpret true fuel 0 (set_variables variables' st))
    as [s|s|e s|] eqn:E; simpl in Hst'; simplify_eq.
  - eapply log_grows_trans; [|eapply IH; eassumption].
    eapply log_grows_trans;
      [|eapply for_lines_log; rewrite E; reflexivity].
    apply log_grows_same; reflexivity.
  - eapply log_grows_trans;
      [|eapply for_lines_log; rewrite E; reflexivity].
    apply log_grows_same; reflexivity.
  - eapply log_grows_trans;
      [|eapply for_lines_log; rewrite E; reflexivity].
    apply log_grows_same; reflexivity.
Qed.

Lemma finish_log (after : state -> state) f st st' :
  (forall s, log_grows s (after s)) ->
  (forall s, flow_state f = Some s -> log_grows st s) ->
  outcome_state (finish after f) = Some st' -> log_grows st st'.
Proof.
  intros Hafter Hf. destruct f as [s|s|e s|]; simpl; intros Hst';
    simplify_eq; try (apply Hf; reflexivity).
  eapply log_grows_trans; [apply Hf; reflexivity|].
  eapply log_grows_trans; [apply Hafter|].
  apply log_grows_same; reflexivity.
Qed.

Lemma close_block_log fuel st st' :
  outcome_state (close_block interpret fuel st) = Some st' ->
  log_grows st st'.
Proof.
  unfold close_block, clear_block.
  assert (Hopen : log_grows st (set_in_block false st))
    by (apply log_grows_same; reflexivity).
  repeat case_match; intros Hst';
    try (simpl in Hst'; simplify_eq; apply log_grows_same; reflexivity);
    (eapply log_grows_trans; [exact Hopen|]);
    (eapply finish_log; [| |exact Hst']);
    try (intros s; apply log_grows_same; reflexivity);
    intros s Hs.
  - eapply while_loop_log; eassumption.
  - eapply for_lines_log; eassumption.
  - eapply for_lines_log; eassumption.
Qed.
End Loops.

Lemma interpret_line_log fuel :
  forall line linenum st st',
    outcome_state (interpret_line fuel line linenum st) = Some st' ->
    log_grows st st'.
Proof.
  induction fuel as [|fuel IH]; intros line linenum st st'; simpl;
    destruct (in_block st); try destruct (String.eqb line "}");
    simpl; intros Hst'; simplify_eq;
    try apply statement_log_grows;
    try (apply log_grows_same; reflexivity).
  eapply close_block_log; [|exact Hst'].
  intros l s s'. apply IH.
Qed.

Lemma run_lines_log fuel lines :
  forall linenum st st',
    outcome_state (run_lines fuel lines linenum st) = Some st' ->
    log_grows st st'.
Proof.
  induction lines as [|line rest IH]; intros linenum st st'; simpl.
  - intros; simplify_eq. apply log_grows_refl.
  - destruct (interpret_line fuel (PyStr.strip line) linenum st)
      as [s|e s|] eqn:E; simpl; intros Hst'; simplify_eq.
    + eapply log_grows_trans; [|eapply IH; eassumption].
      eapply interpret_line_log. rewrite E. reflexivity.
    + eapply interpret_line_log. rewrite E. reflexivity.
Qed.
End Log.

(** ** Statements and the block state *)

Section Frames.
Context `{Host}.

Lemma set_variables_id st : set_variables (variables st) st = st.
Proof. destruct st; reflexivity. Qed.

(** No statement touches the buffer of body lines. *)
Lemma statement_block_lines line linenum st :
  block_lines (statement line linenum st) = block_lines st.
Proof.
  unfold statement, do_let, do_print, do_if, do_else, do_while, do_input.
  repeat case_match; reflexivity.
Qed.

(** A simple line leaves the whole block state as it is. *)
Lemma statement_simple_block_part line linenum st :
  simple line = true ->
  block_part (statement line linenum st) = block_part st.
Proof.
  unfold simple. destruct (keyword_of line) as [keyword|] eqn:Hk.
  - rewrite (statement_keyword _ _ _ _ Hk). intros Hs.
    apply negb_true_iff in Hs.
    repeat (apply orb_false_iff in Hs as [Hs ?]).
    rewrite Hs. simpl. repeat match goal with E : String.eqb _ _ = false |- _ =>
      rewrite E; clear E end.
    unfold do_let, do_print, do_input.
    repeat case_match; reflexivity.
  - intros _. rewrite statement_blank by assumption. reflexivity.
Qed.

(** What a statement lets a program observe depends on what could be
    observed before it, not on the block state. *)
Lemma statement_observable line linenum st st' :
  observable st = observable st' ->
  observable (statement line linenum st)
  = observable (statement line linenum st').
Proof.
  destruct st, st'. unfold observable. simpl. intros Heq. simplify_eq.
  unfold statement, do_let, do_print, do_if, do_else, do_while, do_input.
  simpl. repeat case_match; simplify_eq/=; reflexivity.
Qed.

Lemma exec_body_observable body linenum :
  forall st st',
    observable st = observable st' ->
    observable (exec_body body linenum st)
    = observable (exec_body body linenum st').
Proof.
  induction body as [|line body IH]; intros st st' Heq; simpl.
  - exact Heq.
  - apply IH, statement_observable, Heq.
Qed.

Lemma exec_body_simple_block_part body linenum :
  forall st,
    Forall (fun line => simple line = true) body ->
    block_part (exec_body body linenum st) = block_part st.
Proof.
  induction body as [|line body IH]; intros st Hsimple; simpl.
  - reflexivity.
  - inversion Hsimple; subst. rewrite IH by assumption.
    apply statement_simple_block_part. assumption.
Qed.

Lemma exec_body_app body1 body2 linenum st :
  exec_body (body1 ++ body2) linenum st
  = exec_body body2 linenum (exec_body body1 linenum st).
Proof. apply foldl_app. Qed.
End Frames.

(** ** Replaying a body *)

Section ReplayLemmas.
Context `{Host}.

(** A body of simple lines is run line by line, to its end; under
    [breaks], provided none of its lines is [break]. *)
Lemma for_lines_simple fuel' linenum breaks todo :
  forall fuel done st,
    block_lines st = done ++ todo ->
    in_block st = false ->
    Forall (fun line => simple line = true) todo ->
    (breaks = true -> Forall (fun line => line <> "break") todo) ->
    (length todo <= fuel)%nat ->
    for_lines (fun bline => interpret_line fuel' bline linenum)
      breaks fuel (length done) st
    = Next (exec_body todo linenum st).
Proof.
  induction todo as [|line todo IH];
    intros fuel done st Hlines Hidle Hsimple Hbreak Hfuel.
  - rewrite app_nil_r in Hlines.
    destruct fuel; simpl; rewrite Hlines, lookup_ge_None_2 by lia;
      reflexivity.
  - inversion Hsimple as [|? ? Hline Htodo]; subst.
    destruct fuel as [|fuel]; [simpl in Hfuel; lia|].
    simpl. rewrite Hlines, lookup_app_r, Nat.sub_diag by lia. simpl.
    assert (breaks && String.eqb line "break" = false) as ->.
    { destruct breaks; [|reflexivity]. simpl. apply String.eqb_neq.
      specialize (Hbreak eq_refl). inversion Hbreak; assumption. }
    rewrite interpret_line_idle by assumption.
    pose proof (statement_simple_block_part line linenum st Hline) as Hpart.
    unfold block_part in Hpart. simplify_eq.
    replace (S (length done)) with (length (done ++ [line]))
      by (rewrite length_app; simpl; lia).
    apply IH.
    + rewrite <- app_assoc. simpl. congruence.
    + congruence.
    + assumption.
    + intros Hb. specialize (Hbreak Hb). inversion Hbreak; assumption.
    + simpl in Hfuel. lia.
Qed.

(** Up to the first line [break], the lines of a [while] body go
    through [interpret_line] one by one; at that line the replay
    returns.  Lines appended to the buffer meanwhile come after it. *)
Lemma for_lines_until_break fuel' linenum todo :
  forall fuel done st,
    (done ++ todo ++ ["break"]) `prefix_of` block_lines st ->
    Forall (fun line => line <> "break" /\ line <> "}") todo ->
    (length todo <= fuel)%nat ->
    for_lines (fun bline => interpret_line fuel' bline linenum)
      true fuel (length done) st
    = Return (replay todo linenum st).
Proof.
  induction todo as [|line todo IH];
    intros fuel done st [extra Hlines] Htodo Hfuel.
  - assert (block_lines st !! length done = Some "break") as Hat.
    { rewrite Hlines, <- app_assoc, lookup_app_r, Nat.sub_diag by lia.
      reflexivity. }
    destruct fuel; simpl; rewrite Hat; reflexivity.
  - inversion Htodo as [|? ? [Hnb Hnc] Htodo']; subst.
    destruct fuel as [|fuel]; [simpl in Hfuel; lia|].
    assert (block_lines st !! length done = Some line) as Hat.
    { rewrite Hlines, <- app_assoc, lookup_app_r, Nat.sub_diag by lia.
      reflexivity. }
    simpl. rewrite Hat. apply String.eqb_neq in Hnb. rewrite Hnb.
    rewrite interpret_line_body_step by assumption.
    replace (S (length done)) with (length (done ++ [line]))
      by (rewrite length_app; simpl; lia).
    apply IH.
    + unfold body_step. destruct (in_block st).
      * exists (extra ++ [line]). simpl. rewrite Hlines.
        rewrite <- !app_assoc. reflexivity.
      * exists extra. rewrite statement_block_lines, Hlines.
        rewrite <- !app_assoc. reflexivity.
    + assumption.
    + simpl in Hfuel. lia.
Qed.
End ReplayLemmas.

(** ** The claims *)

(** C8: for every expression text and every dictionary of variables,
    evaluating the expression hands the dictionary back as it received
    it, whether the evaluation returns a value or raises; the same holds
    of the visitor on every syntax tree. *)
Theorem asteval_leaves_variables `{Host} (expr : string)
    (variables : gmap string value) :
  snd (asteval expr variables) = variables /\
  forall node, snd (visit node variables) = variables.
Proof.
  split; [apply asteval_frame|]. intros node. apply visit_frame.
Qed.

(** C6: outside a block, a line whose first word is [if], [elif] or
    [while] and whose remainder does not end with the opening brace is
    answered by exactly one "Missing opening brace" record; no block is
    opened and nothing else changes: the condition is not evaluated and
    the variables are as before. *)
Theorem missing_opening_brace `{Host} (fuel : nat) (keyword line : string)
    (linenum : Z) (st : state) :
  in_block st = false ->
  keyword_of line = Some keyword ->
  keyword = "if" \/ keyword = "elif" \/ keyword = "while" ->
  PyStr.endswith (remainder keyword line) "{" = false ->
  exists st',
    interpret_line fuel line linenum st = Done st' /\
    st' = raiseException MissingOpeningBrace line linenum st /\
    raisedexceptions st'
    = raisedexceptions st ++ [record MissingOpeningBrace line linenum] /\
    exceptioncount st' = exceptioncount st + 1 /\
    in_block st' = false /\
    block_part st' = block_part st /\
    variables st' = variables st.
Proof.
  intros Hidle Hk Hkw Hbrace.
  exists (raiseException MissingOpeningBrace line linenum st).
  split; [|repeat split; simpl; try assumption; reflexivity].
  rewrite interpret_line_idle by assumption. f_equal.
  rewrite (statement_keyword _ _ _ _ Hk).
  unfold remainder in Hbrace.
  destruct Hkw as [-> | [-> | ->]]; simpl; unfold do_if, do_while;
    rewrite Hbrace; reflexivity.
Qed.

Lemma missing_opening_brace_witness :
  exists st',
    @interpret_line Mini.host 0 "while x < 3" 4 (initial_state []) = Done st'
    /\
    st' = raiseException MissingOpeningBrace "while x < 3" 4 (initial_state [])
    /\ raisedexceptions st'
       = raisedexceptions (initial_state [])
         ++ [record MissingOpeningBrace "while x < 3" 4] /\
    exceptioncount st' = exceptioncount (initial_state []) + 1 /\
    in_block st' = false /\
    block_part st' = block_part (initial_state []) /\
    variables st' = variables (initial_state []).
Proof.
  apply (@missing_opening_brace Mini.host 0 "while" "while x < 3" 4
           (initial_state [])).
  - reflexivity.
  - vm_compute. reflexivity.
  - right; right; reflexivity.
  - vm_compute. reflexivity.
Defined.

Section ReportLemmas.
Context `{Host}.

Lemma foldl_write_fields (texts : list string) (f : string -> string) :
  forall st,
    let st' := foldl (fun s text => write (f text) s) st texts in
    raisedexceptions st' = raisedexceptions st /\
    exceptioncount st' = exceptioncount st.
Proof.
  induction texts as [|text texts IH]; intros st; simpl.
  - split; reflexivity.
  - apply (IH (write (f text) st)).
Qed.

Lemma report_fields st :
  raisedexceptions (report st) = raisedexceptions st /\
  exceptioncount (report st) = exceptioncount st.
Proof.
  unfold report. simpl.
  apply (foldl_write_fields (raisedexceptions st)
           (fun exception =>
              PyStr.newline +:+ sty.RED +:+ exception +:+ sty.RESET
              +:+ PyStr.newline) st).
Qed.

Lemma report_last st :
  last (stdout (report st))
  = Some (PyStr.newline
          +:+ (if exceptioncount st =? 0 then sty.GREEN else sty.RED)
          +:+ "Exited with return code: " +:+ pretty (exceptioncount st)
          +:+ sty.RESET +:+ PyStr.newline).
Proof.
  unfold report. simpl. rewrite last_snoc.
  destruct (foldl_write_fields (raisedexceptions st)
           (fun exception =>
              PyStr.newline +:+ sty.RED +:+ exception +:+ sty.RESET
              +:+ PyStr.newline) st) as [_ ->].
  reflexivity.
Qed.
End ReportLemmas.

(** C10: the exception count equals the length of the exception log all
    along a run.  Both are zero in the initial state; [raiseException]
    appends one record and adds one to the count; a call of
    [interpret_line], however it ends, only extends the log and keeps the
    count in step; so the equality holds after every prefix of the
    program, in the final state, and the return code reported on the last
    line of the output is the number of records. *)
Theorem exception_count_matches_log `{Host} (fuel : nat) (code : string)
    (input : list string) :
  (raisedexceptions (initial_state input) = [] /\
   exceptioncount (initial_state input) = 0) /\
  (forall type_ line linenum st,
      raisedexceptions (raiseException type_ line linenum st)
      = raisedexceptions st ++ [record type_ line linenum] /\
      exceptioncount (raiseException type_ line linenum st)
      = exceptioncount st + 1) /\
  (forall n line linenum st st',
      log_ok st ->
      outcome_state (interpret_line n line linenum st) = Some st' ->
      log_grows st st' /\ log_ok st') /\
  (forall k st,
      outcome_state
        (run_lines fuel (take k (PyStr.splitlines code)) 0
           (initial_state input)) = Some st ->
      exceptioncount st = Z.of_nat (length (raisedexceptions st))) /\
  (forall st,
      outcome_state (run_minipy fuel code input) = Some st ->
      exceptioncount st = Z.of_nat (length (raisedexceptions st))) /\
  (forall st,
      run_minipy fuel code input = Done st ->
      last (stdout st)
      = Some (PyStr.newline
              +:+ (if Z.of_nat (length (raisedexceptions st)) =? 0
                   then sty.GREEN else sty.RED)
              +:+ "Exited with return code: "
              +:+ pretty (Z.of_nat (length (raisedexceptions st)))
              +:+ sty.RESET +:+ PyStr.newline)).
Proof.
  assert (Hinit : log_ok (initial_state input)) by reflexivity.
  assert (Hrun : forall lines st,
             outcome_state (run_lines fuel lines 0 (initial_state input))
             = Some st -> log_ok st).
  { intros lines st Hst. eapply log_grows_ok; [exact Hinit|].
    eapply run_lines_log. exact Hst. }
  repeat split.
  - eapply interpret_line_log; eassumption.
  - eapply log_grows_ok; [eassumption|].
    eapply interpret_line_log; eassumption.
  - intros k st. apply Hrun.
  - intros st. unfold run_minipy.
    destruct (run_lines fuel (PyStr.splitlines code) 0 (initial_state input))
      as [s|e s|] eqn:E; simpl; intros Hst; simplify_eq.
    + destruct (report_fields s) as [Hlog Hcount].
      rewrite Hlog, Hcount. apply (Hrun (PyStr.splitlines code)).
      rewrite E. reflexivity.
    + apply (Hrun (PyStr.splitlines code)). rewrite E. reflexivity.
  - intros st. unfold run_minipy.
    destruct (run_lines fuel (PyStr.splitlines code) 0 (initial_state input))
      as [s|e s|] eqn:E; intros Hst; simplify_eq.
    destruct (report_fields s) as [Hlog Hcount].
    rewrite report_last, Hlog.
    assert (Hs : log_ok s)
      by (apply (Hrun (PyStr.splitlines code)); rewrite E; reflexivity).
    unfold log_ok in Hs. rewrite Hs. reflexivity.
Qed.

Section WhileLemmas.
Context `{Host}.

(** One pass of a [while] whose condition holds. *)
Lemma while_loop_pass interpret fuel st c :
  fst (asteval (while_condition st) (variables st)) = inl c ->
  truthy c = true ->
  while_loop interpret (S fuel) st
  = match for_lines interpret true fuel 0 st with
    | Next st' => while_loop interpret fuel st'
    | other => other
    end.
Proof.
  intros Hc Ht. simpl. rewrite asteval_eta, Hc, Ht, set_variables_id.
  reflexivity.
Qed.

(** The end of a [while] whose condition does not hold. *)
Lemma while_loop_exit interpret fuel st c :
  fst (asteval (while_condition st) (variables st)) = inl c ->
  truthy c = false ->
  while_loop interpret fuel st = Next st.
Proof.
  intros Hc Ht.
  destruct fuel; simpl; rewrite asteval_eta, Hc, Ht, set_variables_id;
    reflexivity.
Qed.

(** A condition that fails to evaluate: the exception leaves the loop. *)
Lemma while_loop_raise interpret fuel st e :
  fst (asteval (while_condition st) (variables st)) = inr e ->
  while_loop interpret fuel st = Throw e st.
Proof.
  intros He.
  destruct fuel; simpl; rewrite asteval_eta, He, set_variables_id;
    reflexivity.
Qed.

Lemma close_block_while interpret fuel st :
  block_type st = Some "while" ->
  close_block interpret fuel st
  = finish id (while_loop interpret fuel (set_in_block false st)).
Proof.
  intros Hty. unfold close_block. simpl. rewrite Hty.
  rewrite decide_True by reflexivity. reflexivity.
Qed.
End WhileLemmas.

(** C4: when a [while] block is closed, its condition holds, and its
    buffered body has a line [break], the lines before the first such
    line go through [interpret_line] once, in order, and there the call
    returns: no later line of the body runs, the condition is not
    evaluated again and there is no further pass, whatever the condition
    is worth by then. *)
Theorem break_ends_while `{Host} (fuel : nat) (linenum : Z) (st : state)
    (pre post : list string) (c : value) :
  in_block st = true ->
  block_type st = Some "while" ->
  block_lines st = pre ++ "break" :: post ->
  Forall (fun line => line <> "break" /\ line <> "}") pre ->
  fst (asteval (while_condition st) (variables st)) = inl c ->
  truthy c = true ->
  (length pre + 2 <= fuel)%nat ->
  interpret_line fuel "}" linenum st
  = Done (replay pre linenum (set_in_block false st)).
Proof.
  intros Hin Hty Hlines Hpre Hc Ht Hfuel.
  destruct fuel as [|[|fuel]]; [lia | lia |].
  rewrite interpret_line_close, close_block_while by assumption.
  rewrite (while_loop_pass _ _ _ c) by assumption.
  pose proof (for_lines_until_break (S fuel) linenum pre fuel []
                (set_in_block false st)) as Hbreak.
  change (length (@nil string)) with 0%nat in Hbreak. rewrite Hbreak.
  - reflexivity.
  - exists post. simpl. rewrite Hlines, <- app_assoc. reflexivity.
  - assumption.
  - lia.
Qed.

Lemma break_ends_while_witness :
  @interpret_line Mini.host 3 "}" 7 loop_with_break
  = Done (@replay Mini.host ["print n"] 7 (set_in_block false loop_with_break)).
Proof.
  apply (@break_ends_while Mini.host 3 7 loop_with_break
           ["print n"] ["print 2"] (VBool true)).
  - reflexivity.
  - reflexivity.
  - reflexivity.
  - repeat constructor; discriminate.
  - vm_compute. reflexivity.
  - reflexivity.
  - simpl. lia.
Defined.

Section IfLemmas.
Context `{Host}.

Lemma close_block_if interpret fuel st :
  block_type st = Some "if" \/ block_type st = Some "elif" ->
  close_block interpret fuel st
  = if truthy (current_condition st) && negb (executed_a_branch st)
    then finish (set_executed_a_branch true)
           (for_lines interpret false fuel 0 (set_in_block false st))
    else clear_block (set_in_block false st).
Proof.
  intros Hty. unfold close_block. simpl.
  rewrite decide_False by (destruct Hty as [-> | ->]; discriminate).
  rewrite decide_False by (destruct Hty as [-> | ->]; discriminate).
  rewrite decide_True by assumption. reflexivity.
Qed.

Lemma close_block_else interpret fuel st :
  block_type st = Some "else" ->
  close_block interpret fuel st
  = if negb (executed_a_branch st)
    then finish (set_executed_a_branch false)
           (for_lines interpret false fuel 0 (set_in_block false st))
    else clear_block (set_executed_a_branch false (set_in_block false st)).
Proof.
  intros Hty. unfold close_block. simpl. rewrite Hty.
  rewrite decide_False by discriminate.
  rewrite decide_True by reflexivity. reflexivity.
Qed.

(** An [if] or [elif] line with its brace. *)
Lemma statement_if keyword line condition linenum st :
  keyword = "if" \/ keyword = "elif" ->
  opens keyword line condition ->
  statement line linenum st
  = let st1 := set_block_type (Some keyword) (set_in_block true st) in
    match fst (asteval condition (variables st)) with
    | inl v => set_current_condition v st1
    | inr _ => raiseException InvalidSyntax line linenum st1
    end.
Proof.
  intros Hkw (Hk & Hbrace & Hcond).
  rewrite (statement_keyword _ _ _ _ Hk).
  unfold condition_of, remainder in *.
  assert (String.eqb keyword "let" = false /\
          String.eqb keyword "print" = false /\
          String.eqb keyword "if" || String.eqb keyword "elif" = true)
    as (-> & -> & ->) by (destruct Hkw as [-> | ->]; repeat split).
  unfold do_if. rewrite Hbrace, Hcond. simpl.
  rewrite asteval_eta.
  destruct (fst (asteval condition (variables st))); reflexivity.
Qed.

(** Closing a block of simple lines that was opened by [if] or [elif]. *)
Lemma close_simple_if fuel linenum st :
  in_block st = true ->
  block_type st = Some "if" \/ block_type st = Some "elif" ->
  Forall (fun line => simple line = true) (block_lines st) ->
  (length (block_lines st) < fuel)%nat ->
  interpret_line fuel "}" linenum st
  = if truthy (current_condition st) && negb (executed_a_branch st)
    then clear_block
           (set_executed_a_branch true
              (exec_body (block_lines st) linenum (set_in_block false st)))
    else clear_block (set_in_block false st).
Proof.
  intros Hin Hty Hsimple Hfuel.
  destruct fuel as [|fuel]; [lia|].
  rewrite interpret_line_close, close_block_if by assumption.
  destruct (truthy (current_condition st) && negb (executed_a_branch st));
    [|reflexivity].
  pose proof (for_lines_simple fuel linenum false (block_lines st) fuel []
                (set_in_block false st)) as Hfor.
  change (length (@nil string)) with 0%nat in Hfor. rewrite Hfor.
  - reflexivity.
  - reflexivity.
  - reflexivity.
  - assumption.
  - discriminate.
  - lia.
Qed.

(** Closing a block of simple lines that was opened by [else]. *)
Lemma close_simple_else fuel linenum st :
  in_block st = true ->
  block_type st = Some "else" ->
  Forall (fun line => simple line = true) (block_lines st) ->
  (length (block_lines st) < fuel)%nat ->
  interpret_line fuel "}" linenum st
  = if negb (executed_a_branch st)
    then clear_block
           (set_executed_a_branch false
              (exec_body (block_lines st) linenum (set_in_block false st)))
    else clear_block (set_executed_a_branch false (set_in_block false st)).
Proof.
  intros Hin Hty Hsimple Hfuel.
  destruct fuel as [|fuel]; [lia|].
  rewrite interpret_line_close, close_block_else by assumption.
  destruct (negb (executed_a_branch st)); [|reflexivity].
  pose proof (for_lines_simple fuel linenum false (block_lines st) fuel []
                (set_in_block false st)) as Hfor.
  change (length (@nil string)) with 0%nat in Hfor. rewrite Hfor.
  - reflexivity.
  - reflexivity.
  - reflexivity.
  - assumption.
  - discriminate.
  - lia.
Qed.
End IfLemmas.

(** C9: outside a block, an [if] or [elif] line that ends with the
    opening brace and whose condition fails to evaluate gets an "Invalid
    syntax" record, and the block is opened all the same: the block is
    active, its kind is the keyword, and the captured condition is the
    one left by an earlier line.  The lines that follow are buffered up
    to the closing brace, where the buffered body runs if and only if
    that earlier condition holds and no branch has been taken. *)
Theorem failed_condition_opens_block `{Host} (fuel : nat)
    (keyword line condition : string) (linenum : Z) (st : state)
    (e : pyexn) :
  in_block st = false ->
  keyword = "if" \/ keyword = "elif" ->
  opens keyword line condition ->
  fst (asteval condition (variables st)) = inr e ->
  exists st',
    interpret_line fuel line linenum st = Done st' /\
    raisedexceptions st'
    = raisedexceptions st ++ [record InvalidSyntax line linenum] /\
    exceptioncount st' = exceptioncount st + 1 /\
    in_block st' = true /\
    block_type st' = Some keyword /\
    current_condition st' = current_condition st /\
    block_lines st' = block_lines st /\
    variables st' = variables st /\
    (forall n l k, l <> "}" ->
       interpret_line n l k st'
       = Done (set_block_lines (block_lines st' ++ [l]) st')) /\
    (forall n k body,
       Forall (fun l => simple l = true) (block_lines st ++ body) ->
       (length (block_lines st ++ body) < n)%nat ->
       interpret_line n "}" k
         (set_block_lines (block_lines st' ++ body) st')
       = if truthy (current_condition st) && negb (executed_a_branch st)
         then clear_block
                (set_executed_a_branch true
                   (exec_body (block_lines st ++ body) k
                      (set_in_block false
                         (set_block_lines (block_lines st' ++ body) st'))))
         else clear_block
                (set_in_block false
                   (set_block_lines (block_lines st' ++ body) st'))).
Proof.
  intros Hidle Hkw Hopens He.
  exists (raiseException InvalidSyntax line linenum
            (set_block_type (Some keyword) (set_in_block true st))).
  split.
  { rewrite interpret_line_idle by assumption.
    rewrite (statement_if keyword line condition) by assumption.
    simpl. rewrite He. reflexivity. }
  repeat split.
  - intros n l k Hl. apply interpret_line_buffer; [reflexivity | assumption].
  - intros n k body Hsimple Hfuel.
    rewrite close_simple_if; simpl; try reflexivity; try assumption.
    destruct Hkw as [-> | ->]; [left | right]; reflexivity.
Qed.

Lemma failed_condition_opens_block_witness :
  exists st',
    @interpret_line Mini.host 0 "elif y > 0 {" 2 (initial_state []) = Done st'
    /\ raisedexceptions st' = ["Invalid syntax: Line 3: elif y > 0 {"]
    /\ in_block st' = true
    /\ block_type st' = Some "elif"
    /\ current_condition st' = VBool false.
Proof.
  destruct (@failed_condition_opens_block Mini.host 0 "elif" "elif y > 0 {"
              "y > 0" 2 (initial_state []) (ValueError (NameError "y")))
    as (st' & Hrun & Hlog & _ & Hin & Hty & Hcond & _).
  - reflexivity.
  - right. reflexivity.
  - repeat split; vm_compute; reflexivity.
  - vm_compute. reflexivity.
  - exists st'. repeat split; assumption.
Defined.

Section Counting.
Context `{Host}.

Hypothesis parse_x_lt_3 :
  ast_parse "x < 3"
  = Some (ast.Expression
            (ast.Compare (ast.Name "x") [ast.Lt] [ast.Constant (VInt 3)])).
Hypothesis parse_x : ast_parse "x" = Some (ast.Expression (ast.Name "x")).
Hypothesis parse_x_plus_1 :
  ast_parse "x + 1"
  = Some (ast.Expression
            (ast.BinOp (ast.Name "x") ast.Add (ast.Constant (VInt 1)))).

Lemma eval_x_lt_3 variables k :
  variables !! "x" = Some (VInt k) ->
  fst (asteval "x < 3" variables) = inl (VBool (k <? 3)).
Proof.
  intros Hx. unfold asteval. rewrite parse_x_lt_3. simpl.
  unfold eval_bind, visit_Name, visit_Constant, eval_ret. rewrite Hx. simpl.
  unfold Z.ltb. destruct (k ?= 3); reflexivity.
Qed.

Lemma eval_x variables k :
  variables !! "x" = Some (VInt k) ->
  fst (asteval "x" variables) = inl (VInt k).
Proof.
  intros Hx. unfold asteval. rewrite parse_x. simpl.
  unfold visit_Name. rewrite Hx. reflexivity.
Qed.

Lemma eval_x_plus_1 variables k :
  variables !! "x" = Some (VInt k) ->
  fst (asteval "x + 1" variables) = inl (VInt (k + 1)).
Proof.
  intros Hx. unfold asteval. rewrite parse_x_plus_1. simpl.
  unfold eval_bind, visit_Name, visit_Constant, eval_ret. rewrite Hx.
  reflexivity.
Qed.

(** The body of the loop: print [x], then add one to it. *)
Lemma counting_body linenum st k :
  variables st !! "x" = Some (VInt k) ->
  exec_body ["print x"; "let x = x + 1"] linenum st
  = set_variables (<["x" := VInt (k + 1)]> (variables st))
      (write (pretty k +:+ PyStr.newline) st).
Proof.
  intros Hx. unfold exec_body. simpl.
  change (statement "print x" linenum st) with (do_print "print x" linenum st).
  unfold do_print.
  change (PyStr.strip (PyStr.slice_from 6 "print x")) with "x".
  rewrite asteval_eta, (eval_x _ k Hx), set_variables_id.
  set (st1 := write _ st).
  change (statement "let x = x + 1" linenum st1)
    with (do_let "let x = x + 1" linenum st1).
  unfold do_let.
  change (PyStr.split_max 2 "let x = x + 1") with ["let"; "x"; "= x + 1"].
  simpl length. simpl orb. cbv iota.
  change (PyStr.strip (PyStr.slice_from 1 (["let"; "x"; "= x + 1"] !!! 2%nat)))
    with "x + 1".
  change (["let"; "x"; "= x + 1"] !!! 1%nat) with "x".
  rewrite asteval_eta, (eval_x_plus_1 _ k) by exact Hx.
  reflexivity.
Qed.

(** One pass of the loop on [x = k < 3]. *)
Lemma counting_pass fuel' fuel linenum st k :
  in_block st = false ->
  block_lines st = ["print x"; "let x = x + 1"] ->
  while_condition st = "x < 3" ->
  variables st !! "x" = Some (VInt k) ->
  k < 3 ->
  (2 <= fuel)%nat ->
  while_loop (fun bline => interpret_line fuel' bline linenum) (S fuel) st
  = while_loop (fun bline => interpret_line fuel' bline linenum) fuel
      (set_variables (<["x" := VInt (k + 1)]> (variables st))
         (write (pretty k +:+ PyStr.newline) st)).
Proof.
  intros Hidle Hlines Hcond Hx Hk Hfuel.
  rewrite (while_loop_pass _ _ _ (VBool (k <? 3))).
  - pose proof (for_lines_simple fuel' linenum true
                  ["print x"; "let x = x + 1"] fuel [] st) as Hfor.
    change (length (@nil string)) with 0%nat in Hfor. rewrite Hfor.
    + rewrite (counting_body _ _ k) by assumption. reflexivity.
    + assumption.
    + assumption.
    + repeat constructor.
    + intros _. repeat constructor; discriminate.
    + simpl. lia.
  - rewrite Hcond. apply eval_x_lt_3. assumption.
  - simpl. apply Z.ltb_lt. assumption.
Qed.
(** C3: from a state where [x] is 0, the four lines [while x < 3 {],
    [print x], [let x = x + 1], [}] write 0, 1 and 2, in this order and
    nothing else, record no exception and leave [x] at 3 (and no block
    open), for every host that parses the three expressions as Python
    does and any fuel from 6 on. *)
Theorem while_counts_to_three (fuel : nat) (linenum : Z) (st : state) :
  in_block st = false ->
  block_lines st = [] ->
  variables st !! "x" = Some (VInt 0) ->
  (6 <= fuel)%nat ->
  exists st',
    run_lines fuel ["while x < 3 {"; "print x"; "let x = x + 1"; "}"]
      linenum st = Done st' /\
    stdout st'
    = stdout st ++ ["0" +:+ PyStr.newline; "1" +:+ PyStr.newline;
                    "2" +:+ PyStr.newline] /\
    raisedexceptions st' = raisedexceptions st /\
    exceptioncount st' = exceptioncount st /\
    variables st' = <["x" := VInt 3]> (variables st) /\
    variables st' !! "x" = Some (VInt 3) /\
    in_block st' = false /\
    block_lines st' = [].
Proof.
  intros Hidle Hlines Hx Hfuel.
  do 6 (destruct fuel as [|fuel]; [lia|]). clear Hfuel.
  set (n := S (S fuel)).
  unfold run_lines.
  change (PyStr.strip "while x < 3 {") with "while x < 3 {".
  change (PyStr.strip "print x") with "print x".
  change (PyStr.strip "let x = x + 1") with "let x = x + 1".
  change (PyStr.strip "}") with "}".
  rewrite interpret_line_idle by assumption.
  change (statement "while x < 3 {" linenum st)
    with (set_while_condition "x < 3"
            (set_block_type (Some "while") (set_in_block true st))).
  rewrite interpret_line_buffer by (reflexivity || discriminate).
  rewrite interpret_line_buffer by (reflexivity || discriminate).
  rewrite interpret_line_close by reflexivity.
  rewrite close_block_while by reflexivity.
  simpl block_lines. rewrite Hlines. simpl app.
  rewrite (counting_pass _ _ _ _ 0); try reflexivity; try assumption;
    try lia.
  rewrite (counting_pass _ _ _ _ 1); try reflexivity; try lia;
    [|simpl; apply lookup_insert_eq].
  rewrite (counting_pass _ _ _ _ 2); try reflexivity; try lia;
    [|simpl; apply lookup_insert_eq].
  rewrite (while_loop_exit _ _ _ (VBool false));
    [|simpl; apply (eval_x_lt_3 _ 3), lookup_insert_eq | reflexivity].
  eexists. split; [reflexivity|]. simpl.
  rewrite !insert_insert_eq.
  repeat split.
  - rewrite <- !app_assoc. reflexivity.
  - apply lookup_insert_eq.
Qed.
End Counting.

Lemma while_counts_to_three_witness :
  exists st',
    @run_lines Mini.host 6 ["while x < 3 {"; "print x"; "let x = x + 1"; "}"]
      0 x_is_zero = Done st' /\
    stdout st' = ["0" +:+ PyStr.newline; "1" +:+ PyStr.newline;
                  "2" +:+ PyStr.newline] /\
    raisedexceptions st' = [] /\
    variables st' !! "x" = Some (VInt 3).
Proof.
  destruct (@while_counts_to_three Mini.host) with (fuel := 6%nat)
    (linenum := 0) (st := x_is_zero)
    as (st' & Hrun & Hout & Hlog & _ & _ & Hx & _).
  - vm_compute. reflexivity.
  - vm_compute. reflexivity.
  - vm_compute. reflexivity.
  - reflexivity.
  - reflexivity.
  - vm_compute. reflexivity.
  - lia.
  - exists st'. repeat split; assumption.
Defined.

(** ** Whole blocks of simple lines *)

Section Blocks.
Context `{Host}.

Arguments with_block : simpl never.

Lemma state_ext st st' :
  observable st = observable st' -> block_part st = block_part st' ->
  st = st'.
Proof.
  destruct st, st'. unfold observable, block_part. simpl.
  intros Ho Hb. simplify_eq. reflexivity.
Qed.

Lemma observable_with_block b st :
  observable (with_block b st) = observable st.
Proof. destruct b as [[[[[? ?] ?] ?] ?] ?]. reflexivity. Qed.

Lemma block_part_with_block b st : block_part (with_block b st) = b.
Proof. destruct b as [[[[[? ?] ?] ?] ?] ?]. reflexivity. Qed.

Lemma run_lines_app fuel lines1 lines2 :
  forall linenum st,
    run_lines fuel (lines1 ++ lines2) linenum st
    = match run_lines fuel lines1 linenum st with
      | Done st' =>
          run_lines fuel lines2 (linenum + Z.of_nat (length lines1)) st'
      | other => other
      end.
Proof.
  induction lines1 as [|line lines1 IH]; intros linenum st; simpl.
  - rewrite Z.add_0_r. reflexivity.
  - destruct (interpret_line fuel (PyStr.strip line) linenum st);
      try reflexivity.
    rewrite IH. replace (linenum + 1 + Z.of_nat (length lines1))
      with (linenum + Z.pos (Pos.of_succ_nat (length lines1))) by lia.
    reflexivity.
Qed.

(** While a block is open, the trimmed lines are appended to the
    buffer. *)
Lemma run_lines_buffer fuel body :
  forall linenum st,
    in_block st = true ->
    Forall (fun line => PyStr.strip line <> "}") body ->
    run_lines fuel body linenum st
    = Done (set_block_lines (block_lines st ++ (PyStr.strip <$> body)) st).
Proof.
  induction body as [|line body IH]; intros linenum st Hin Hbody; simpl.
  - rewrite app_nil_r. destruct st; reflexivity.
  - inversion Hbody; subst.
    rewrite interpret_line_buffer by assumption.
    rewrite IH by (simpl; assumption). simpl.
    rewrite <- app_assoc. reflexivity.
Qed.

(** A block opened by [if] or [elif], with a body of simple lines: the
    header is run as a statement, and then the body if the captured
    condition holds and no branch was taken. *)
Lemma run_if_block fuel keyword line condition body linenum st :
  in_block st = false ->
  block_lines st = [] ->
  keyword = "if" \/ keyword = "elif" ->
  opens keyword (PyStr.strip line) condition ->
  Forall body_line body ->
  (length body < fuel)%nat ->
  run_lines fuel (block line body) linenum st
  = let header := statement (PyStr.strip line) linenum st in
    Done (with_block
            (false, None, [], current_condition header,
             executed_a_branch st || truthy (current_condition header),
             while_condition st)
            (if truthy (current_condition header)
                && negb (executed_a_branch st)
             then exec_body (PyStr.strip <$> body) (closing linenum body)
                    header
             else header)).
Proof.
  intros Hidle Hlines Hkw Hopens Hbody Hfuel. cbv zeta. unfold block.
  assert (Hheader :
            block_part (statement (PyStr.strip line) linenum st)
            = (true, Some keyword, [],
               current_condition (statement (PyStr.strip line) linenum st),
               executed_a_branch st, while_condition st)).
  { rewrite (statement_if keyword _ condition) by assumption. simpl.
    destruct (fst (asteval condition (variables st)));
      unfold block_part; simpl; rewrite Hlines; reflexivity. }
  set (header := statement (PyStr.strip line) linenum st) in *.
  unfold block_part in Hheader. simplify_eq.
  change (line :: body ++ ["}"]) with ([line] ++ body ++ ["}"]).
  rewrite run_lines_app. simpl run_lines at 1.
  rewrite interpret_line_idle by assumption. fold header.
  rewrite run_lines_app, run_lines_buffer;
    [|assumption | eapply Forall_impl; [exact Hbody | intros l [_ Hl]; exact Hl]].
  simpl run_lines. change (PyStr.strip "}") with "}".
  replace (block_lines header) with (@nil string) by congruence.
  rewrite close_simple_if;
    [| assumption
     | simpl; destruct Hkw as [-> | ->]; [left | right]; congruence
     | simpl; apply Forall_fmap; eapply Forall_impl;
       [exact Hbody | intros l [Hl _]; exact Hl]
     | simpl; rewrite length_fmap; lia ].
  assert (Hn : linenum + Z.of_nat 1 + Z.of_nat (length body)
               = closing linenum body) by (unfold closing; lia).
  first [ rewrite Hn | change (length [line]) with 1%nat; rewrite Hn ].
  assert (Hsimple : Forall (fun l => simple l = true) (PyStr.strip <$> body)).
  { apply Forall_fmap. eapply Forall_impl;
      [exact Hbody | intros l [Hl _]; exact Hl]. }
  pose proof (exec_body_simple_block_part (PyStr.strip <$> body)
                (closing linenum body)
                (set_in_block false
                   (set_block_lines (PyStr.strip <$> body) header)) Hsimple)
    as Hpart.
  pose proof (exec_body_observable (PyStr.strip <$> body)
                (closing linenum body)
                (set_in_block false
                   (set_block_lines (PyStr.strip <$> body) header))
                header eq_refl) as Hobs.
  change (current_condition
            (set_block_lines ([] ++ (PyStr.strip <$> body)) header))
    with (current_condition header).
  change (executed_a_branch
            (set_block_lines ([] ++ (PyStr.strip <$> body)) header))
    with (executed_a_branch header).
  change (block_lines
            (set_block_lines ([] ++ (PyStr.strip <$> body)) header))
    with (PyStr.strip <$> body).
  change ([] ++ (PyStr.strip <$> body)) with (PyStr.strip <$> body).
  replace (executed_a_branch header) with (executed_a_branch st) by congruence.
  destruct (truthy (current_condition header) && negb (executed_a_branch st))
    eqn:Htaken; unfold clear_block; f_equal; apply state_ext;
    rewrite ?observable_with_block, ?block_part_with_block.
  - unfold observable in *. simpl. exact Hobs.
  - unfold block_part in *. simpl in *. simplify_eq.
    apply andb_true_iff in Htaken as [-> _].
    rewrite orb_true_r. congruence.
  - reflexivity.
  - unfold block_part. simpl.
    apply andb_false_iff in Htaken as [-> | Hneg].
    + rewrite orb_false_r. congruence.
    + apply negb_false_iff in Hneg. rewrite Hneg. simpl.
      congruence.
Qed.
Lemma statement_else line linenum st :
  opens_else line ->
  statement line linenum st
  = set_block_type (Some "else") (set_in_block true st).
Proof.
  intros [Hk Hrest]. rewrite (statement_keyword _ _ _ _ Hk). simpl.
  unfold do_else. unfold remainder in Hrest. rewrite Hrest. reflexivity.
Qed.

(** A block opened by [else], with a body of simple lines: the body runs
    if no branch was taken, and the flag is reset. *)
Lemma run_else_block fuel line body linenum st :
  in_block st = false ->
  block_lines st = [] ->
  opens_else (PyStr.strip line) ->
  Forall body_line body ->
  (length body < fuel)%nat ->
  run_lines fuel (block line body) linenum st
  = Done (with_block
            (false, None, [], current_condition st, false,
             while_condition st)
            (if negb (executed_a_branch st)
             then exec_body (PyStr.strip <$> body) (closing linenum body) st
             else st)).
Proof.
  intros Hidle Hlines Hopens Hbody Hfuel. unfold block.
  change (line :: body ++ ["}"]) with ([line] ++ body ++ ["}"]).
  rewrite run_lines_app. simpl run_lines at 1.
  rewrite interpret_line_idle, statement_else by assumption.
  set (header := set_block_type (Some "else") (set_in_block true st)).
  rewrite run_lines_app, run_lines_buffer;
    [|reflexivity | eapply Forall_impl; [exact Hbody | intros l [_ Hl]; exact Hl]].
  simpl run_lines. change (PyStr.strip "}") with "}".
  assert (Hsimple : Forall (fun l => simple l = true) (PyStr.strip <$> body)).
  { apply Forall_fmap. eapply Forall_impl;
      [exact Hbody | intros l [Hl _]; exact Hl]. }
  rewrite close_simple_else;
    [| reflexivity | reflexivity
     | simpl; rewrite Hlines; exact Hsimple
     | simpl; rewrite Hlines; simpl; rewrite length_fmap; lia ].
  assert (Hn : linenum + Z.of_nat 1 + Z.of_nat (length body)
               = closing linenum body) by (unfold closing; lia).
  first [ rewrite Hn | change (length [line]) with 1%nat; rewrite Hn ].
  change (block_lines header) with (block_lines st).
  rewrite Hlines.
  change ([] ++ (PyStr.strip <$> body)) with (PyStr.strip <$> body).
  change (executed_a_branch
            (set_block_lines (PyStr.strip <$> body) header))
    with (executed_a_branch st).
  change (block_lines (set_block_lines (PyStr.strip <$> body) header))
    with (PyStr.strip <$> body).
  set (start := set_in_block false _).
  pose proof (exec_body_simple_block_part (PyStr.strip <$> body)
                (closing linenum body) start Hsimple) as Hpart.
  pose proof (exec_body_observable (PyStr.strip <$> body)
                (closing linenum body) start st eq_refl) as Hobs.
  destruct (negb (executed_a_branch st)); unfold clear_block; f_equal;
    apply state_ext;
    rewrite ?observable_with_block, ?block_part_with_block.
  - unfold observable in *. simpl. exact Hobs.
  - unfold block_part in *. simpl in *. simplify_eq. congruence.
Qed.
End Blocks.

(** C2 (as the code has it): an [if]/[elif]/[else] chain with bodies of
    simple lines, run outside a block from a state whose buffer is empty
    and whose branch flag is clear, and whose [if] condition evaluates to
    [v1].  The whole chain returns with the block state cleared and the
    flag reset by the closing [else]; after the [if] block the flag is
    set exactly when its body ran.  If [v1] holds, only body [A] runs,
    whatever the [elif] condition (of the [elif] line only the header is
    run: its condition is evaluated).  If [v1] does not hold and the
    [elif] condition evaluates to [v2], only [B] runs when [v2] holds and
    only [C] when it does not.  Body lines run under the number of their
    block's closing line. *)
Theorem if_elif_else_chain `{Host} (fuel : nat) (linenum : Z) (st : state)
    (l_if c1 l_elif c2 l_else : string) (A B C : list string) (v1 : value) :
  in_block st = false ->
  block_lines st = [] ->
  executed_a_branch st = false ->
  opens "if" (PyStr.strip l_if) c1 ->
  opens "elif" (PyStr.strip l_elif) c2 ->
  opens_else (PyStr.strip l_else) ->
  Forall body_line A -> Forall body_line B -> Forall body_line C ->
  fst (asteval c1 (variables st)) = inl v1 ->
  (length A < fuel)%nat -> (length B < fuel)%nat -> (length C < fuel)%nat ->
  exists s1 st',
    run_lines fuel (block l_if A) linenum st = Done s1 /\
    executed_a_branch s1 = truthy v1 /\
    run_lines fuel (block l_if A ++ block l_elif B ++ block l_else C)
      linenum st = Done st' /\
    in_block st' = false /\ block_type st' = None /\ block_lines st' = [] /\
    executed_a_branch st' = false /\
    (truthy v1 = true ->
     observable st'
     = observable
         (statement (PyStr.strip l_elif) (closing linenum A + 1)
            (exec_body (PyStr.strip <$> A) (closing linenum A) st))) /\
    (truthy v1 = false ->
     forall v2,
       fst (asteval c2 (variables st)) = inl v2 ->
       observable st'
       = observable
           (if truthy v2
            then exec_body (PyStr.strip <$> B)
                   (closing (closing linenum A + 1) B) st
            else exec_body (PyStr.strip <$> C)
                   (closing (closing (closing linenum A + 1) B + 1) C) st)).
Proof.
  intros Hidle Hlines Hflag Hif Helif Helse HA HB HC Hc1 HfA HfB HfC.
  pose proof (run_if_block fuel "if" l_if c1 A linenum st Hidle Hlines
                (or_introl eq_refl) Hif HA HfA) as Hrun1.
  cbv zeta in Hrun1.
  pose proof (statement_if "if" (PyStr.strip l_if) c1 linenum st
                (or_introl eq_refl) Hif) as Hh1.
  cbv zeta in Hh1. rewrite Hc1 in Hh1.
  set (header1 := statement (PyStr.strip l_if) linenum st) in *.
  assert (Hcc1 : current_condition header1 = v1) by (rewrite Hh1; reflexivity).
  assert (Hobs1 : observable header1 = observable st)
    by (rewrite Hh1; reflexivity).
  rewrite Hcc1, Hflag in Hrun1. simpl negb in Hrun1.
  rewrite andb_true_r, orb_false_l in Hrun1.
  match type of Hrun1 with _ = Done ?s => set (s1 := s) in * end.
  assert (Hpart1 : block_part s1
                   = (false, None, [], v1, truthy v1, while_condition st))
    by apply block_part_with_block.
  assert (Hn2 : linenum + Z.of_nat (length (block l_if A))
                = closing linenum A + 1).
  { unfold closing, block. simpl. rewrite length_app. simpl. lia. }
  pose proof (run_if_block fuel "elif" l_elif c2 B (closing linenum A + 1) s1)
    as Hrun2.
  cbv zeta in Hrun2.
  set (header2 := statement (PyStr.strip l_elif) (closing linenum A + 1) s1)
    in *.
  match type of Hrun2 with _ -> _ -> _ -> _ -> _ -> _ -> _ = Done ?s =>
    set (s2 := s) in * end.
  assert (Hpart2 : block_part s2
                   = (false, None, [], current_condition header2,
                      executed_a_branch s1
                      || truthy (current_condition header2),
                      while_condition s1))
    by apply block_part_with_block.
  assert (Hn3 : closing linenum A + 1 + Z.of_nat (length (block l_elif B))
                = closing (closing linenum A + 1) B + 1).
  { unfold closing, block. simpl. rewrite length_app. simpl. lia. }
  pose proof (run_else_block fuel l_else C
                (closing (closing linenum A + 1) B + 1) s2) as Hrun3.
  match type of Hrun3 with _ -> _ -> _ -> _ -> _ -> _ = Done ?s =>
    set (s3 := s) in * end.
  unfold block_part in Hpart1, Hpart2.
  exists s1, s3. split; [exact Hrun1|].
  split; [congruence|].
  split.
  { rewrite run_lines_app, Hrun1, Hn2.
    rewrite run_lines_app, Hrun2, Hn3;
      [| congruence | congruence | right; reflexivity
       | assumption | assumption | assumption ].
    apply Hrun3; [congruence | congruence | assumption | assumption
                  | assumption]. }
  assert (Hpart3 : block_part s3
                   = (false, None, [], current_condition s2, false,
                      while_condition s2))
    by apply block_part_with_block.
  unfold block_part in Hpart3.
  repeat split; try congruence.
  - intros Hv1.
    assert (Hf1 : executed_a_branch s1 = true) by exact Hv1.
    assert (Hf2 : executed_a_branch s2 = true).
    { change (executed_a_branch s2)
        with (executed_a_branch s1 || truthy (current_condition header2)).
      rewrite Hf1. reflexivity. }
    unfold s3. rewrite observable_with_block, Hf2. simpl negb. cbv iota.
    unfold s2. rewrite observable_with_block, Hf1, andb_false_r.
    apply statement_observable.
    unfold s1. rewrite observable_with_block, Hv1.
    apply exec_body_observable. exact Hobs1.
  - intros Hv1 v2 Hc2.
    assert (Hs1 : observable s1 = observable st).
    { unfold s1. rewrite observable_with_block, Hv1. exact Hobs1. }
    assert (Hvars : variables s1 = variables st)
      by (unfold observable in Hs1; congruence).
    pose proof (statement_if "elif" (PyStr.strip l_elif) c2
                  (closing linenum A + 1) s1 (or_intror eq_refl) Helif)
      as Hh2.
    cbv zeta in Hh2. rewrite Hvars, Hc2 in Hh2. fold header2 in Hh2.
    assert (Hcc2 : current_condition header2 = v2)
      by (rewrite Hh2; reflexivity).
    assert (Hobs2 : observable header2 = observable st)
      by (rewrite Hh2; exact Hs1).
    assert (Hflag1 : executed_a_branch s1 = false) by exact Hv1.
    assert (Hflag2 : executed_a_branch s2 = truthy v2).
    { change (executed_a_branch s2)
        with (executed_a_branch s1 || truthy (current_condition header2)).
      rewrite Hflag1, Hcc2. reflexivity. }
    unfold s3. rewrite observable_with_block. rewrite Hflag2.
    destruct (truthy v2) eqn:Hv2; simpl negb; cbv iota.
    + unfold s2. rewrite observable_with_block, Hcc2, Hv2, Hflag1.
      simpl. apply exec_body_observable. exact Hobs2.
    + apply exec_body_observable.
      unfold s2. rewrite observable_with_block, Hcc2, Hv2. simpl.
      exact Hobs2.
Qed.

Lemma if_elif_else_chain_witness :
  exists st',
    @run_lines Mini.host 2 chain_example 0 (initial_state []) = Done st' /\
    stdout st' = ["1" +:+ PyStr.newline] /\
    raisedexceptions st' = [] /\
    executed_a_branch st' = false.
Proof.
  destruct (@if_elif_else_chain Mini.host 2 0 (initial_state [])
              "if 1 {" "1" "elif 1 {" "1" "else {"
              ["print 1"] ["print 2"] ["print 3"] (VInt 1))
    as (s1 & st' & _ & _ & Hrun & _ & _ & _ & Hflag & Htaken & _).
  - reflexivity.
  - reflexivity.
  - reflexivity.
  - repeat split; vm_compute; reflexivity.
  - repeat split; vm_compute; reflexivity.
  - split; vm_compute; reflexivity.
  - repeat constructor; vm_compute; discriminate.
  - repeat constructor; vm_compute; discriminate.
  - repeat constructor; vm_compute; discriminate.
  - vm_compute. reflexivity.
  - simpl. lia.
  - simpl. lia.
  - simpl. lia.
  - exists st'. specialize (Htaken eq_refl).
    split; [exact Hrun|].
    split; [exact (f_equal (fun o => o.1.1.1.2) Htaken)|].
    split; [exact (f_equal (fun o => o.1.2) Htaken)|].
    exact Hflag.
Defined.

(** The claim C2 as stated fails: after an [if] block without [else]
    whose body ran, the interpreter is outside any block with an empty
    buffer, and the chain [chain_example], whose [if] condition holds, is
    run to its end without any of its three bodies running: nothing is
    written. *)
Lemma chain_after_if_runs_no_body :
  exists s0 st',
    @run_lines Mini.host 2 (block "if 1 {" []) 0 (initial_state []) = Done s0
    /\ in_block s0 = false /\ block_lines s0 = []
    /\ fst (@asteval Mini.host "1" (variables s0)) = inl (VInt 1)
    /\ @run_lines Mini.host 2 chain_example 2 s0 = Done st'
    /\ stdout st' = []
    /\ @run_lines Mini.host 2 chain_after_if 0 (initial_state []) = Done st'.
Proof.
  eexists. eexists.
  split; [vm_compute; reflexivity|].
  split; [vm_compute; reflexivity|].
  split; [vm_compute; reflexivity|].
  split; [vm_compute; reflexivity|].
  split; [vm_compute; reflexivity|].
  split; vm_compute; reflexivity.
Qed.

(** C7 (as the code has it): a binary [/] whose operands evaluate to the
    integers [a] and [b] raises [ZeroDivisionError] when [b] is zero;
    otherwise its value is a float, the IEEE 754 quotient of the two
    integers (the division of [SpecFloat] applied to them as exact
    significands, rounded once to nearest), unless that quotient is beyond
    the range of floats, where it raises [OverflowError].  In no case is
    the value an integer. *)
Theorem int_division_is_float `{Host} (l r : ast.expr)
    (variables : gmap string value) (a b : Z) :
  fst (visit l variables) = Ok (VInt a) ->
  fst (visit r variables) = Ok (VInt b) ->
  (b = 0 ->
   fst (visit (ast.BinOp l ast.Div r) variables) = Raise ZeroDivisionError) /\
  (b <> 0 ->
   (float_is_inf (SFdiv prec emax (exact_float a) (exact_float b)) = false /\
    fst (visit (ast.BinOp l ast.Div r) variables)
    = Ok (VFloat (SFdiv prec emax (exact_float a) (exact_float b))))
   \/
   (float_is_inf (SFdiv prec emax (exact_float a) (exact_float b)) = true /\
    fst (visit (ast.BinOp l ast.Div r) variables) = Raise OverflowError)) /\
  (forall n, fst (visit (ast.BinOp l ast.Div r) variables) <> Ok (VInt n)).
Proof.
  intros Hl Hr.
  assert (Hdiv : fst (visit (ast.BinOp l ast.Div r) variables)
                 = int_true_divide a b).
  { simpl. unfold eval_bind.
    pose proof (visit_frame l variables) as Fl.
    destruct (visit l variables) as [rl vl]. simpl in Hl, Fl. subst.
    pose proof (visit_frame r variables) as Fr.
    destruct (visit r variables) as [rr vr]. simpl in Hr, Fr. subst.
    reflexivity. }
  rewrite Hdiv. unfold int_true_divide.
  repeat split.
  - intros ->. reflexivity.
  - intros Hb. apply Z.eqb_neq in Hb. rewrite Hb.
    destruct (float_is_inf _); [right | left]; split; reflexivity.
  - intros n. destruct (b =? 0); [discriminate|].
    destruct (float_is_inf _); discriminate.
Qed.

Lemma int_division_is_float_witness :
  fst (@visit Mini.host
         (ast.BinOp (ast.Constant (VInt 7)) ast.Div (ast.Constant (VInt 2))) ∅)
  = Ok (VFloat (S754_finite false 7881299347898368 (-51))).
Proof.
  destruct (@int_division_is_float Mini.host (ast.Constant (VInt 7))
              (ast.Constant (VInt 2)) ∅ 7 2 eq_refl eq_refl)
    as (_ & [[_ Hq] | [Hinf _]] & _).
  - discriminate.
  - exact Hq.
  - vm_compute in Hinf. discriminate.
Defined.

(** The claim C7 as stated fails: the operands of [1 / 0] evaluate to
    integers, and the evaluation has no floating-point result; it
    raises. *)
Lemma division_by_zero_has_no_value :
  fst (@asteval Mini.host "1 / 0" ∅) = inr (ValueError ZeroDivisionError) /\
  forall f, fst (@asteval Mini.host "1 / 0" ∅) <> inl (VFloat f).
Proof.
  split; [vm_compute; reflexivity|].
  intros f. vm_compute. discriminate.
Qed.

Section Escapes.
Context `{Host}.

(** A statement whose expression fails to evaluate is answered by one
    "Invalid syntax" record, and the call returns: [print]. *)
Lemma print_failure_is_recorded fuel line linenum st e :
  in_block st = false ->
  keyword_of line = Some "print" ->
  fst (asteval (PyStr.strip (PyStr.slice_from 6 line)) (variables st))
  = inr e ->
  interpret_line fuel line linenum st
  = Done (raiseException InvalidSyntax line linenum st).
Proof.
  intros Hidle Hk He. rewrite interpret_line_idle by assumption.
  rewrite (statement_keyword _ _ _ _ Hk). simpl. unfold do_print.
  rewrite asteval_eta, He, set_variables_id. reflexivity.
Qed.

(** The same for [let]. *)
Lemma let_failure_is_recorded fuel line linenum st e :
  in_block st = false ->
  keyword_of line = Some "let" ->
  fst (asteval
         (PyStr.strip (PyStr.slice_from 1 (PyStr.split_max 2 line !!! 2%nat)))
         (variables st)) = inr e ->
  interpret_line fuel line linenum st
  = Done (raiseException InvalidSyntax line linenum st).
Proof.
  intros Hidle Hk He. rewrite interpret_line_idle by assumption.
  rewrite (statement_keyword _ _ _ _ Hk). simpl. unfold do_let.
  destruct (_ || _); [reflexivity|].
  rewrite asteval_eta, He, set_variables_id. reflexivity.
Qed.

(** The condition of a [while] is evaluated when the block is closed,
    outside any handler: when it fails, the exception leaves
    [interpret_line], and nothing is recorded. *)
Lemma while_failure_escapes fuel linenum st e :
  in_block st = true ->
  block_type st = Some "while" ->
  fst (asteval (while_condition st) (variables st)) = inr e ->
  interpret_line (S fuel) "}" linenum st = Raised e (set_in_block false st).
Proof.
  intros Hin Hty He.
  rewrite interpret_line_close, close_block_while by assumption.
  rewrite (while_loop_raise _ _ _ e) by exact He. reflexivity.
Qed.
End Escapes.

(** C1, at the input where the code departs from it: the condition of the
    loop names the undefined variable [y].  When the block is closed the
    [ValueError] of the evaluator leaves [interpret_line] and [run_minipy]:
    the run stops there, no record is appended, and the line after the
    loop is not run (nothing is written). *)
Theorem undefined_while_condition_escapes (fuel : nat) :
  exists st,
    @run_minipy Mini.host (S fuel) undefined_loop []
    = Raised (ValueError (NameError "y")) st /\
    raisedexceptions st = [] /\
    exceptioncount st = 0 /\
    stdout st = [].
Proof.
  eexists. split.
  - destruct fuel; vm_compute; reflexivity.
  - split; [|split]; vm_compute; reflexivity.
Qed.

(** C5, at the input where the code departs from it: a [while] block
    whose replay ends on the line [break].  After the closing brace the
    block is no longer active, but the buffer still holds the body and
    the kind is still [while]; the body of the next block is appended to
    the old one, so that closing an [if] block with the one line
    [print 2] replays [print 1] and [break] as well. *)
Theorem break_leaves_block_state (fuel : nat) :
  (exists st,
     @run_lines Mini.host (S (S (S fuel))) loop_left_by_break 0
       (initial_state []) = Done st /\
     in_block st = false /\
     block_lines st = ["print 1"; "break"] /\
     block_type st = Some "while") /\
  (exists st,
     @run_lines Mini.host (S (S (S (S fuel)))) if_after_break 0
       (initial_state []) = Done st /\
     stdout st = ["1" +:+ PyStr.newline; "1" +:+ PyStr.newline;
                  "2" +:+ PyStr.newline] /\
     raisedexceptions st = ["Unknown command: Line 7: break"]).
Proof.
  split; eexists; (split; [destruct fuel; vm_compute; reflexivity|]).
  - split; [|split]; vm_compute; reflexivity.
  - split; vm_compute; reflexivity.
Qed.

(** ** Further properties: trimming and splitting *)

Section StringLemmas.

Lemma lstrip_by_all p s :
  forallb p (list_ascii_of_string s) = true ->
  PyStr.lstrip_by p s = EmptyString.
Proof.
  induction s as [|c s IH]; simpl; [reflexivity|].
  intros Hall. apply andb_true_iff in Hall as [Hc Hs].
  rewrite Hc. apply IH, Hs.
Qed.

Lemma rstrip_by_all p s :
  forallb p (list_ascii_of_string s) = true ->
  PyStr.rstrip_by p s = EmptyString.
Proof.
  induction s as [|c s IH]; simpl; [reflexivity|].
  intros Hall. apply andb_true_iff in Hall as [Hc Hs].
  rewrite (IH Hs), Hc. reflexivity.
Qed.

Lemma strip_blank line : blank line = true -> PyStr.strip line = EmptyString.
Proof.
  intros Hb. unfold PyStr.strip, PyStr.strip_by.
  rewrite rstrip_by_all by exact Hb. reflexivity.
Qed.

Lemma lstrip_by_idem p s :
  PyStr.lstrip_by p (PyStr.lstrip_by p s) = PyStr.lstrip_by p s.
Proof.
  induction s as [|c s IH]; simpl; [reflexivity|].
  destruct (p c) eqn:Hc; [exact IH|]. simpl. rewrite Hc. reflexivity.
Qed.

Lemma rstrip_by_idem p s :
  PyStr.rstrip_by p (PyStr.rstrip_by p s) = PyStr.rstrip_by p s.
Proof.
  induction s as [|c s IH]; simpl; [reflexivity|].
  destruct (PyStr.is_empty (PyStr.rstrip_by p s) && p c) eqn:Hc;
    [reflexivity|].
  simpl. rewrite IH, Hc. reflexivity.
Qed.

(** Removing leading characters from a text without trailing ones leaves
    it without trailing ones. *)
Lemma rstrip_by_lstrip_by p s :
  PyStr.rstrip_by p s = s ->
  PyStr.rstrip_by p (PyStr.lstrip_by p s) = PyStr.lstrip_by p s.
Proof.
  induction s as [|c s IH]; [reflexivity|].
  intros Hfix. simpl PyStr.lstrip_by.
  destruct (p c) eqn:Hc; [|exact Hfix].
  apply IH. simpl in Hfix.
  destruct (PyStr.is_empty (PyStr.rstrip_by p s) && p c);
    [discriminate | congruence].
Qed.

Lemma strip_idem s : PyStr.strip (PyStr.strip s) = PyStr.strip s.
Proof.
  unfold PyStr.strip, PyStr.strip_by.
  rewrite rstrip_by_lstrip_by by apply rstrip_by_idem.
  apply lstrip_by_idem.
Qed.

(** [split(None, k)] yields the first [k] words and, if text is left, one
    more part: its length is that of [split()] capped at [k + 1]. *)
Lemma split_go_length fuel :
  forall k s,
    length (PyStr.split_go fuel (Some k) s)
    = Nat.min (S k) (length (PyStr.split_go fuel None s)).
Proof.
  induction fuel as [|fuel IH]; intros k s; simpl; [reflexivity|].
  destruct (PyStr.is_empty (PyStr.lstrip s)); [reflexivity|].
  destruct (PyStr.span_word (PyStr.lstrip s)) as [w r].
  destruct k as [|k]; simpl; [reflexivity|].
  rewrite IH. reflexivity.
Qed.

Lemma split_max_length k s :
  length (PyStr.split_max k s) = Nat.min (S k) (length (PyStr.split s)).
Proof. apply split_go_length. Qed.

End StringLemmas.

(** ** Further properties: statements outside a block *)

Lemma record_message_inj type_ type_' line line' n n' :
  type_ ∈ raised_messages -> type_' ∈ raised_messages ->
  record type_ line n = record type_' line' n' -> type_ = type_'.
Proof.
  unfold raised_messages. intros Ht Ht' Heq.
  apply (f_equal (String.get 0)) in Heq.
  repeat (apply elem_of_cons in Ht as [-> | Ht]);
    repeat (apply elem_of_cons in Ht' as [-> | Ht']);
    try reflexivity; try discriminate Heq;
    try (apply elem_of_nil in Ht; contradiction);
    try (apply elem_of_nil in Ht'; contradiction).
Qed.

Section StatementFacts.
Context `{Host}.

Lemma statement_unhandled line linenum st keyword :
  keyword_of line = Some keyword ->
  keyword ∉ handled_keywords ->
  statement line linenum st = raiseException UnknownCommand line linenum st.
Proof.
  intros Hk Hnot. rewrite (statement_keyword _ _ _ _ Hk).
  unfold handled_keywords in Hnot.
  repeat (apply not_elem_of_cons in Hnot as [?%String.eqb_neq Hnot]).
  repeat match goal with E : String.eqb _ _ = false |- _ =>
    rewrite E; clear E end.
  reflexivity.
Qed.

(** A handler appends nothing, or one "Invalid syntax" record, or one
    "Missing opening brace" record. *)
Lemma statement_handled line linenum st keyword :
  keyword_of line = Some keyword ->
  keyword ∈ handled_keywords ->
  raisedexceptions (statement line linenum st) = raisedexceptions st \/
  raisedexceptions (statement line linenum st)
  = raisedexceptions st ++ [record InvalidSyntax line linenum] \/
  raisedexceptions (statement line linenum st)
  = raisedexceptions st ++ [record MissingOpeningBrace line linenum].
Proof.
  intros Hk Hin. rewrite (statement_keyword _ _ _ _ Hk).
  unfold handled_keywords in Hin.
  repeat (apply elem_of_cons in Hin as [-> | Hin]);
    try (apply elem_of_nil in Hin; contradiction);
    simpl; unfold do_let, do_print, do_if, do_else, do_while, do_input;
    repeat case_match; simpl; auto.
Qed.
End StatementFacts.

(** X1: outside a block, a line made of whitespace only is skipped: the
    call returns the state it was given. *)
Theorem blank_line_is_skipped `{Host} (fuel : nat) (line : string)
    (linenum : Z) (st : state) :
  in_block st = false ->
  blank line = true ->
  interpret_line fuel line linenum st = Done st.
Proof.
  intros Hidle Hblank. rewrite interpret_line_idle by assumption.
  rewrite statement_blank; [reflexivity|].
  unfold keyword_of. rewrite strip_blank by assumption. reflexivity.
Qed.

Lemma blank_line_is_skipped_witness :
  @interpret_line Mini.host 0 "   " 3 x_is_zero = Done x_is_zero.
Proof.
  apply (@blank_line_is_skipped Mini.host 0 "   " 3 x_is_zero);
    reflexivity.
Defined.

(** X2: outside a block, a [let] line of fewer than three words, or whose
    part after the name does not begin with [=], is answered by one
    "Invalid syntax" record; no variable is assigned and nothing is
    written. *)
Theorem malformed_let_is_invalid `{Host} (fuel : nat) (line : string)
    (linenum : Z) (st : state) :
  in_block st = false ->
  keyword_of line = Some "let" ->
  (length (PyStr.split line) < 3)%nat \/
  PyStr.startswith (PyStr.split_max 2 line !!! 2%nat) "=" = false ->
  exists st',
    interpret_line fuel line linenum st = Done st' /\
    raisedexceptions st'
    = raisedexceptions st ++ [record InvalidSyntax line linenum] /\
    exceptioncount st' = exceptioncount st + 1 /\
    variables st' = variables st /\
    stdout st' = stdout st /\
    block_part st' = block_part st.
Proof.
  intros Hidle Hk Hbad.
  exists (raiseException InvalidSyntax line linenum st).
  split; [|repeat split].
  rewrite interpret_line_idle by assumption. f_equal.
  rewrite (statement_keyword _ _ _ _ Hk). simpl. unfold do_let.
  assert ((length (PyStr.split_max 2 line) <? 3)%nat
          || negb (PyStr.startswith (PyStr.split_max 2 line !!! 2%nat) "=")
          = true) as ->; [|reflexivity].
  destruct Hbad as [Hwords | Hstart].
  - apply orb_true_iff. left. apply Nat.ltb_lt.
    rewrite split_max_length. lia.
  - rewrite Hstart. apply orb_true_r.
Qed.

Lemma malformed_let_is_invalid_witness :
  exists st',
    @interpret_line Mini.host 0 "let x" 0 x_is_zero = Done st' /\
    raisedexceptions st' = ["Invalid syntax: Line 1: let x"] /\
    variables st' = variables x_is_zero.
Proof.
  destruct (@malformed_let_is_invalid Mini.host 0 "let x" 0 x_is_zero)
    as (st' & Hrun & Hlog & _ & Hvars & _).
  - reflexivity.
  - vm_compute. reflexivity.
  - left. vm_compute. lia.
  - exists st'. repeat split; assumption.
Defined.

(** X3: outside a block, a [let] line [let name = expr] whose expression
    evaluates to [v] binds [name] to [v], over any earlier binding, and
    leaves every other variable, the log and the output as they are. *)
Theorem let_assigns `{Host} (fuel : nat) (line keyword name rest : string)
    (linenum : Z) (st : state) (v : value) :
  in_block st = false ->
  keyword_of line = Some "let" ->
  PyStr.split_max 2 line = [keyword; name; rest] ->
  PyStr.startswith rest "=" = true ->
  fst (asteval (PyStr.strip (PyStr.slice_from 1 rest)) (variables st))
  = inl v ->
  exists st',
    interpret_line fuel line linenum st = Done st' /\
    variables st' = <[name := v]> (variables st) /\
    variables st' !! name = Some v /\
    (forall other, other <> name ->
                   variables st' !! other = variables st !! other) /\
    raisedexceptions st' = raisedexceptions st /\
    exceptioncount st' = exceptioncount st /\
    stdout st' = stdout st /\
    stdin st' = stdin st /\
    block_part st' = block_part st.
Proof.
  intros Hidle Hk Hparts Hstart Hv.
  exists (set_variables (<[name := v]> (variables st)) st).
  split.
  { rewrite interpret_line_idle by assumption. f_equal.
    rewrite (statement_keyword _ _ _ _ Hk). simpl. unfold do_let.
    rewrite Hparts.
    change ([keyword; name; rest] !!! 2%nat) with rest.
    change ([keyword; name; rest] !!! 1%nat) with name.
    change (length [keyword; name; rest] <? 3)%nat with false.
    rewrite Hstart. cbv [negb orb].
    rewrite asteval_eta, Hv. reflexivity. }
  simpl. repeat split.
  - apply lookup_insert_eq.
  - intros other Hother. apply lookup_insert_ne. congruence.
Qed.

Lemma let_assigns_witness :
  exists st',
    @interpret_line Mini.host 0 "let x = x + 41" 0 x_is_zero = Done st' /\
    variables st' !! "x" = Some (VInt 41).
Proof.
  destruct (@let_assigns Mini.host 0 "let x = x + 41" "let" "x" "= x + 41"
              0 x_is_zero (VInt 41))
    as (st' & Hrun & _ & Hx & _).
  - reflexivity.
  - vm_compute. reflexivity.
  - vm_compute. reflexivity.
  - reflexivity.
  - vm_compute. reflexivity.
  - exists st'. split; assumption.
Defined.



(** X5: outside a block, a line with a first word is answered by an
    "Unknown command" record exactly when that word is none of [let],
    [print], [if], [elif], [else], [while] and [input]; the record is then
    all that changes. *)
Theorem unknown_command_iff `{Host} (fuel : nat) (line keyword : string)
    (linenum : Z) (st : state) :
  in_block st = false ->
  keyword_of line = Some keyword ->
  exists st',
    interpret_line fuel line linenum st = Done st' /\
    (raisedexceptions st'
     = raisedexceptions st ++ [record UnknownCommand line linenum]
     <-> keyword ∉ handled_keywords) /\
    (keyword ∉ handled_keywords ->
     st' = raiseException UnknownCommand line linenum st).
Proof.
  intros Hidle Hk. exists (statement line linenum st).
  split; [apply interpret_line_idle; assumption|].
  split; [|intros Hnot; eapply statement_unhandled; eassumption].
  split.
  - intros Hlog Hin.
    destruct (statement_handled line linenum st keyword Hk Hin)
      as [Hsame | [Hrec | Hrec]]; rewrite Hlog in *.
    + apply (f_equal length) in Hsame. rewrite length_app in Hsame.
      simpl in Hsame. lia.
    + apply app_inv_head in Hrec. injection Hrec as Hrec.
      discriminate Hrec.
    + apply app_inv_head in Hrec. injection Hrec as Hrec.
      discriminate Hrec.
  - intros Hnot. rewrite (statement_unhandled _ _ _ _ Hk Hnot). reflexivity.
Qed.

Lemma unknown_command_iff_witness :
  exists st',
    @interpret_line Mini.host 0 "break" 4 x_is_zero = Done st' /\
    raisedexceptions st' = ["Unknown command: Line 5: break"].
Proof.
  destruct (@unknown_command_iff Mini.host 0 "break" "break" 4 x_is_zero)
    as (st' & Hrun & [_ Hlog] & _).
  - reflexivity.
  - vm_compute. reflexivity.
  - exists st'. split; [assumption|].
    apply Hlog. unfold handled_keywords.
    repeat (apply not_elem_of_cons; split; [discriminate|]).
    apply not_elem_of_nil.
Defined.

(** X6: outside a block, an [else] line opens a block of kind [else]
    exactly when what follows the keyword is the opening brace alone;
    otherwise it is answered by one "Missing opening brace" record and no
    block is opened.  In both cases the variables, the output and the
    branch flag are as before. *)
Theorem else_line_opens_or_is_rejected `{Host} (fuel : nat) (line : string)
    (linenum : Z) (st : state) :
  in_block st = false ->
  keyword_of line = Some "else" ->
  exists st',
    interpret_line fuel line linenum st = Done st' /\
    (remainder "else" line = "{" ->
     st' = set_block_type (Some "else") (set_in_block true st)) /\
    (remainder "else" line <> "{" ->
     st' = raiseException MissingOpeningBrace line linenum st) /\
    (in_block st' = true <-> remainder "else" line = "{") /\
    variables st' = variables st /\
    stdout st' = stdout st /\
    executed_a_branch st' = executed_a_branch st /\
    block_lines st' = block_lines st.
Proof.
  intros Hidle Hk. exists (statement line linenum st).
  split; [apply interpret_line_idle; assumption|].
  rewrite (statement_keyword _ _ _ _ Hk). simpl. unfold do_else.
  fold (remainder "else" line).
  destruct (String.eqb_spec (remainder "else" line) "{") as [Heq | Hne];
    simpl; repeat split; try congruence; try reflexivity.
Qed.

Lemma else_line_opens_or_is_rejected_witness :
  exists st',
    @interpret_line Mini.host 0 "else x {" 1 (initial_state []) = Done st' /\
    st' = raiseException MissingOpeningBrace "else x {" 1 (initial_state []).
Proof.
  destruct (@else_line_opens_or_is_rejected Mini.host 0 "else x {" 1
              (initial_state []))
    as (st' & Hrun & _ & Hrej & _).
  - reflexivity.
  - vm_compute. reflexivity.
  - exists st'. split; [assumption|]. apply Hrej. vm_compute. discriminate.
Defined.

(** X7: outside a block, an [input] line with a name, run while a line of
    input is left, writes its prompt, reads exactly that one line and
    binds the name to it: as an integer if [int] accepts the text, else as
    a float if [float] does, else as the text itself.  Nothing is
    recorded. *)
Theorem input_stores_one_line `{Host} (fuel : nat)
    (line keyword name user_input : string) (more rest : list string)
    (linenum : Z) (st : state) :
  in_block st = false ->
  keyword_of line = Some "input" ->
  PyStr.split line = keyword :: name :: more ->
  stdin st = user_input :: rest ->
  exists st',
    interpret_line fuel line linenum st = Done st' /\
    variables st' = <[name := input_value user_input]> (variables st) /\
    variables st' !! name = Some (input_value user_input) /\
    stdin st' = rest /\
    stdout st' = stdout st ++ [input_prompt line] /\
    raisedexceptions st' = raisedexceptions st /\
    (forall n, int_of_str user_input = Some n ->
               input_value user_input = VInt n) /\
    (forall f, int_of_str user_input = None ->
               float_of_str user_input = Some f ->
               input_value user_input = VFloat f) /\
    (int_of_str user_input = None -> float_of_str user_input = None ->
     input_value user_input = VStr user_input).
Proof.
  intros Hidle Hk Hparts Hin.
  exists (set_variables (<[name := input_value user_input]> (variables st))
            (set_stdin rest (write (input_prompt line) st))).
  split.
  { rewrite interpret_line_idle by assumption. f_equal.
    rewrite (statement_keyword _ _ _ _ Hk). simpl. unfold do_input.
    rewrite Hparts. simpl length. simpl Nat.ltb. cbv iota.
    change ((keyword :: name :: more) !!! 1%nat) with name.
    fold (input_prompt line).
    change (stdin (write (input_prompt line) st)) with (stdin st).
    rewrite Hin. reflexivity. }
  simpl. repeat split.
  - apply lookup_insert_eq.
  - intros n Hn. unfold input_value. rewrite Hn. reflexivity.
  - intros f Hn Hf. unfold input_value. rewrite Hn, Hf. reflexivity.
  - intros Hn Hf. unfold input_value. rewrite Hn, Hf. reflexivity.
Qed.

Lemma input_stores_one_line_witness :
  exists st',
    @interpret_line Mini.host 0 "input n prompt Age?" 0
      (initial_state ["42"; "x"]) = Done st' /\
    variables st' !! "n" = Some (VInt 42) /\
    stdin st' = ["x"] /\
    stdout st' = ["Age?"].
Proof.
  destruct (@input_stores_one_line Mini.host 0 "input n prompt Age?" "input"
              "n" "42" ["prompt"; "Age?"] ["x"] 0 (initial_state ["42"; "x"]))
    as (st' & Hrun & _ & Hn & Hin & Hout & _).
  - reflexivity.
  - vm_compute. reflexivity.
  - vm_compute. reflexivity.
  - reflexivity.
  - exists st'. repeat split; assumption.
Defined.

(** X8: outside a block, an [input] line without a name is answered by one
    "Invalid syntax" record, and nothing is written or read; with a name
    but no input left, the prompt is written and the failed read is
    answered by one "Invalid syntax" record.  No variable is assigned in
    either case. *)
Theorem input_without_name_or_data `{Host} (fuel : nat) (line : string)
    (linenum : Z) (st : state) :
  in_block st = false ->
  keyword_of line = Some "input" ->
  (length (PyStr.split line) < 2)%nat \/ stdin st = [] ->
  exists st',
    interpret_line fuel line linenum st = Done st' /\
    raisedexceptions st'
    = raisedexceptions st ++ [record InvalidSyntax line linenum] /\
    variables st' = variables st /\
    stdin st' = stdin st /\
    ((length (PyStr.split line) < 2)%nat -> stdout st' = stdout st) /\
    ((2 <= length (PyStr.split line))%nat ->
     stdout st' = stdout st ++ [input_prompt line]).
Proof.
  intros Hidle Hk Hbad.
  exists (statement line linenum st).
  split; [apply interpret_line_idle; assumption|].
  rewrite (statement_keyword _ _ _ _ Hk). simpl. unfold do_input.
  fold (input_prompt line).
  destruct (length (PyStr.split line) <? 2)%nat eqn:Hwords.
  - apply Nat.ltb_lt in Hwords. simpl. repeat split. intros. lia.
  - apply Nat.ltb_ge in Hwords.
    destruct Hbad as [Hlt | Hempty]; [lia|].
    change (stdin (write (input_prompt line) st)) with (stdin st).
    rewrite Hempty. simpl. repeat split; try congruence. intros. lia.
Qed.

Lemma input_without_name_or_data_witness :
  exists st',
    @interpret_line Mini.host 0 "input n" 0 (initial_state []) = Done st' /\
    raisedexceptions st' = ["Invalid syntax: Line 1: input n"] /\
    stdout st' = [""].
Proof.
  destruct (@input_without_name_or_data Mini.host 0 "input n" 0
              (initial_state []))
    as (st' & Hrun & Hlog & _ & _ & _ & Hout).
  - reflexivity.
  - vm_compute. reflexivity.
  - right. reflexivity.
  - exists st'. repeat split; [assumption | assumption |].
    apply Hout. vm_compute. lia.
Defined.

(** X9: while a block is open, the lines of a program up to the closing
    brace are appended to the buffer, trimmed and in order, and nothing
    else happens: no line is parsed, so no variable changes, nothing is
    written or recorded, and the kind, condition and branch flag of the
    open block stay, whatever the lines are (block keywords included). *)
Theorem open_block_buffers_lines `{Host} (fuel : nat) (body : list string)
    (linenum : Z) (st : state) :
  in_block st = true ->
  Forall (fun line => PyStr.strip line <> "}") body ->
  exists st',
    run_lines fuel body linenum st = Done st' /\
    block_lines st' = block_lines st ++ (PyStr.strip <$> body) /\
    observable st' = observable st /\
    in_block st' = true /\
    block_type st' = block_type st /\
    current_condition st' = current_condition st /\
    executed_a_branch st' = executed_a_branch st /\
    while_condition st' = while_condition st.
Proof.
  intros Hin Hbody. eexists. split.
  - apply run_lines_buffer; assumption.
  - simpl. repeat split. assumption.
Qed.

Lemma open_block_buffers_lines_witness :
  exists st',
    @run_lines Mini.host 0 ["  while 1 {"; "oops"; "let"] 5 loop_with_break
    = Done st' /\
    block_lines st'
    = ["print n"; "break"; "print 2"; "while 1 {"; "oops"; "let"] /\
    observable st' = observable loop_with_break.
Proof.
  destruct (@open_block_buffers_lines Mini.host 0
              ["  while 1 {"; "oops"; "let"] 5 loop_with_break)
    as (st' & Hrun & Hlines & Hobs & _).
  - reflexivity.
  - repeat constructor; vm_compute; discriminate.
  - exists st'. repeat split; assumption.
Defined.

(** X10: the run of a program does not depend on the whitespace around
    its lines: trimming every line beforehand changes nothing, for any
    fuel, starting line number and state. *)
Theorem surrounding_whitespace_is_ignored `{Host} (fuel : nat)
    (lines : list string) (linenum : Z) (st : state) :
  run_lines fuel (PyStr.strip <$> lines) linenum st
  = run_lines fuel lines linenum st.
Proof.
  revert linenum st. induction lines as [|line lines IH]; intros linenum st.
  - reflexivity.
  - simpl. rewrite strip_idem.
    destruct (interpret_line fuel (PyStr.strip line) linenum st);
      [apply IH | reflexivity | reflexivity].
Qed.

(** ** Further properties: the evaluator *)

Section EvalFacts.
Context `{Host}.

Lemma eval_bind_raise {A B : Type} (m : eval A) (k : A -> eval B) variables e :
  fst (m variables) = Raise e ->
  fst (eval_bind m k variables) = Raise e.
Proof.
  unfold eval_bind. destruct (m variables) as [[a|e'] variables'];
    simpl; intros Hm; [discriminate | congruence].
Qed.

Lemma eval_bind_ok {A B : Type} (m : eval A) (k : A -> eval B) variables a :
  m variables = (Ok a, variables) ->
  eval_bind m k variables = k a variables.
Proof. unfold eval_bind. intros ->. reflexivity. Qed.

(** A visit either raises or returns a value, and hands back the
    dictionary in both cases. *)
Lemma visit_cases node variables :
  (exists v, visit node variables = (Ok v, variables)) \/
  (exists e, visit node variables = (Raise e, variables)).
Proof.
  pose proof (visit_frame node variables) as Hframe.
  destruct (visit node variables) as [[v|e] variables']; simpl in Hframe;
    subst; eauto.
Qed.

Lemma BinOp_cases l op r variables :
  (exists e, fst (visit l variables) = Raise e /\
             fst (visit (ast.BinOp l op r) variables) = Raise e) \/
  (exists a e, fst (visit l variables) = Ok a /\
               fst (visit r variables) = Raise e /\
               fst (visit (ast.BinOp l op r) variables) = Raise e) \/
  (exists a b, fst (visit l variables) = Ok a /\
               fst (visit r variables) = Ok b /\
               visit (ast.BinOp l op r) variables
               = BinOp_ops op a b variables).
Proof.
  simpl.
  destruct (visit_cases l variables) as [[a Hl] | [e Hl]].
  - rewrite (eval_bind_ok _ _ _ a Hl).
    destruct (visit_cases r variables) as [[b Hr] | [e Hr]].
    + rewrite (eval_bind_ok _ _ _ b Hr). right. right. exists a, b.
      rewrite Hl, Hr. repeat split.
    + right. left. exists a, e. rewrite Hl, Hr. repeat split.
      apply eval_bind_raise. rewrite Hr. reflexivity.
  - left. exists e. rewrite Hl. split; [reflexivity|].
    apply eval_bind_raise. rewrite Hl. reflexivity.
Qed.
End EvalFacts.

(** X11: an undefined variable in a position that the visitor evaluates
    (both operands of a binary operation, the operand of a unary one, the
    left operand and the first comparator of a comparison) makes the
    evaluation fail, whatever else the expression holds; [asteval] then
    raises a [ValueError]. *)
Theorem undefined_name_fails `{Host} (node : ast.expr)
    (variables : gmap string value) (id : string) :
  id ∈ reads node ->
  variables !! id = None ->
  (exists e, fst (visit node variables) = Raise e) /\
  (forall text,
      ast_parse text = Some (ast.Expression node) ->
      exists e, fst (asteval text variables) = inr (ValueError e)).
Proof.
  intros Hin Hnone.
  assert (Hfail : exists e, fst (visit node variables) = Raise e).
  { induction node as [l op r IHl IHr | l ops cs IHl IHcs | v | id' | op e IHe
                      | cls] using expr_ind.
    - simpl in Hin. apply elem_of_app in Hin.
      destruct (BinOp_cases l op r variables)
        as [(e & _ & He) | [(a & e & _ & _ & He) | (a & b & Hl & Hr & _)]];
        eauto.
      destruct Hin as [Hin | Hin].
      + destruct (IHl Hin) as [e He]. congruence.
      + destruct (IHr Hin) as [e He]. congruence.
    - simpl in Hin. apply elem_of_app in Hin. simpl.
      destruct (visit_cases l variables) as [[a Hl] | [e Hl]].
      + rewrite (eval_bind_ok _ _ _ a Hl).
        destruct Hin as [Hin | Hin].
        { destruct (IHl Hin) as [e He]. rewrite Hl in He. discriminate. }
        destruct cs as [|c cs]; [apply elem_of_nil in Hin; contradiction|].
        destruct (Forall_inv IHcs Hin) as [e He].
        exists e. apply eval_bind_raise. exact He.
      + exists e. apply eval_bind_raise. rewrite Hl. reflexivity.
    - apply elem_of_nil in Hin. contradiction.
    - simpl in Hin. apply list_elem_of_singleton in Hin. subst.
      simpl. unfold visit_Name. rewrite Hnone. eauto.
    - simpl in Hin. destruct (IHe Hin) as [e' He'].
      exists e'. simpl. apply eval_bind_raise. exact He'.
    - apply elem_of_nil in Hin. contradiction. }
  split; [exact Hfail|].
  intros text Hparse. destruct Hfail as [e He]. exists e.
  unfold asteval. rewrite Hparse. simpl.
  destruct (visit node variables) as [[v|e'] variables']; simpl in *;
    [discriminate | congruence].
Qed.

Lemma undefined_name_fails_witness :
  exists e,
    fst (@visit Mini.host
           (ast.BinOp (ast.Constant (VInt 1)) (ast.OtherOperator "Pow")
              (ast.UnaryOp ast.USub (ast.Name "y")))
           {["x" := VInt 0]})
    = Raise e.
Proof.
  apply (@undefined_name_fails Mini.host
           (ast.BinOp (ast.Constant (VInt 1)) (ast.OtherOperator "Pow")
              (ast.UnaryOp ast.USub (ast.Name "y")))
           {["x" := VInt 0]} "y").
  - simpl. set_solver.
  - reflexivity.
Defined.

Section OperatorFacts.
Context `{Host}.

Lemma visit_ok_eq node variables v :
  fst (visit node variables) = Ok v -> visit node variables = (Ok v, variables).
Proof.
  intros Hv. destruct (visit_cases node variables) as [[v' Hn] | [e Hn]];
    rewrite Hn in *; simpl in Hv; congruence.
Qed.

Lemma BinOp_ok l op r variables a b :
  fst (visit l variables) = Ok a ->
  fst (visit r variables) = Ok b ->
  visit (ast.BinOp l op r) variables = BinOp_ops op a b variables.
Proof.
  intros Hl%visit_ok_eq Hr%visit_ok_eq. simpl.
  rewrite (eval_bind_ok _ _ _ a Hl), (eval_bind_ok _ _ _ b Hr). reflexivity.
Qed.


Hypothesis str_format_no_NameError :
  forall fmt v id, str_format fmt v <> Raise (NameError id).

Lemma BinOp_ops_no_NameError op a b variables id :
  fst (BinOp_ops op a b variables) <> Raise (NameError id).
Proof.
  destruct op; simpl;
    unfold py_add, py_sub, py_mul, py_truediv, py_mod, arith, num_binop,
      str_repeat, int_true_divide, float_div, int_mod, float_rem, to_float,
      float_of_int, result_bind;
    repeat case_match; try discriminate.
  all: intros Heq; simplify_eq;
    try (eapply str_format_no_NameError; eassumption).
Qed.

Lemma Compare_ops_no_NameError op a b variables id :
  fst (Compare_ops op a b variables) <> Raise (NameError id).
Proof.
  destruct op; simpl; unfold py_order; repeat case_match; discriminate.
Qed.

Lemma UnaryOp_ops_no_NameError op a variables id :
  fst (UnaryOp_ops op a variables) <> Raise (NameError id).
Proof.
  destruct op; simpl; unfold py_pos, py_neg; repeat case_match; discriminate.
Qed.

Lemma visit_NameError node variables id :
  fst (visit node variables) = Raise (NameError id) ->
  id ∈ reads node /\ variables !! id = None.
Proof.
  induction node as [l op r IHl IHr | l ops cs IHl IHcs | v | id' | op e IHe
                    | cls] using expr_ind; intros Hraise.
  - simpl reads. rewrite elem_of_app.
    destruct (BinOp_cases l op r variables)
      as [(e & Hl & He) | [(a & e & _ & Hr & He) | (a & b & _ & _ & He)]].
    + rewrite He in Hraise. simplify_eq. destruct (IHl Hl). auto.
    + rewrite He in Hraise. simplify_eq. destruct (IHr Hr). auto.
    + rewrite He in Hraise. apply BinOp_ops_no_NameError in Hraise.
      contradiction.
  - simpl reads. rewrite elem_of_app. simpl in Hraise.
    destruct (visit_cases l variables) as [[a Hl] | [e Hl]].
    + rewrite (eval_bind_ok _ _ _ a Hl) in Hraise.
      destruct cs as [|c cs]; [discriminate|].
      destruct (visit_cases c variables) as [[b Hc] | [e Hc]].
      * rewrite (eval_bind_ok _ _ _ b Hc) in Hraise.
        destruct ops as [|o ops]; [discriminate|].
        apply Compare_ops_no_NameError in Hraise. contradiction.
      * rewrite (eval_bind_raise _ _ _ e) in Hraise
          by (rewrite Hc; reflexivity).
        simplify_eq.
        destruct (Forall_inv IHcs) as [? ?]; [rewrite Hc; reflexivity|].
        auto.
    + rewrite (eval_bind_raise _ _ _ e) in Hraise by (rewrite Hl; reflexivity).
      simplify_eq. destruct IHl as [? ?]; [rewrite Hl; reflexivity|]. auto.
  - discriminate.
  - simpl in *. unfold visit_Name in Hraise.
    destruct (variables !! id') eqn:Hid; simpl in Hraise; simplify_eq.
    split; [apply list_elem_of_singleton; reflexivity | assumption].
  - simpl in Hraise.
    destruct (visit_cases e variables) as [[a He] | [e' He]].
    + rewrite (eval_bind_ok _ _ _ a He) in Hraise.
      apply UnaryOp_ops_no_NameError in Hraise. contradiction.
    + rewrite (eval_bind_raise _ _ _ e') in Hraise
        by (rewrite He; reflexivity).
      simplify_eq. apply IHe. rewrite He. reflexivity.
  - discriminate.
Qed.
End OperatorFacts.

(** X12: on a host whose string formatting raises no [NameError], an
    evaluation that fails with the [NameError] of [id] has looked up [id]
    in an evaluated position and not found it in the dictionary: the
    operators themselves never raise it. *)
Theorem name_error_names_an_undefined_variable `{Host} (node : ast.expr)
    (variables : gmap string value) (id : string) :
  (forall fmt v id', str_format fmt v <> Raise (NameError id')) ->
  fst (visit node variables) = Raise (NameError id) ->
  id ∈ reads node /\ variables !! id = None.
Proof. intros Hhost. apply visit_NameError. exact Hhost. Qed.

Lemma name_error_names_an_undefined_variable_witness :
  "y" ∈ reads (ast.BinOp (ast.Name "x") ast.Add (ast.Name "y")) /\
  ({["x" := VInt 0]} : gmap string value) !! "y" = None.
Proof.
  apply (@name_error_names_an_undefined_variable Mini.host
           (ast.BinOp (ast.Name "x") ast.Add (ast.Name "y"))
           {["x" := VInt 0]} "y").
  - intros fmt v id'. discriminate.
  - reflexivity.
Defined.

(** X13: a comparison is evaluated from its left operand, its first
    operator and its first comparator alone: the later operators and
    comparators of a chain such as [a < b < c] are never evaluated and do
    not affect the result.  When the evaluation returns, the value is a
    boolean. *)
Theorem comparison_uses_first_pair `{Host} (l c : ast.expr)
    (op : ast.cmpop) (ops : list ast.cmpop) (cs : list ast.expr)
    (variables : gmap string value) :
  visit (ast.Compare l (op :: ops) (c :: cs)) variables
  = visit (ast.Compare l [op] [c]) variables /\
  (forall v,
      fst (visit (ast.Compare l (op :: ops) (c :: cs)) variables) = Ok v ->
      exists b, v = VBool b) /\
  (forall id, id ∈ reads (ast.Compare l (op :: ops) (c :: cs)) <->
              id ∈ reads l \/ id ∈ reads c).
Proof.
  split; [reflexivity|]. split.
  - intros v. simpl.
    destruct (visit_cases l variables) as [[a Hl] | [e Hl]].
    + rewrite (eval_bind_ok _ _ _ a Hl).
      destruct (visit_cases c variables) as [[b Hc] | [e Hc]].
      * rewrite (eval_bind_ok _ _ _ b Hc).
        destruct op; simpl; unfold py_order; repeat case_match;
          intros Hv; simplify_eq; eauto.
      * rewrite (eval_bind_raise _ _ _ e) by (rewrite Hc; reflexivity).
        discriminate.
    + rewrite (eval_bind_raise _ _ _ e) by (rewrite Hl; reflexivity).
      discriminate.
  - intros id. simpl. apply elem_of_app.
Qed.



(** X15: [%] on two integers raises [ZeroDivisionError] when the divisor
    is zero; otherwise it yields an integer remainder with the sign of the
    divisor (between zero and the divisor, the divisor excluded), the
    remainder of the division rounded down. *)
Theorem integer_modulo_follows_divisor `{Host} (l r : ast.expr)
    (variables : gmap string value) (a b : Z) :
  fst (visit l variables) = Ok (VInt a) ->
  fst (visit r variables) = Ok (VInt b) ->
  (b = 0 ->
   fst (visit (ast.BinOp l ast.Mod r) variables) = Raise ZeroDivisionError) /\
  (b <> 0 ->
   exists m,
     fst (visit (ast.BinOp l ast.Mod r) variables) = Ok (VInt m) /\
     a = b * (a / b) + m /\
     (0 < b -> 0 <= m < b) /\
     (b < 0 -> b < m <= 0)).
Proof.
  intros Hl Hr. rewrite (BinOp_ok _ _ _ _ (VInt a) (VInt b)) by assumption.
  simpl. unfold py_mod, arith. simpl. unfold int_mod. split.
  - intros ->. reflexivity.
  - intros Hb. apply Z.eqb_neq in Hb as Hb'. rewrite Hb'.
    exists (a mod b). repeat split.
    + apply Z.div_mod. exact Hb.
    + apply Z.mod_pos_bound. assumption.
    + apply Z.mod_pos_bound. assumption.
    + apply Z.mod_neg_bound. assumption.
    + apply Z.mod_neg_bound. assumption.
Qed.

Lemma integer_modulo_follows_divisor_witness :
  fst (@visit Mini.host
         (ast.BinOp (ast.Constant (VInt (-7))) ast.Mod (ast.Constant (VInt 3)))
         ∅)
  = Ok (VInt 2).
Proof.
  destruct (@integer_modulo_follows_divisor Mini.host
              (ast.Constant (VInt (-7))) (ast.Constant (VInt 3)) ∅ (-7) 3
              eq_refl eq_refl) as [_ Hmod].
  destruct Hmod as (m & Hm & Hdiv & Hpos & _); [lia|].
  rewrite Hm. f_equal. f_equal.
  change (-7 / 3) with (-3) in Hdiv. lia.
Defined.

(** ** Further properties: the block engine *)

Section Clean.
Context `{Host}.

Lemma asteval_error text variables e :
  fst (asteval text variables) = inr e -> exists cause, e = ValueError cause.
Proof.
  unfold asteval. destruct (ast_parse text) as [tree|]; simpl.
  - destruct (visit_Expression tree variables) as [[v|cause] variables'];
      simpl; intros He; simplify_eq. eauto.
  - intros He. simplify_eq. eauto.
Qed.

Lemma body_step_clean linenum st line :
  buffer_clean st -> line <> "}" -> buffer_clean (body_step linenum st line).
Proof.
  unfold buffer_clean, body_step. intros Hclean Hline.
  destruct (in_block st); simpl.
  - apply Forall_app. split; [assumption|]. constructor; [assumption|].
    constructor.
  - rewrite statement_block_lines. assumption.
Qed.

(** Over a clean buffer the replay of a body never raises, and leaves the
    buffer clean. *)
Lemma for_lines_clean fuel' linenum breaks fuel :
  forall i st,
    buffer_clean st ->
    match for_lines (fun bline => interpret_line fuel' bline linenum)
            breaks fuel i st with
    | Next st' | Return st' => buffer_clean st'
    | Throw _ _ => False
    | Timeout => True
    end.
Proof.
  induction fuel as [|fuel IH]; intros i st Hclean; simpl;
    destruct (block_lines st !! i) as [bline|] eqn:Hat; try assumption;
    destruct (breaks && String.eqb bline "break"); try assumption;
    try exact I.
  assert (Hbline : bline <> "}").
  { unfold buffer_clean in Hclean. rewrite Forall_lookup in Hclean.
    exact (Hclean i bline Hat). }
  rewrite interpret_line_body_step by assumption.
  apply IH. apply body_step_clean; assumption.
Qed.

(** A [while] over a clean buffer raises only the failure of its
    condition, in the state where it stops. *)
Lemma while_loop_clean fuel' linenum fuel :
  forall st,
    buffer_clean st ->
    match while_loop (fun bline => interpret_line fuel' bline linenum)
            fuel st with
    | Next st' | Return st' => buffer_clean st'
    | Throw e st' =>
        buffer_clean st' /\
        fst (asteval (while_condition st') (variables st')) = inr e
    | Timeout => True
    end.
Proof.
  induction fuel as [|fuel IH]; intros st Hclean; simpl;
    rewrite asteval_eta, set_variables_id;
    destruct (fst (asteval (while_condition st) (variables st)))
      as [c|e] eqn:Hc; try (split; assumption);
    destruct (truthy c); try assumption; try exact I.
  pose proof (for_lines_clean fuel' linenum true fuel 0 st Hclean) as Hfor.
  destruct (for_lines _ true fuel 0 st) as [s|s|e s|];
    [apply IH; assumption | assumption | contradiction | exact I].
Qed.

Lemma finish_for_lines_clean (after : state -> state) fuel' linenum breaks
    fuel i st :
  buffer_clean st ->
  match finish after
          (for_lines (fun bline => interpret_line fuel' bline linenum)
             breaks fuel i st) with
  | Done st' => buffer_clean st'
  | Raised _ _ => False
  | OutOfFuel => True
  end.
Proof.
  intros Hclean.
  pose proof (for_lines_clean fuel' linenum breaks fuel i st Hclean) as Hfor.
  destruct (for_lines _ breaks fuel i st) as [s|s|e s|]; simpl;
    [constructor | assumption | contradiction | exact I].
Qed.

Lemma interpret_line_clean fuel line linenum st :
  buffer_clean st ->
  match interpret_line fuel line linenum st with
  | Done st' => buffer_clean st'
  | Raised e st' =>
      buffer_clean st' /\
      line = "}" /\ in_block st = true /\ block_type st = Some "while" /\
      fst (asteval (while_condition st') (variables st')) = inr e
  | OutOfFuel => True
  end.
Proof.
  intros Hclean.
  destruct (in_block st) eqn:Hin;
    [|rewrite interpret_line_idle by assumption; unfold buffer_clean;
      rewrite statement_block_lines; assumption].
  destruct (String.eqb_spec line "}") as [-> | Hline];
    [|rewrite interpret_line_buffer by assumption;
      apply (body_step_clean linenum st line) in Hclean; [|assumption];
      unfold body_step in Hclean; rewrite Hin in Hclean; exact Hclean].
  destruct fuel as [|fuel]; [simpl; rewrite Hin; exact I|].
  rewrite interpret_line_close by assumption.
  assert (Hopen : buffer_clean (set_in_block false st)) by exact Hclean.
  unfold close_block.
  destruct (decide (block_type (set_in_block false st) = Some "while"))
    as [Hwhile | Hother].
  - pose proof (while_loop_clean fuel linenum fuel _ Hopen) as Hloop.
    destruct (while_loop _ fuel (set_in_block false st)) as [s|s|e s|];
      simpl; [constructor | assumption | | exact I].
    destruct Hloop as [Hs He]. repeat split; assumption.
  - destruct (decide (block_type (set_in_block false st) = Some "else")).
    { destruct (negb (executed_a_branch (set_in_block false st))).
      - pose proof (finish_for_lines_clean (set_executed_a_branch false)
                      fuel linenum false fuel 0 _ Hopen) as Hfin.
        destruct (finish _ _); [assumption | contradiction | exact I].
      - constructor. }
    destruct (decide (block_type (set_in_block false st) = Some "if" \/
                      block_type (set_in_block false st) = Some "elif")).
    { destruct (truthy (current_condition (set_in_block false st))
                && negb (executed_a_branch (set_in_block false st))).
      - pose proof (finish_for_lines_clean (set_executed_a_branch true)
                      fuel linenum false fuel 0 _ Hopen) as Hfin.
        destruct (finish _ _); [assumption | contradiction | exact I].
      - constructor. }
    constructor.
Qed.

Lemma run_lines_clean fuel lines :
  forall linenum st,
    buffer_clean st ->
    match run_lines fuel lines linenum st with
    | Done st' => buffer_clean st'
    | Raised e st' =>
        buffer_clean st' /\
        fst (asteval (while_condition st') (variables st')) = inr e
    | OutOfFuel => True
    end.
Proof.
  induction lines as [|line lines IH]; intros linenum st Hclean; simpl.
  - assumption.
  - pose proof (interpret_line_clean fuel (PyStr.strip line) linenum st
                  Hclean) as Hstep.
    destruct (interpret_line fuel (PyStr.strip line) linenum st)
      as [s|e s|].
    + apply IH. assumption.
    + destruct Hstep as (Hs & _ & _ & _ & He). split; assumption.
    + exact I.
Qed.
End Clean.

Lemma report_block_lines `{Host} st : block_lines (report st) = block_lines st.
Proof.
  unfold report. simpl.
  generalize (raisedexceptions st). intros texts. revert st.
  induction texts as [|text texts IH]; intros st; simpl;
    [reflexivity | apply (IH (write _ st))].
Qed.

(** X16: the buffer of body lines never holds the closing brace: this is
    so in the initial state, and a call of [interpret_line] from a state
    where it is so ends, whether it returns or raises, in a state where it
    is so; hence it is so wherever a run of [run_minipy] ends. *)
Theorem buffer_never_holds_closing_brace `{Host} :
  (forall input, buffer_clean (initial_state input)) /\
  (forall fuel line linenum st st',
      buffer_clean st ->
      outcome_state (interpret_line fuel line linenum st) = Some st' ->
      buffer_clean st') /\
  (forall fuel code input st,
      outcome_state (run_minipy fuel code input) = Some st ->
      buffer_clean st).
Proof.
  split; [intros input; constructor|]. split.
  - intros fuel line linenum st st' Hclean Hst'.
    pose proof (interpret_line_clean fuel line linenum st Hclean) as Hstep.
    destruct (interpret_line fuel line linenum st) as [s|e s|];
      simpl in Hst'; simplify_eq; [assumption | apply Hstep].
  - intros fuel code input st. unfold run_minipy.
    assert (Hinit : buffer_clean (initial_state input)) by constructor.
    pose proof (run_lines_clean fuel (PyStr.splitlines code) 0
                  (initial_state input) Hinit) as Hrun.
    destruct (run_lines fuel (PyStr.splitlines code) 0 (initial_state input))
      as [s|e s|]; simpl; intros Hst; simplify_eq.
    + unfold buffer_clean. rewrite report_block_lines. exact Hrun.
    + apply Hrun.
Qed.

Lemma buffer_never_holds_closing_brace_witness :
  exists st,
    outcome_state
      (@run_minipy Mini.host 1
         ("if 1 {" +:+ PyStr.newline +:+ "print 1") []) = Some st /\
    buffer_clean st.
Proof.
  destruct (outcome_state
              (@run_minipy Mini.host 1
                 ("if 1 {" +:+ PyStr.newline +:+ "print 1") []))
    as [st|] eqn:Hrun; [|vm_compute in Hrun; discriminate].
  exists st. split; [reflexivity|].
  exact (proj2 (proj2 (@buffer_never_holds_closing_brace Mini.host))
           1%nat ("if 1 {" +:+ PyStr.newline +:+ "print 1") [] st Hrun).
Defined.

(** X17: from a state whose buffer holds no closing brace (every state of
    a run), an exception leaves [interpret_line] only when the line is the
    closing brace of an open [while] block, and it is then the
    [ValueError] raised by the evaluation of the loop condition in the
    state where the call stops.  So a run of [run_minipy] that is cut
    short is cut short by the failure of a loop condition. *)
Theorem exception_leaves_only_from_while_condition `{Host} :
  (forall fuel line linenum st e st',
      buffer_clean st ->
      interpret_line fuel line linenum st = Raised e st' ->
      line = "}" /\ in_block st = true /\ block_type st = Some "while" /\
      fst (asteval (while_condition st') (variables st')) = inr e /\
      exists cause, e = ValueError cause) /\
  (forall fuel code input e st,
      run_minipy fuel code input = Raised e st ->
      fst (asteval (while_condition st) (variables st)) = inr e /\
      exists cause, e = ValueError cause).
Proof.
  split.
  - intros fuel line linenum st e st' Hclean Hraised.
    pose proof (interpret_line_clean fuel line linenum st Hclean) as Hstep.
    rewrite Hraised in Hstep. destruct Hstep as (_ & Hl & Hin & Hty & He).
    repeat split; try assumption. eapply asteval_error. exact He.
  - intros fuel code input e st. unfold run_minipy.
    assert (Hinit : buffer_clean (initial_state input)) by constructor.
    pose proof (run_lines_clean fuel (PyStr.splitlines code) 0
                  (initial_state input) Hinit) as Hrun.
    destruct (run_lines fuel (PyStr.splitlines code) 0 (initial_state input))
      as [s|e' s|]; intros Hst; simplify_eq.
    destruct Hrun as [_ He]. split; [assumption|].
    eapply asteval_error. exact He.
Qed.

Lemma exception_leaves_only_from_while_condition_witness :
  exists e st,
    @run_minipy Mini.host 1 undefined_loop [] = Raised e st /\
    fst (@asteval Mini.host (while_condition st) (variables st)) = inr e.
Proof.
  destruct (@run_minipy Mini.host 1 undefined_loop []) as [st|e st|]
    eqn:Hrun;
    [vm_compute in Hrun; discriminate | | vm_compute in Hrun; discriminate].
  exists e, st. split; [reflexivity|].
  exact (proj1 (proj2 (@exception_leaves_only_from_while_condition Mini.host)
                  1%nat undefined_loop [] e st Hrun)).
Defined.

Section LoopFacts.
Context `{Host}.

(** A body of simple lines is run to its end, or the fuel runs out. *)
Lemma for_lines_simple_cases fuel' linenum breaks todo :
  forall fuel done st,
    block_lines st = done ++ todo ->
    in_block st = false ->
    Forall (fun line => simple line = true) todo ->
    (breaks = true -> Forall (fun line => line <> "break") todo) ->
    for_lines (fun bline => interpret_line fuel' bline linenum)
      breaks fuel (length done) st
    = Next (exec_body todo linenum st)
    \/ for_lines (fun bline => interpret_line fuel' bline linenum)
         breaks fuel (length done) st
       = Timeout.
Proof.
  intros fuel done st Hlines Hidle Hsimple Hbreak.
  destruct (le_lt_dec (length todo) fuel) as [Hle | Hlt].
  { left. apply for_lines_simple; assumption. }
  right. revert fuel done st Hlines Hidle Hsimple Hbreak Hlt.
  induction todo as [|line todo IH];
    intros fuel done st Hlines Hidle Hsimple Hbreak Hlt;
    [simpl in Hlt; lia|].
  inversion Hsimple as [|? ? Hline Htodo]; subst.
  assert (Hat : block_lines st !! length done = Some line).
  { rewrite Hlines, lookup_app_r, Nat.sub_diag by lia. reflexivity. }
  assert (Hnb : breaks && String.eqb line "break" = false).
  { destruct breaks; [|reflexivity]. simpl. apply String.eqb_neq.
    specialize (Hbreak eq_refl). inversion Hbreak; assumption. }
  destruct fuel as [|fuel]; simpl; rewrite Hat, Hnb; [reflexivity|].
  rewrite interpret_line_idle by assumption.
  pose proof (statement_simple_block_part line linenum st Hline) as Hpart.
  unfold block_part in Hpart. simplify_eq.
  replace (S (length done)) with (length (done ++ [line]))
    by (rewrite length_app; simpl; lia).
  apply IH.
  - rewrite <- app_assoc. simpl. congruence.
  - congruence.
  - assumption.
  - intros Hb. specialize (Hbreak Hb). inversion Hbreak; assumption.
  - simpl in Hlt. lia.
Qed.

(** The passes of a [while] over a body of simple lines without [break]:
    when the loop ends, its condition does not hold, the block state is
    the one it started with, and whatever each pass preserves still
    holds. *)
Lemma while_loop_rule fuel' linenum
    (I : gmap string value * list string * list string * list string * Z
         -> Prop)
    body condition fuel :
  forall st st',
    in_block st = false ->
    block_lines st = body ->
    while_condition st = condition ->
    Forall (fun line => simple line = true /\ line <> "break") body ->
    (forall s c,
        I (observable s) ->
        fst (asteval condition (variables s)) = inl c ->
        truthy c = true ->
        I (observable (exec_body body linenum s))) ->
    I (observable st) ->
    while_loop (fun bline => interpret_line fuel' bline linenum) fuel st
    = Next st' ->
    (exists c, fst (asteval condition (variables st')) = inl c /\
               truthy c = false) /\
    block_part st' = block_part st /\
    I (observable st').
Proof.
  induction fuel as [|fuel IH];
    intros st st' Hidle Hlines Hcond Hbody Hstep Hinv; simpl;
    rewrite asteval_eta, set_variables_id, Hcond;
    destruct (fst (asteval condition (variables st))) as [c|e] eqn:Hc;
    try discriminate;
    destruct (truthy c) eqn:Ht; try discriminate;
    try (intros Hnext; simplify_eq; split; [eauto | split; [reflexivity|
                                                            assumption]]).
  assert (Hsimple : Forall (fun line => simple line = true) body)
    by (eapply Forall_impl; [exact Hbody | intros l [Hl _]; exact Hl]).
  assert (Hnobreak : Forall (fun line => line <> "break") body)
    by (eapply Forall_impl; [exact Hbody | intros l [_ Hl]; exact Hl]).
  pose proof (exec_body_simple_block_part body linenum st Hsimple) as Hpart.
  destruct (for_lines_simple_cases fuel' linenum true body fuel [] st)
    as [Hfor | Hfor]; try assumption; try (intros _; assumption).
  - change (length (@nil string)) with 0%nat in Hfor. rewrite Hfor.
    intros Hloop.
    unfold block_part in Hpart. simplify_eq.
    destruct (IH (exec_body (block_lines st) linenum st) st')
      as (Hexit & Hpart' & Hinv'); try congruence; try assumption.
    + eapply Hstep; eassumption.
    + split; [assumption|]. split; [|assumption].
      rewrite Hpart'. unfold block_part. congruence.
  - change (length (@nil string)) with 0%nat in Hfor. rewrite Hfor.
    discriminate.
Qed.

(** Once a block has been opened during a replay, every further line of
    the buffer is appended to the buffer again: the replay has no end. *)
Lemma for_lines_diverges fuel' linenum fuel :
  forall i st,
    in_block st = true ->
    buffer_clean st ->
    (i < length (block_lines st))%nat ->
    for_lines (fun bline => interpret_line fuel' bline linenum)
      false fuel i st
    = Timeout.
Proof.
  induction fuel as [|fuel IH]; intros i st Hin Hclean Hi;
    destruct (lookup_lt_is_Some_2 (block_lines st) i Hi) as [bline Hat];
    simpl; rewrite Hat; [reflexivity|].
  assert (Hbline : bline <> "}").
  { unfold buffer_clean in Hclean. rewrite Forall_lookup in Hclean.
    exact (Hclean i bline Hat). }
  rewrite interpret_line_buffer by assumption.
  apply IH.
  - assumption.
  - unfold buffer_clean. simpl. apply Forall_app. split; [assumption|].
    constructor; [assumption | constructor].
  - simpl. rewrite length_app. simpl. lia.
Qed.

(** A block-opening line, run as a statement, opens a block and leaves
    the buffer as it is. *)
Lemma statement_block_opener line linenum st :
  block_opener line ->
  in_block (statement line linenum st) = true /\
  block_lines (statement line linenum st) = block_lines st.
Proof.
  intros [(keyword & condition & Hkw & Hopens) | Helse];
    [|rewrite statement_else by assumption; split; reflexivity].
  split; [|apply statement_block_lines].
  destruct Hkw as [-> | [-> | ->]].
  - rewrite (statement_if "if" line condition) by (auto; assumption).
    simpl. destruct (fst (asteval condition (variables st))); reflexivity.
  - rewrite (statement_if "elif" line condition) by (auto; assumption).
    simpl. destruct (fst (asteval condition (variables st))); reflexivity.
  - destruct Hopens as (Hk & Hbrace & _).
    rewrite (statement_keyword _ _ _ _ Hk). simpl. unfold do_while.
    unfold remainder in Hbrace. rewrite Hbrace. reflexivity.
Qed.
End LoopFacts.

(** X18: closing a [while] block whose body is made of simple lines, none
    of them [break]: if the call returns, then in the state it returns the
    loop condition evaluates to a value that does not hold, the block
    state is cleared, and every property of the observable state that
    each pass of the body preserves (when started where the condition
    holds) has been carried from the state before the loop to the state
    after it. *)
Theorem while_exits_with_condition_false `{Host} (fuel : nat) (linenum : Z)
    (st st' : state)
    (I : gmap string value * list string * list string * list string * Z
         -> Prop) :
  in_block st = true ->
  block_type st = Some "while" ->
  Forall (fun line => simple line = true /\ line <> "break")
         (block_lines st) ->
  (forall s c,
      I (observable s) ->
      fst (asteval (while_condition st) (variables s)) = inl c ->
      truthy c = true ->
      I (observable (exec_body (block_lines st) linenum s))) ->
  I (observable st) ->
  interpret_line fuel "}" linenum st = Done st' ->
  (exists c, fst (asteval (while_condition st) (variables st')) = inl c /\
             truthy c = false) /\
  I (observable st') /\
  in_block st' = false /\ block_type st' = None /\ block_lines st' = [] /\
  while_condition st' = while_condition st.
Proof.
  intros Hin Hty Hbody Hstep Hinv Hdone.
  destruct fuel as [|fuel]; [simpl in Hdone; rewrite Hin in Hdone;
                             discriminate|].
  rewrite interpret_line_close, close_block_while in Hdone by assumption.
  destruct (while_loop _ fuel (set_in_block false st)) as [s|s|e s|] eqn:Hloop;
    unfold finish, clear_block in Hdone; simpl in Hdone; simplify_eq.
  - destruct (while_loop_rule fuel linenum I (block_lines st)
                (while_condition st) fuel (set_in_block false st) s)
      as (Hexit & Hpart & Hinv'); try reflexivity; try assumption.
    unfold block_part in Hpart. simpl in Hpart. simplify_eq.
    simpl. repeat split; assumption.
  - exfalso.
    assert (Hno : forall n s0 s1,
               in_block s0 = false -> block_lines s0 = block_lines st ->
               while_condition s0 = while_condition st ->
               while_loop (fun bline => interpret_line fuel bline linenum)
                 n s0 <> Return s1).
    { induction n as [|n IHn]; intros s0 s1 Hi Hl Hc; simpl;
        rewrite asteval_eta, set_variables_id;
        destruct (fst (asteval (while_condition s0) (variables s0)));
        try discriminate; destruct (truthy v); try discriminate.
      assert (Hsimple : Forall (fun line => simple line = true)
                               (block_lines s0))
        by (rewrite Hl; eapply Forall_impl;
            [exact Hbody | intros l [Hl' _]; exact Hl']).
      pose proof (exec_body_simple_block_part (block_lines s0) linenum s0
                    Hsimple) as Hpart.
      destruct (for_lines_simple_cases fuel linenum true (block_lines s0)
                  n [] s0) as [Hfor | Hfor]; try assumption;
        try reflexivity;
        try (intros _; rewrite Hl; eapply Forall_impl;
             [exact Hbody | intros l [_ Hl']; exact Hl']);
        change (length (@nil string)) with 0%nat in Hfor; rewrite Hfor;
        [|discriminate].
      unfold block_part in Hpart. simplify_eq.
      apply IHn; congruence. }
    eapply (Hno fuel (set_in_block false st) st'); try reflexivity.
    exact Hloop.
Qed.

Lemma while_exits_with_condition_false_witness :
  exists st' c,
    @interpret_line Mini.host 6 "}" 3 counting_loop = Done st' /\
    fst (@asteval Mini.host "x < 3" (variables st')) = inl c /\
    truthy c = false /\
    (exists k, variables st' !! "x" = Some (VInt k)).
Proof.
  destruct (@interpret_line Mini.host 6 "}" 3 counting_loop)
    as [st'|e st'|] eqn:Hrun;
    [|vm_compute in Hrun; discriminate | vm_compute in Hrun; discriminate].
  exists st'.
  destruct (@while_exits_with_condition_false Mini.host 6 3 counting_loop st'
              (fun o => exists k, o.1.1.1.1 !! "x" = Some (VInt k)))
    as ((c & Hc & Ht) & Hinv & _).
  - reflexivity.
  - reflexivity.
  - repeat constructor; discriminate.
  - intros s c [k Hk] _ _.
    change (block_lines counting_loop) with ["print x"; "let x = x + 1"].
    rewrite (@counting_body Mini.host eq_refl eq_refl 3 s k) by exact Hk.
    exists (k + 1). apply lookup_insert_eq.
  - exists 0. reflexivity.
  - exact Hrun.
  - exists c. split; [reflexivity|]. repeat split; assumption.
Defined.

(** The replay of a prefix of simple lines either uses up the fuel or
    reaches the line after the prefix, having run the prefix. *)
Lemma for_lines_simple_prefix `{Host} fuel' linenum todo :
  forall fuel done tail st,
    block_lines st = done ++ todo ++ tail ->
    in_block st = false ->
    Forall (fun line => simple line = true) todo ->
    for_lines (fun bline => interpret_line fuel' bline linenum)
      false fuel (length done) st = Timeout
    \/ exists fuel2,
        for_lines (fun bline => interpret_line fuel' bline linenum)
          false fuel (length done) st
        = for_lines (fun bline => interpret_line fuel' bline linenum)
            false fuel2 (length done + length todo)
            (exec_body todo linenum st).
Proof.
  induction todo as [|line todo IH];
    intros fuel done tail st Hlines Hidle Hsimple.
  - right. exists fuel. simpl. rewrite Nat.add_0_r. reflexivity.
  - inversion Hsimple as [|? ? Hline Htodo]; subst.
    assert (Hat : block_lines st !! length done = Some line).
    { rewrite Hlines, lookup_app_r, Nat.sub_diag by lia. reflexivity. }
    destruct fuel as [|fuel]; [left; simpl; rewrite Hat; reflexivity|].
    pose proof (statement_simple_block_part line linenum st Hline) as Hpart.
    unfold block_part in Hpart. simplify_eq.
    assert (Hstep :
              for_lines (fun bline => interpret_line fuel' bline linenum)
                false (S fuel) (length done) st
              = for_lines (fun bline => interpret_line fuel' bline linenum)
                  false fuel (length (done ++ [line]))
                  (statement line linenum st)).
    { simpl. rewrite Hat. simpl.
      rewrite interpret_line_idle by assumption.
      rewrite length_app. simpl. rewrite Nat.add_1_r. reflexivity. }
    rewrite Hstep.
    assert (Hlines' : block_lines (statement line linenum st)
                      = (done ++ [line]) ++ todo ++ tail).
    { rewrite <- app_assoc. simpl in *. congruence. }
    assert (Hidle' : in_block (statement line linenum st) = false)
      by congruence.
    destruct (IH fuel (done ++ [line]) tail (statement line linenum st)
                Hlines' Hidle' Htodo) as [Hout | [fuel2 Hgo]].
    + left. exact Hout.
    + right. exists fuel2. rewrite Hgo. rewrite length_app. simpl.
      replace (length done + 1 + length todo)%nat
        with (length done + S (length todo))%nat by lia.
      reflexivity.
Qed.

(** X19: closing an [if] or [elif] block whose body runs and holds, after
    simple lines, a block-opening line followed by at least one more
    line: the opening line opens a block in the middle of the replay,
    every later line is appended to the very buffer that is being
    replayed, and the replay never reaches its end.  In the model, the
    call runs out of fuel whatever the fuel. *)
Theorem nested_block_never_returns `{Host} (fuel : nat) (linenum : Z)
    (st : state) (pre rest : list string) (opener : string) :
  in_block st = true ->
  block_type st = Some "if" \/ block_type st = Some "elif" ->
  truthy (current_condition st) && negb (executed_a_branch st) = true ->
  block_lines st = pre ++ opener :: rest ->
  rest <> [] ->
  Forall (fun line => simple line = true) pre ->
  block_opener opener ->
  buffer_clean st ->
  interpret_line fuel "}" linenum st = OutOfFuel.
Proof.
  intros Hin Hty Htaken Hlines Hrest Hpre Hopener Hclean.
  destruct fuel as [|fuel]; [simpl; rewrite Hin; reflexivity|].
  rewrite interpret_line_close, close_block_if by assumption.
  rewrite Htaken.
  enough (for_lines (fun bline => interpret_line fuel bline linenum)
            false fuel 0 (set_in_block false st) = Timeout) as ->
    by reflexivity.
  destruct (for_lines_simple_prefix fuel linenum pre fuel [] (opener :: rest)
              (set_in_block false st)) as [Hout | [fuel2 Hgo]];
    try assumption; try reflexivity.
  change (length (@nil string)) with 0%nat in Hgo. rewrite Hgo. simpl Nat.add.
  set (s1 := exec_body pre linenum (set_in_block false st)).
  pose proof (exec_body_simple_block_part pre linenum
                (set_in_block false st) Hpre) as Hpart.
  fold s1 in Hpart. unfold block_part in Hpart. simpl in Hpart. simplify_eq.
  assert (Hat : block_lines s1 !! length pre = Some opener).
  { replace (block_lines s1) with (pre ++ opener :: rest) by congruence.
    rewrite lookup_app_r, Nat.sub_diag by lia. reflexivity. }
  destruct fuel2 as [|fuel2]; simpl; rewrite Hat; [reflexivity|].
  rewrite interpret_line_idle by assumption.
  destruct (statement_block_opener opener linenum s1 Hopener)
    as [Hopen Hsame].
  apply for_lines_diverges.
  - assumption.
  - unfold buffer_clean. rewrite Hsame.
    replace (block_lines s1) with (block_lines st) by congruence.
    exact Hclean.
  - rewrite Hsame. replace (block_lines s1) with (pre ++ opener :: rest)
      by congruence.
    rewrite length_app. simpl. destruct rest; [contradiction|]. simpl. lia.
Qed.

Lemma nested_block_never_returns_witness :
  @interpret_line Mini.host 1000 "}" 3 nested_if = OutOfFuel.
Proof.
  apply (@nested_block_never_returns Mini.host 1000 3 nested_if
           ["print 0"] ["print 1"] "if 1 {").
  - reflexivity.
  - left. reflexivity.
  - reflexivity.
  - reflexivity.
  - discriminate.
  - repeat constructor.
  - left. exists "if", "1". split; [left; reflexivity|].
    repeat split; vm_compute; reflexivity.
  - repeat constructor; discriminate.
Defined.

(** ** Further properties: the records of the log *)

Section LogAt.
Context `{Host}.

Lemma log_grows_at_refl linenum st : log_grows_at linenum st st.
Proof. exists []. rewrite app_nil_r. split; [reflexivity | constructor]. Qed.

Lemma log_grows_at_same linenum st st' :
  raisedexceptions st' = raisedexceptions st -> log_grows_at linenum st st'.
Proof.
  intros Hlog. exists []. rewrite app_nil_r.
  split; [assumption | constructor].
Qed.

Lemma log_grows_at_trans linenum st1 st2 st3 :
  log_grows_at linenum st1 st2 -> log_grows_at linenum st2 st3 ->
  log_grows_at linenum st1 st3.
Proof.
  intros (a & Ha & Fa) (b & Hb & Fb). exists (a ++ b).
  rewrite Hb, Ha, <- app_assoc. split; [reflexivity|].
  apply Forall_app. split; assumption.
Qed.

Lemma log_grows_at_record linenum st st' type_ line :
  type_ ∈ raised_messages ->
  raisedexceptions st'
  = raisedexceptions st ++ [record type_ line linenum] ->
  log_grows_at linenum st st'.
Proof.
  intros Hty Hlog. exists [record type_ line linenum].
  split; [assumption|]. constructor; [|constructor]. eauto.
Qed.

Lemma statement_log_at line linenum st :
  log_grows_at linenum st (statement line linenum st).
Proof.
  destruct (keyword_of line) as [keyword|] eqn:Hk;
    [|rewrite statement_blank by assumption; apply log_grows_at_refl].
  destruct (decide (keyword ∈ handled_keywords)) as [Hin | Hnot].
  - destruct (statement_handled line linenum st keyword Hk Hin)
      as [Hsame | [Hrec | Hrec]].
    + apply log_grows_at_same. assumption.
    + eapply log_grows_at_record; [|exact Hrec].
      unfold raised_messages. repeat constructor.
    + eapply log_grows_at_record; [|exact Hrec].
      unfold raised_messages. repeat constructor.
  - rewrite (statement_unhandled _ _ _ _ Hk Hnot).
    eapply (log_grows_at_record _ _ _ UnknownCommand line);
      [unfold raised_messages; repeat constructor | reflexivity].
Qed.

Section Loops.
Variable linenum : Z.
Variable interpret : string -> state -> outcome.
Hypothesis interpret_log_at :
  forall line st st',
    outcome_state (interpret line st) = Some st' ->
    log_grows_at linenum st st'.

Lemma for_lines_log_at breaks fuel :
  forall i st st',
    flow_state (for_lines interpret breaks fuel i st) = Some st' ->
    log_grows_at linenum st st'.
Proof.
  induction fuel as [|fuel IH]; intros i st st'; simpl;
    destruct (block_lines st !! i) as [bline|];
    try destruct (breaks && String.eqb bline "break");
    simpl; intros Hst'; simplify_eq; try apply log_grows_at_refl.
  destruct (interpret bline st) as [s|e s|] eqn:E; simpl in Hst';
    simplify_eq.
  - eapply log_grows_at_trans; [|eapply IH; eassumption].
    apply (interpret_log_at bline). rewrite E. reflexivity.
  - apply (interpret_log_at bline). rewrite E. reflexivity.
Qed.

Lemma while_loop_log_at fuel :
  forall st st',
    flow_state (while_loop interpret fuel st) = Some st' ->
    log_grows_at linenum st st'.
Proof.
  induction fuel as [|fuel IH]; intros st st'; simpl;
    rewrite asteval_eta, set_variables_id;
    destruct (fst (asteval (while_condition st) (variables st))) as [c|e];
    try destruct (truthy c); simpl; intros Hst'; simplify_eq;
    try apply log_grows_at_refl.
  destruct (for_lines interpret true fuel 0 st) as [s|s|e s|] eqn:E;
    simpl in Hst'; simplify_eq.
  - eapply log_grows_at_trans; [|eapply IH; eassumption].
    eapply for_lines_log_at. rewrite E. reflexivity.
  - eapply for_lines_log_at. rewrite E. reflexivity.
  - eapply for_lines_log_at. rewrite E. reflexivity.
Qed.

Lemma finish_log_at (after : state -> state) f st st' :
  (forall s, raisedexceptions (after s) = raisedexceptions s) ->
  (forall s, flow_state f = Some s -> log_grows_at linenum st s) ->
  outcome_state (finish after f) = Some st' -> log_grows_at linenum st st'.
Proof.
  intros Hafter Hf. destruct f as [s|s|e s|]; simpl; intros Hst';
    simplify_eq; try (apply Hf; reflexivity).
  eapply log_grows_at_trans; [apply Hf; reflexivity|].
  apply log_grows_at_same. simpl. apply Hafter.
Qed.

Lemma close_block_log_at fuel st st' :
  outcome_state (close_block interpret fuel st) = Some st' ->
  log_grows_at linenum st st'.
Proof.
  unfold close_block, clear_block.
  assert (Hopen : log_grows_at linenum st (set_in_block false st))
    by (apply log_grows_at_same; reflexivity).
  repeat case_match; intros Hst';
    try (simpl in Hst'; simplify_eq; apply log_grows_at_same; reflexivity);
    (eapply log_grows_at_trans; [exact Hopen|]);
    (eapply finish_log_at; [| |exact Hst']);
    try (intros s; reflexivity);
    intros s Hs.
  - eapply while_loop_log_at; eassumption.
  - eapply for_lines_log_at; eassumption.
  - eapply for_lines_log_at; eassumption.
Qed.
End Loops.

Lemma interpret_line_log_at fuel :
  forall line linenum st st',
    outcome_state (interpret_line fuel line linenum st) = Some st' ->
    log_grows_at linenum st st'.
Proof.
  induction fuel as [|fuel IH]; intros line linenum st st'; simpl;
    destruct (in_block st); try destruct (String.eqb line "}");
    simpl; intros Hst'; simplify_eq;
    try apply statement_log_at;
    try (apply log_grows_at_same; reflexivity).
  eapply close_block_log_at; [|exact Hst'].
  intros l s s'. apply IH.
Qed.

(** The records appended by the loop of [run_minipy] carry the numbers of
    the lines it went through. *)
Lemma run_lines_records fuel lines :
  forall linenum st st',
    outcome_state (run_lines fuel lines linenum st) = Some st' ->
    exists added,
      raisedexceptions st' = raisedexceptions st ++ added /\
      Forall (fun r => exists type_ line n,
                  type_ ∈ raised_messages /\
                  linenum <= n < linenum + Z.of_nat (length lines) /\
                  r = record type_ line n)
             added.
Proof.
  induction lines as [|line rest IH]; intros linenum st st'; simpl run_lines.
  - simpl. intros; simplify_eq. exists []. rewrite app_nil_r.
    split; [reflexivity | constructor].
  - assert (Hhere : forall s,
               outcome_state
                 (interpret_line fuel (PyStr.strip line) linenum st) = Some s ->
               exists added,
                 raisedexceptions s = raisedexceptions st ++ added /\
                 Forall (fun r => exists type_ line0 n,
                             type_ ∈ raised_messages /\
                             linenum <= n
                             < linenum + Z.of_nat (length (line :: rest)) /\
                             r = record type_ line0 n)
                        added).
    { intros s Hs. destruct (interpret_line_log_at _ _ _ _ _ Hs)
        as (added & Hlog & Hall).
      exists added. split; [assumption|].
      eapply Forall_impl; [exact Hall|].
      intros r (t & l & Ht & ->). exists t, l, linenum.
      repeat split; try assumption; simpl length; lia. }
    destruct (interpret_line fuel (PyStr.strip line) linenum st)
      as [s|e s|] eqn:E; simpl; intros Hst'; simplify_eq.
    + destruct (Hhere s eq_refl) as (a & Ha & Fa).
      destruct (IH _ _ _ Hst') as (b & Hb & Fb).
      exists (a ++ b). rewrite Hb, Ha, <- app_assoc.
      split; [reflexivity|]. apply Forall_app. split; [assumption|].
      eapply Forall_impl; [exact Fb|].
      intros r (t & l & n & Ht & Hn & ->). exists t, l, n.
      repeat split; try assumption; simpl length; lia.
    + apply Hhere. reflexivity.
Qed.

Lemma record_is_not_illegal type_ line n line' n' :
  type_ ∈ raised_messages ->
  record type_ line n <> record (exceptionslist !!! 2%nat) line' n'.
Proof.
  unfold raised_messages. intros Ht Heq.
  apply (f_equal (String.get 1)) in Heq.
  repeat (apply elem_of_cons in Ht as [-> | Ht]); try discriminate Heq.
  apply elem_of_nil in Ht. contradiction.
Qed.
End LogAt.

(** X20: wherever a run of [run_minipy] ends, every record of the log is
    made of one of the three messages "Unknown command", "Invalid syntax"
    and "Missing opening brace", of the number of a line of the program
    (counted from 1) and of a line text; the message "Illegal statement"
    is never recorded. *)
Theorem log_holds_three_kinds_of_records `{Host} (fuel : nat) (code : string)
    (input : list string) (st : state) :
  outcome_state (run_minipy fuel code input) = Some st ->
  Forall (fun r => exists type_ line n,
              type_ ∈ raised_messages /\
              0 <= n < Z.of_nat (length (PyStr.splitlines code)) /\
              r = type_ +:+ ": Line " +:+ pretty (n + 1) +:+ ": " +:+ line)
         (raisedexceptions st) /\
  (forall line n,
      record (exceptionslist !!! 2%nat) line n ∉ raisedexceptions st).
Proof.
  intros Hst.
  assert (Hall : Forall (fun r => exists type_ line n,
                    type_ ∈ raised_messages /\
                    0 <= n < 0 + Z.of_nat (length (PyStr.splitlines code)) /\
                    r = record type_ line n)
                   (raisedexceptions st)).
  { unfold run_minipy in Hst.
    destruct (run_lines fuel (PyStr.splitlines code) 0 (initial_state input))
      as [s|e s|] eqn:E; simpl in Hst; simplify_eq.
    - destruct (report_fields s) as [-> _].
      destruct (run_lines_records fuel (PyStr.splitlines code) 0
                  (initial_state input) s) as (added & Hlog & Hadded);
        [rewrite E; reflexivity|].
      rewrite Hlog. exact Hadded.
    - destruct (run_lines_records fuel (PyStr.splitlines code) 0
                  (initial_state input) st) as (added & Hlog & Hadded);
        [rewrite E; reflexivity|].
      rewrite Hlog. exact Hadded. }
  split.
  - eapply Forall_impl; [exact Hall|].
    intros r (t & l & n & Ht & Hn & ->). exists t, l, n.
    repeat split; try assumption; lia.
  - intros line n Hin. rewrite Forall_forall in Hall.
    destruct (Hall _ Hin) as (t & l & n' & Ht & _ & Heq).
    symmetry in Heq. eapply record_is_not_illegal; eassumption.
Qed.

Lemma log_holds_three_kinds_of_records_witness :
  exists st,
    @run_minipy Mini.host 0 "foo" [] = Done st /\
    forall line n,
      record (exceptionslist !!! 2%nat) line n ∉ raisedexceptions st.
Proof.
  destruct (@run_minipy Mini.host 0 "foo" []) as [st|e st|] eqn:Hrun;
    [|vm_compute in Hrun; discriminate | vm_compute in Hrun; discriminate].
  exists st. split; [reflexivity|].
  apply (@log_holds_three_kinds_of_records Mini.host 0 "foo" [] st).
  rewrite Hrun. reflexivity.
Defined.

(** X21: every record appended during one call of [interpret_line], for
    the line itself or for the body lines replayed when the line is a
    closing brace, carries the line number given to that call and one of
    the three messages: a failing line of a block body is reported under
    the number of the closing brace of its block. *)
Theorem records_carry_the_number_of_the_call `{Host} (fuel : nat)
    (line : string) (linenum : Z) (st st' : state) :
  outcome_state (interpret_line fuel line linenum st) = Some st' ->
  exists added,
    raisedexceptions st' = raisedexceptions st ++ added /\
    Forall (fun r => exists type_ text,
                type_ ∈ raised_messages /\
                r = type_ +:+ ": Line " +:+ pretty (linenum + 1) +:+ ": "
                    +:+ text)
           added.
Proof. apply interpret_line_log_at. Qed.

Lemma records_carry_the_number_of_the_call_witness :
  exists st',
    @interpret_line Mini.host 4 "}" 9 failing_body = Done st' /\
    raisedexceptions st'
    = ["Unknown command: Line 10: oops"; "Invalid syntax: Line 10: let"].
Proof.
  destruct (@interpret_line Mini.host 4 "}" 9 failing_body)
    as [st'|e st'|] eqn:Hrun;
    [|vm_compute in Hrun; discriminate | vm_compute in Hrun; discriminate].
  exists st'. split; [reflexivity|].
  destruct (@records_carry_the_number_of_the_call Mini.host 4 "}" 9
              failing_body st')
    as (added & Hlog & _); [rewrite Hrun; reflexivity|].
  vm_compute in Hrun. injection Hrun as <-. reflexivity.
Defined.

Lemma foldl_write_stdout (texts : list string) (f : string -> string) :
  forall st,
    stdout (foldl (fun s text => write (f text) s) st texts)
    = stdout st ++ (f <$> texts).
Proof.
  induction texts as [|text texts IH]; intros st; simpl.
  - rewrite app_nil_r. reflexivity.
  - rewrite IH. simpl. rewrite <- app_assoc. reflexivity.
Qed.

(** X22: at the end of a run that was not cut short, [run_minipy] writes,
    after the output of the program, one text per record of the log, in
    the order in which the records were raised, and then the return code,
    which is the exception count; the report changes neither the log nor
    the count. *)
Theorem report_writes_the_log_in_order `{Host} (fuel : nat) (code : string)
    (input : list string) :
  (forall st,
      stdout (report st)
      = stdout st ++ (exception_text <$> raisedexceptions st)
        ++ [return_code_text (exceptioncount st)] /\
      raisedexceptions (report st) = raisedexceptions st /\
      exceptioncount (report st) = exceptioncount st) /\
  (forall st,
      run_minipy fuel code input = Done st ->
      exists s,
        run_lines fuel (PyStr.splitlines code) 0 (initial_state input)
        = Done s /\
        stdout st
        = stdout s ++ (exception_text <$> raisedexceptions st)
          ++ [return_code_text (Z.of_nat (length (raisedexceptions st)))]).
Proof.
  assert (Hreport : forall st,
      stdout (report st)
      = stdout st ++ (exception_text <$> raisedexceptions st)
        ++ [return_code_text (exceptioncount st)] /\
      raisedexceptions (report st) = raisedexceptions st /\
      exceptioncount (report st) = exceptioncount st).
  { intros st. split; [|apply report_fields].
    unfold report. simpl.
    destruct (foldl_write_fields (raisedexceptions st)
                (fun exception =>
                   PyStr.newline +:+ sty.RED +:+ exception +:+ sty.RESET
                   +:+ PyStr.newline) st) as [_ ->].
    rewrite (foldl_write_stdout (raisedexceptions st) exception_text).
    rewrite <- app_assoc. reflexivity. }
  split; [exact Hreport|].
  intros st. unfold run_minipy.
  destruct (run_lines fuel (PyStr.splitlines code) 0 (initial_state input))
    as [s|e s|] eqn:E; intros Hst; simplify_eq.
  exists s. split; [reflexivity|].
  destruct (Hreport s) as (Hout & Hlog & Hcount).
  rewrite Hout, Hlog.
  assert (Hok : log_ok s).
  { eapply log_grows_ok; [|eapply run_lines_log; rewrite E; reflexivity].
    reflexivity. }
  unfold log_ok in Hok. rewrite Hok. reflexivity.
Qed.

Lemma report_writes_the_log_in_order_witness :
  exists st s,
    @run_minipy Mini.host 0 "foo" [] = Done st /\
    @run_lines Mini.host 0 (PyStr.splitlines "foo") 0 (initial_state [])
    = Done s /\
    stdout st
    = stdout s ++ (exception_text <$> raisedexceptions st)
      ++ [return_code_text (Z.of_nat (length (raisedexceptions st)))].
Proof.
  destruct (@run_minipy Mini.host 0 "foo" []) as [st|e st|] eqn:Hrun;
    [|vm_compute in Hrun; discriminate | vm_compute in Hrun; discriminate].
  destruct (proj2 (@report_writes_the_log_in_order Mini.host 0 "foo" [])
              st Hrun) as (s & Hs & Hout).
  exists st, s. split; [reflexivity|]. split; assumption.
Defined.





(** X25: a whole [while] block whose condition evaluates, when the block
    is closed, to a value that does not hold: none of its lines is run or
    even parsed, whatever they are; the program can observe no change, and
    the block state is cleared. *)
Theorem while_false_skips_any_body `{Host} (fuel : nat)
    (line condition : string) (body : list string) (linenum : Z)
    (st : state) (c : value) :
  in_block st = false ->
  opens "while" (PyStr.strip line) condition ->
  Forall (fun l => PyStr.strip l <> "}") body ->
  fst (asteval condition (variables st)) = inl c ->
  truthy c = false ->
  (0 < fuel)%nat ->
  exists st',
    run_lines fuel (block line body) linenum st = Done st' /\
    observable st' = observable st /\
    in_block st' = false /\ block_type st' = None /\ block_lines st' = [] /\
    executed_a_branch st' = executed_a_branch st /\
    while_condition st' = condition.
Proof.
  intros Hidle (Hk & Hbrace & Hcond) Hbody Hc Ht Hfuel.
  unfold block.
  change (line :: body ++ ["}"]) with ([line] ++ body ++ ["}"]).
  rewrite run_lines_app. simpl run_lines at 1.
  rewrite interpret_line_idle by assumption.
  rewrite (statement_keyword _ _ _ _ Hk). simpl. unfold do_while.
  unfold condition_of, remainder in *. rewrite Hbrace, Hcond. simpl negb.
  cbv iota.
  rewrite run_lines_app, run_lines_buffer by (reflexivity || assumption).
  simpl run_lines. change (PyStr.strip "}") with "}".
  destruct fuel as [|fuel]; [lia|].
  rewrite interpret_line_close by reflexivity.
  rewrite close_block_while by reflexivity.
  rewrite (while_loop_exit _ _ _ c) by assumption.
  eexists. split; [reflexivity|]. repeat split.
Qed.

Lemma while_false_skips_any_body_witness :
  exists st',
    @run_lines Mini.host 1 (block "while x > 5 {" ["oops"; "if {"]) 0
      x_is_zero = Done st' /\
    observable st' = observable x_is_zero.
Proof.
  destruct (@while_false_skips_any_body Mini.host 1 "while x > 5 {" "x > 5"
              ["oops"; "if {"] 0 x_is_zero (VBool false))
    as (st' & Hrun & Hobs & _).
  - reflexivity.
  - repeat split; vm_compute; reflexivity.
  - repeat constructor; vm_compute; discriminate.
  - vm_compute. reflexivity.
  - reflexivity.
  - lia.
  - exists st'. split; assumption.
Defined.

(** X26: a whole [if] or [elif] block whose condition evaluates to a value
    that does not hold: none of its lines is run or even parsed, whatever
    they are; the program can observe no change, the branch flag is as
    before and the block state is cleared. *)
Theorem if_false_skips_any_body `{Host} (fuel : nat)
    (keyword line condition : string) (body : list string) (linenum : Z)
    (st : state) (c : value) :
  in_block st = false ->
  keyword = "if" \/ keyword = "elif" ->
  opens keyword (PyStr.strip line) condition ->
  Forall (fun l => PyStr.strip l <> "}") body ->
  fst (asteval condition (variables st)) = inl c ->
  truthy c = false ->
  (0 < fuel)%nat ->
  exists st',
    run_lines fuel (block line body) linenum st = Done st' /\
    observable st' = observable st /\
    in_block st' = false /\ block_type st' = None /\ block_lines st' = [] /\
    executed_a_branch st' = executed_a_branch st /\
    current_condition st' = c.
Proof.
  intros Hidle Hkw Hopens Hbody Hc Ht Hfuel.
  unfold block.
  change (line :: body ++ ["}"]) with ([line] ++ body ++ ["}"]).
  rewrite run_lines_app. simpl run_lines at 1.
  rewrite interpret_line_idle by assumption.
  rewrite (statement_if keyword _ condition) by assumption.
  cbv zeta. rewrite Hc.
  rewrite run_lines_app, run_lines_buffer by (reflexivity || assumption).
  simpl run_lines. change (PyStr.strip "}") with "}".
  destruct fuel as [|fuel]; [lia|].
  rewrite interpret_line_close by reflexivity.
  rewrite close_block_if
    by (simpl; destruct Hkw as [-> | ->]; [left | right]; reflexivity).
  simpl current_condition. rewrite Ht. simpl andb. cbv iota.
  eexists. split; [reflexivity|]. repeat split.
Qed.

Lemma if_false_skips_any_body_witness :
  exists st',
    @run_lines Mini.host 1 (block "if x > 5 {" ["oops"; "while {"]) 0
      x_is_zero = Done st' /\
    observable st' = observable x_is_zero.
Proof.
  destruct (@if_false_skips_any_body Mini.host 1 "if" "if x > 5 {" "x > 5"
              ["oops"; "while {"] 0 x_is_zero (VBool false))
    as (st' & Hrun & Hobs & _).
  - reflexivity.
  - left. reflexivity.
  - repeat split; vm_compute; reflexivity.
  - repeat constructor; vm_compute; discriminate.
  - vm_compute. reflexivity.
  - reflexivity.
  - lia.
  - exists st'. split; assumption.
Defined.

(** X27: outside a block, a [print] line or a [let] line whose
    expression names, in an evaluated position, a variable that is not
    defined is answered by exactly one "Invalid syntax" record, and the
    call returns: nothing is written and no variable is assigned. *)
Theorem undefined_variable_is_recorded `{Host} (fuel : nat)
    (line : string) (linenum : Z) (st : state) (node : ast.expr)
    (id : string) :
  in_block st = false ->
  (keyword_of line = Some "print" /\
   ast_parse (print_text line) = Some (ast.Expression node))
  \/
  (keyword_of line = Some "let" /\
   ast_parse (let_text line) = Some (ast.Expression node)) ->
  id ∈ reads node ->
  variables st !! id = None ->
  interpret_line fuel line linenum st
  = Done (raiseException InvalidSyntax line linenum st).
Proof.
  intros Hidle Hline Hin Hnone.
  destruct (undefined_name_fails node (variables st) id Hin Hnone)
    as [_ Hfail].
  destruct Hline as [[Hk Hparse] | [Hk Hparse]];
    destruct (Hfail _ Hparse) as [e He].
  - eapply print_failure_is_recorded; eassumption.
  - eapply let_failure_is_recorded; eassumption.
Qed.

Lemma undefined_variable_is_recorded_witness :
  @interpret_line Mini.host 0 "let x = (y + 1) * 2" 6 x_is_zero
  = Done (raiseException InvalidSyntax "let x = (y + 1) * 2" 6 x_is_zero).
Proof.
  apply (@undefined_variable_is_recorded Mini.host 0 "let x = (y + 1) * 2" 6
           x_is_zero
           (ast.BinOp (ast.BinOp (ast.Name "y") ast.Add
                         (ast.Constant (VInt 1)))
              ast.Mult (ast.Constant (VInt 2)))
           "y").
  - reflexivity.
  - right. split; vm_compute; reflexivity.
  - simpl. repeat constructor.
  - reflexivity.
Defined.

(** X28: the visitor returns a value only for expressions within its
    tables: an expression with a node class outside the five it handles,
    or with a binary, unary or first comparison operator outside its
    tables, in a position that is evaluated, never has a value. *)
Theorem only_whitelisted_expressions_have_a_value `{Host} (node : ast.expr)
    (variables : gmap string value) (v : value) :
  fst (visit node variables) = Ok v ->
  whitelisted node = true.
Proof.
  revert v.
  induction node as [l op r IHl IHr | l ops cs IHl IHcs | c | id | op e IHe
                    | cls] using expr_ind; intros v Hv; simpl.
  - destruct (BinOp_cases l op r variables)
      as [(e & _ & He) | [(a & e & _ & _ & He) | (a & b & Hl & Hr & He)]];
      try congruence.
    rewrite (IHl a Hl), (IHr b Hr). simpl.
    destruct op; try reflexivity.
    rewrite He in Hv. discriminate.
  - simpl in Hv.
    destruct (visit_cases l variables) as [[a Hl] | [e Hl]].
    + rewrite (eval_bind_ok _ _ _ a Hl) in Hv.
      rewrite (IHl a) by (rewrite Hl; reflexivity). simpl.
      destruct cs as [|c cs]; [discriminate|].
      destruct (visit_cases c variables) as [[b Hc] | [e Hc]].
      * rewrite (eval_bind_ok _ _ _ b Hc) in Hv.
        rewrite (Forall_inv IHcs b) by (rewrite Hc; reflexivity). simpl.
        destruct ops as [|o ops]; [discriminate|].
        destruct o; try reflexivity. discriminate.
      * rewrite (eval_bind_raise _ _ _ e) in Hv by (rewrite Hc; reflexivity).
        discriminate.
    + rewrite (eval_bind_raise _ _ _ e) in Hv by (rewrite Hl; reflexivity).
      discriminate.
  - reflexivity.
  - reflexivity.
  - simpl in Hv.
    destruct (visit_cases e variables) as [[a He] | [e' He]].
    + rewrite (eval_bind_ok _ _ _ a He) in Hv.
      rewrite (IHe a) by (rewrite He; reflexivity). simpl.
      destruct op; try reflexivity. discriminate.
    + rewrite (eval_bind_raise _ _ _ e') in Hv by (rewrite He; reflexivity).
      discriminate.
  - discriminate.
Qed.

Lemma only_whitelisted_expressions_have_a_value_witness :
  whitelisted
    (ast.Compare (ast.UnaryOp ast.USub (ast.Constant (VInt 2)))
       [ast.LtE; ast.OtherCmpop "In"]
       [ast.Constant (VInt 1); ast.OtherNode "List"])
  = true.
Proof.
  apply (@only_whitelisted_expressions_have_a_value Mini.host
           (ast.Compare (ast.UnaryOp ast.USub (ast.Constant (VInt 2)))
              [ast.LtE; ast.OtherCmpop "In"]
              [ast.Constant (VInt 1); ast.OtherNode "List"])
           ∅ (VBool true)).
  reflexivity.
Defined.
